(** * CEZ HDO tariff countdowns: a shallow embedding of
      [custom_components/cez_hdo/base_entity.py] and [dev/cez_hdo/sensor.py].

    The entity methods are embedded in a small state-and-exception monad.
    The state holds the entity's attributes, the wall clock and the trace of
    calls made on the two collaborators whose answers the methods use
    ([downloader.isHdo] and [datetime.now]).  Calls on [_LOGGER] are left
    out: nothing the program computes reads them back. *)

From Stdlib Require Import ZArith Lia List Bool String Ascii.
From Stdlib Require Import DecimalString DecimalPos DecimalZ.
From stdpp Require Import gmap strings.

Local Open Scope Z_scope.

(** ** Python's [datetime] module, as far as the entity uses it *)

Module PyDatetime.

Record date := mkdate { year : Z; month : Z; day : Z }.

Record time := mktime { hour : Z; minute : Z; second : Z; microsecond : Z }.

(** A [datetime] carries a date and a time of day.  Every datetime of the
    program has the one tzinfo [downloader.CEZ_TIMEZONE]; Python ignores the
    tzinfo when it compares or subtracts two datetimes that share it, so it
    is not represented. *)
Record datetime := mkdatetime { dt_date : date; dt_time : time }.

Definition _is_leap (y : Z) : bool :=
  (y mod 4 =? 0) && (negb (y mod 100 =? 0) || (y mod 400 =? 0)).

Definition _days_in_month (y m : Z) : Z :=
  if (m =? 2) && _is_leap y then 29
  else match m with
       | 1 => 31 | 2 => 28 | 3 => 31 | 4 => 30 | 5 => 31 | 6 => 30
       | 7 => 31 | 8 => 31 | 9 => 30 | 10 => 31 | 11 => 30 | 12 => 31
       | _ => -1
       end.

Definition _days_before_year (y : Z) : Z :=
  let y := y - 1 in y * 365 + y / 4 - y / 100 + y / 400.

Definition _days_before_month (y m : Z) : Z :=
  match m with
  | 1 => 0 | 2 => 31 | 3 => 59 | 4 => 90 | 5 => 120 | 6 => 151
  | 7 => 181 | 8 => 212 | 9 => 243 | 10 => 273 | 11 => 304 | 12 => 334
  | _ => -1
  end + (if (2 <? m) && _is_leap y then 1 else 0).

(** [date.toordinal] *)
Definition toordinal (d : date) : Z :=
  _days_before_year (year d) + _days_before_month (year d) (month d) + day d.

(** The invariants every [date] and [time] object satisfies (the
    constructors check them). *)
Definition valid_date (d : date) : Prop :=
  1 <= year d <= 9999 /\ 1 <= month d <= 12 /\
  1 <= day d <= _days_in_month (year d) (month d).

Definition valid_time (t : time) : Prop :=
  0 <= hour t < 24 /\ 0 <= minute t < 60 /\ 0 <= second t < 60 /\
  0 <= microsecond t < 1000000.

Definition valid_datetime (x : datetime) : Prop :=
  valid_date (dt_date x) /\ valid_time (dt_time x).

(** [datetime.combine(date, time, tzinfo=...)] *)
Definition combine (d : date) (t : time) : datetime := mkdatetime d t.

(** Comparison of two datetimes with the same tzinfo: the tuples
    (year, month, day, hour, minute, second, microsecond) are compared
    lexicographically. *)
Fixpoint tuple_cmp (a b : list Z) : comparison :=
  match a, b with
  | x :: a', y :: b' =>
      match x ?= y with Eq => tuple_cmp a' b' | c => c end
  | [], [] => Eq
  | [], _ :: _ => Lt
  | _ :: _, [] => Gt
  end.

Definition fields (x : datetime) : list Z :=
  [year (dt_date x); month (dt_date x); day (dt_date x);
   hour (dt_time x); minute (dt_time x); second (dt_time x);
   microsecond (dt_time x)].

Definition datetime_le (a b : datetime) : bool :=
  match tuple_cmp (fields a) (fields b) with Gt => false | _ => true end.

(** A [timedelta] is the exact number of microseconds it stands for
    (Python keeps it normalised as days, seconds and microseconds). *)
Definition timedelta := Z.

Definition seconds_of_day (t : time) : Z :=
  second t + minute t * 60 + hour t * 3600.

(** [datetime.__sub__] for two datetimes with the same tzinfo:
    [timedelta(days1 - days2, secs1 - secs2, us1 - us2)]. *)
Definition datetime_sub (a b : datetime) : timedelta :=
  ((toordinal (dt_date a) - toordinal (dt_date b)) * 86400
   + (seconds_of_day (dt_time a) - seconds_of_day (dt_time b))) * 1000000
  + (microsecond (dt_time a) - microsecond (dt_time b)).

(** [int(td.total_seconds())]: [total_seconds] is the float nearest to
    microseconds / 10**6 and [int] truncates towards zero.  For the
    differences met here (below two days) the float is closer to the exact
    quotient than any whole number that the quotient is not, so the result is
    the integer quotient truncated towards zero. *)
Definition int_total_seconds (td : timedelta) : Z := Z.quot td 1000000.

(** Microseconds in a day, and microseconds from midnight to a time of
    day. *)
Definition day_us : Z := 86400 * 1000000.

Definition time_us (t : time) : Z :=
  seconds_of_day t * 1000000 + microsecond t.

End PyDatetime.

Import PyDatetime.

(** ** Exceptions and results *)

(** The exception classes the code distinguishes: [_get_hdo_data] catches
    [KeyError] and [TypeError], [datetime.replace] raises [ValueError];
    [OtherError] stands for every other class. *)
Inductive exn := KeyError | TypeError | ValueError | OtherError.

Inductive result (A : Type) : Type :=
| Ok (a : A)
| Raise (e : exn).

Arguments Ok {A} a.
Arguments Raise {A} e.

(** [datetime.replace(day=d)]: builds a new datetime, whose constructor
    raises [ValueError] unless [1 <= d <= days in the month]. *)
Definition replace_day (x : datetime) (d : Z) : result datetime :=
  let dt := dt_date x in
  if (1 <=? d) && (d <=? _days_in_month (year dt) (month dt))
  then Ok (mkdatetime (mkdate (year dt) (month dt) d) (dt_time x))
  else Raise ValueError.

(** ** The [downloader] module *)

(** The tuple [isHdo] returns and [_get_hdo_data] passes on; the source
    reads it by position, given here with each field. *)
Record HdoData := mkHdoData {
  low_tariff_active : bool;               (* [0] *)
  low_tariff_start : option time;         (* [1] *)
  low_tariff_end : option time;           (* [2] *)
  low_tariff_duration : option timedelta; (* [3] *)
  high_tariff_active : bool;              (* [4] *)
  high_tariff_start : option time;        (* [5] *)
  high_tariff_end : option time;          (* [6] *)
  high_tariff_duration : option timedelta (* [7] *)
}.

(** [downloader] is not among the files at hand.  The entity uses it through
    [isHdo(json, preferred_signal=None)], which takes no instant and so reads
    the clock itself: the reading is made an argument here. *)
Class Downloader := {
  payload : Type;
  isHdo : payload -> option string -> datetime -> result HdoData
}.

(** ** The entity, the world around it, and the monad of its methods *)

Section Entity.
Context {D : Downloader}.

Record Entity := mkEntity {
  ean : string;
  signal : option string;
  _name : string;
  _response_data : option payload;
  _last_update_success : bool;
  _last_update_time : option datetime
}.

(** Calls on the collaborators, most recent first. *)
Inductive event :=
| EvIsHdo (data : payload) (preferred_signal : option string)
| EvNow.

Record State := mkState {
  self : Entity;
  clock : datetime;
  trace : list event
}.

Definition M (A : Type) : Type := State -> result A * State.

Definition ret {A} (a : A) : M A := fun s => (Ok a, s).

Definition bind {A B} (m : M A) (k : A -> M B) : M B :=
  fun s => match m s with
           | (Ok a, s') => k a s'
           | (Raise e, s') => (Raise e, s')
           end.

Definition lift {A} (r : result A) : M A := fun s => (r, s).

(** [try: m  except classes: h] *)
Definition try_except {A} (m : M A) (caught : exn -> bool) (h : M A) : M A :=
  fun s => match m s with
           | (Raise e, s') => if caught e then h s' else (Raise e, s')
           | r => r
           end.

Definition get_self : M Entity := fun s => (Ok (self s), s).

Definition record (e : event) (s : State) : State :=
  mkState (self s) (clock s) (e :: trace s).

(** [datetime.now(tz=downloader.CEZ_TIMEZONE)] *)
Definition datetime_now : M datetime :=
  fun s => (Ok (clock s), record EvNow s).

(** [downloader.isHdo(data, preferred_signal=sig)] *)
Definition call_isHdo (data : payload) (sig : option string) : M HdoData :=
  fun s => (isHdo data sig (clock s), record (EvIsHdo data sig) s).

End Entity.

Declare Scope py_scope.
Delimit Scope py_scope with py.
Notation "x <- m ;; k" := (bind m (fun x => k))
  (at level 100, m at next level, right associativity) : py_scope.
Local Open Scope py_scope.

(** ** [class CezHdoBaseEntity] *)

Module CezHdoBaseEntity.
Section Methods.
Context {D : Downloader}.

(** The tuple returned when there is nothing to evaluate. *)
Definition unresolved : HdoData :=
  mkHdoData false None None None false None None None.

(** Truth value of [self.signal]: [None] and the empty string are false. *)
Definition truthy (sig : option string) : bool :=
  match sig with
  | None => false
  | Some s => negb (String.eqb s EmptyString)
  end.

Definition catches_KeyError_TypeError (e : exn) : bool :=
  match e with KeyError | TypeError => true | _ => false end.

Definition _get_hdo_data : M HdoData :=
  self <- get_self ;;
  match _response_data self with
  | None => ret unresolved
  | Some response_data =>
      if negb (_last_update_success self) then ret unresolved
      else
        try_except
          (if truthy (signal self)
           then call_isHdo response_data (signal self)
           else call_isHdo response_data None)
          catches_KeyError_TypeError
          (ret unresolved)
  end.

Definition get_low_tariff_remaining_seconds : M (option Z) :=
  hdo_data <- _get_hdo_data ;;
  match low_tariff_active hdo_data, low_tariff_end hdo_data with
  | true, Some low_tariff_end =>
      now <- datetime_now ;;
      let end_today := combine (dt_date now) low_tariff_end in
      end_today <- (if datetime_le end_today now
                    then lift (replace_day end_today (day (dt_date end_today) + 1))
                    else ret end_today) ;;
      let remaining := datetime_sub end_today now in
      ret (Some (Z.max 0 (int_total_seconds remaining)))
  | _, _ => ret None
  end.

Definition get_high_tariff_remaining_seconds : M (option Z) :=
  hdo_data <- _get_hdo_data ;;
  match high_tariff_active hdo_data, high_tariff_end hdo_data with
  | true, Some high_tariff_end =>
      now <- datetime_now ;;
      let end_today := combine (dt_date now) high_tariff_end in
      end_today <- (if datetime_le end_today now
                    then lift (replace_day end_today (day (dt_date end_today) + 1))
                    else ret end_today) ;;
      let remaining := datetime_sub end_today now in
      ret (Some (Z.max 0 (int_total_seconds remaining)))
  | _, _ => ret None
  end.

Definition get_next_low_tariff_seconds : M (option Z) :=
  hdo_data <- _get_hdo_data ;;
  match low_tariff_active hdo_data, low_tariff_start hdo_data with
  | false, Some low_start =>
      now <- datetime_now ;;
      let start_today := combine (dt_date now) low_start in
      start_today <- (if datetime_le start_today now
                      then lift (replace_day start_today (day (dt_date start_today) + 1))
                      else ret start_today) ;;
      let remaining := datetime_sub start_today now in
      ret (Some (Z.max 0 (int_total_seconds remaining)))
  | _, _ => ret None
  end.

Definition get_next_high_tariff_seconds : M (option Z) :=
  hdo_data <- _get_hdo_data ;;
  match high_tariff_active hdo_data, high_tariff_start hdo_data with
  | false, Some high_start =>
      now <- datetime_now ;;
      let start_today := combine (dt_date now) high_start in
      start_today <- (if datetime_le start_today now
                      then lift (replace_day start_today (day (dt_date start_today) + 1))
                      else ret start_today) ;;
      let remaining := datetime_sub start_today now in
      ret (Some (Z.max 0 (int_total_seconds remaining)))
  | _, _ => ret None
  end.

End Methods.
End CezHdoBaseEntity.

(** ** [class CezHdoFrequentUpdateEntity(CezHdoBaseEntity)] *)

Module CezHdoFrequentUpdateEntity.
Section Methods.
Context {D : Downloader}.

(** [def update(self): pass] *)
Definition update : M unit := ret tt.

Definition should_poll : bool := false.

End Methods.
End CezHdoFrequentUpdateEntity.

(** ** Formatting *)

Module PyFormat.

Definition decimal (n : Z) : string := NilZero.string_of_int (Z.to_int n).

(** The format spec [02d]: decimal, padded with zeros up to two characters
    (a minus sign counts as one of them). *)
Definition format_02d (n : Z) : string :=
  if (0 <=? n) && (n <? 10) then ("0" ++ decimal n)%string else decimal n.

(** [f"{hours:02d}:{minutes:02d}:{seconds:02d}"] *)
Definition hms (hours minutes seconds : Z) : string :=
  (format_02d hours ++ ":" ++ format_02d minutes ++ ":" ++ format_02d seconds)%string.

(** Reading such a text back, to say what it stands for: the characters
    before the first colon and those after it, and the number a run of
    decimal digits denotes. *)
Fixpoint until_colon (s : string) : string * string :=
  match s with
  | EmptyString => (EmptyString, EmptyString)
  | String c s' =>
      if Ascii.eqb c ":" then (EmptyString, s')
      else let (a, b) := until_colon s' in (String c a, b)
  end.

Definition read_decimal (s : string) : option Z :=
  option_map Z.of_int (NilZero.int_of_string s).

Definition read_hms (s : string) : option (Z * Z * Z) :=
  let (h, r) := until_colon s in
  let (m, sec) := until_colon r in
  match read_decimal h, read_decimal m, read_decimal sec with
  | Some h, Some m, Some sec => Some (h, m, sec)
  | _, _, _ => None
  end.

End PyFormat.

(** ** [sensor.py]: the four countdown sensors *)

Module Sensor.
Section Classes.
Context {D : Downloader}.

(** Values stored in the attribute dictionary. *)
Inductive attr_value :=
| AJson (data : payload)
| AStr (s : string)
| ANone.

(** [CezHdoBaseEntity.extra_state_attributes], reached through [super()]. *)
Definition base_extra_state_attributes : M (gmap string attr_value) :=
  self <- get_self ;;
  let attributes : gmap string attr_value := ∅ in
  match _response_data self with
  | Some response_data => ret (<["response_json" := AJson response_data]> attributes)
  | None => ret attributes
  end.

(** The body shared, text for text, by the four [extra_state_attributes]
    properties; they differ in the query they call and in two words of
    [display_text]. *)
Definition remaining_attributes (query : M (option Z))
    (prefix inactive : string) : M (gmap string attr_value) :=
  attrs <- base_extra_state_attributes ;;
  remaining_seconds <- query ;;
  match remaining_seconds with
  | Some remaining_seconds =>
      let hours := remaining_seconds / 3600 in
      let minutes := (remaining_seconds mod 3600) / 60 in
      let seconds := remaining_seconds mod 60 in
      let attrs := <["formatted_time" := AStr (PyFormat.hms hours minutes seconds)]> attrs in
      let attrs := <["display_text" :=
                       AStr (prefix ++ " " ++ PyFormat.hms hours minutes seconds)%string]> attrs in
      ret attrs
  | None =>
      let attrs := <["formatted_time" := ANone]> attrs in
      let attrs := <["display_text" := AStr inactive]> attrs in
      ret attrs
  end.

(** A sensor class, as the host sees it. *)
Record SensorClass := mkSensorClass {
  update : M unit;
  native_value : M (option Z);
  extra_state_attributes : M (gmap string attr_value)
}.

Definition LowTariffRemaining : SensorClass :=
  mkSensorClass CezHdoFrequentUpdateEntity.update
    CezHdoBaseEntity.get_low_tariff_remaining_seconds
    (remaining_attributes CezHdoBaseEntity.get_low_tariff_remaining_seconds
       "Zbývá" "Není aktivní").

Definition HighTariffRemaining : SensorClass :=
  mkSensorClass CezHdoFrequentUpdateEntity.update
    CezHdoBaseEntity.get_high_tariff_remaining_seconds
    (remaining_attributes CezHdoBaseEntity.get_high_tariff_remaining_seconds
       "Zbývá" "Není aktivní").

Definition NextLowTariffCountdown : SensorClass :=
  mkSensorClass CezHdoFrequentUpdateEntity.update
    CezHdoBaseEntity.get_next_low_tariff_seconds
    (remaining_attributes CezHdoBaseEntity.get_next_low_tariff_seconds
       "Za" "Již aktivní").

Definition NextHighTariffCountdown : SensorClass :=
  mkSensorClass CezHdoFrequentUpdateEntity.update
    CezHdoBaseEntity.get_next_high_tariff_seconds
    (remaining_attributes CezHdoBaseEntity.get_next_high_tariff_seconds
       "Za" "Již aktivní").

Definition countdown_sensors : list SensorClass :=
  [LowTariffRemaining; HighTariffRemaining;
   NextLowTariffCountdown; NextHighTariffCountdown].

(** [self.async_schedule_update_ha_state(force_refresh)] is the host's: with
    [force_refresh] it first calls [update], then it writes the state, for
    which it reads the [native_value] and [extra_state_attributes]
    properties. *)
Definition async_schedule_update_ha_state (cls : SensorClass)
    (force_refresh : bool) : M (option Z * gmap string attr_value) :=
  _ <- (if force_refresh then update cls else ret tt) ;;
  state <- native_value cls ;;
  attributes <- extra_state_attributes cls ;;
  ret (state, attributes).

(** [CezHdoFrequentUpdateEntity._async_update_state], the callback the
    one-second timer runs. *)
Definition _async_update_state (cls : SensorClass) :
    M (option Z * gmap string attr_value) :=
  async_schedule_update_ha_state cls false.

End Classes.
End Sensor.

(** ** The evaluator behind [downloader.isHdo], after the specification *)

Module SpecModel.

(** Modelled from the spec: the [SignalWindow] of the data model, one
    published set of time ranges for one signal on one calendar day; the
    module [downloader] that builds it is missing. *)
Record SignalWindow := mkWindow {
  signal_code : string;
  window_day : date;
  ranges : list (time * time)
}.

(** Modelled from the spec: one raw entry of the payload of the missing
    [downloader]: a signal code, a day label and a time-range spec, the last
    two [None] when they cannot be parsed. *)
Record RawEntry := mkEntry {
  entry_signal : string;
  entry_day : option date;
  entry_ranges : option (list (time * time))
}.

(** Modelled from the spec: the missing parsing step of [downloader];
    entries with an unparsable day or time field are skipped. *)
Definition usable_windows (p : list RawEntry) : list SignalWindow :=
  omap (fun e => match entry_day e, entry_ranges e with
                 | Some d, Some rs => Some (mkWindow (entry_signal e) d rs)
                 | _, _ => None
                 end) p.

(** Modelled from the spec: "entries whose code equals it". *)
Definition has_code (c : string) (w : SignalWindow) : bool :=
  String.eqb (signal_code w) c.

(** Modelled from the spec: the number of distinct days on which a code
    appears in the payload. *)
Definition distinct_days (ws : list SignalWindow) (c : string) : nat :=
  length (remove_dups (map (fun w => toordinal (window_day w))
                           (filter (fun w => has_code c w = true) ws))).

(** Modelled from the spec: [c1] wins over [c2] with more distinct days,
    or with as many and a lexicographically smaller code. *)
Definition preferred_over (ws : list SignalWindow) (c1 c2 : string) : bool :=
  let n1 := distinct_days ws c1 in
  let n2 := distinct_days ws c2 in
  (n2 <? n1)%nat || ((n1 =? n2)%nat && String.ltb c1 c2).

(** Modelled from the spec: the frequency-based default of the missing
    Schedule Selector. *)
Definition default_signal (ws : list SignalWindow) : option string :=
  fold_right (fun c best =>
                match best with
                | None => Some c
                | Some b => if preferred_over ws c b then Some c else Some b
                end) None (map signal_code ws).

(** Modelled from the spec: [select(payload, preferred_signal?)] of the
    missing Schedule Selector.  A preferred signal absent from the payload,
    or a payload without usable entries, gives the empty schedule. *)
Definition select (p : list RawEntry) (preferred_signal : option string) :
    list SignalWindow :=
  let ws := usable_windows p in
  match preferred_signal with
  | Some c => filter (fun w => has_code c w = true) ws
  | None =>
      match default_signal ws with
      | Some c => filter (fun w => has_code c w = true) ws
      | None => []
      end
  end.

(** Modelled from the spec: the [ResolvedSchedule] of the missing evaluator,
    the selected windows of yesterday, today and tomorrow relative to the
    reference instant. *)
Definition resolve (ws : list SignalWindow) (reference_instant : datetime) :
    list SignalWindow :=
  filter (fun w => Z.abs (toordinal (window_day w)
                          - toordinal (dt_date reference_instant)) <= 1) ws.

(** Modelled from the spec: an absolute instant, counted in microseconds,
    from a day and a time of day. *)
Definition instant_at (ordinal : Z) (t : time) : Z :=
  ordinal * day_us + time_us t.

(** Modelled from the spec: the time of day of an instant, for the
    [time | null] fields of the result. *)
Definition time_of_instant (i : Z) : time :=
  let us := i mod day_us in
  mktime (us / 3600000000) ((us / 60000000) mod 60)
         ((us / 1000000) mod 60) (us mod 1000000).

(** Modelled from the spec: step 1 of the missing evaluator, the ranges
    of a window as absolute half-open intervals; a range whose end is less
    than its start runs into the next day. *)
Definition flatten_window (w : SignalWindow) : list (Z * Z) :=
  let o := toordinal (window_day w) in
  map (fun r : time * time =>
         let (start_time, end_time) := r in
         (instant_at o start_time,
          if time_us end_time <? time_us start_time
          then instant_at (o + 1) end_time
          else instant_at o end_time)) (ranges w).

(** Modelled from the spec: step 2 of the missing evaluator needs the
    intervals in chronological order. *)
Fixpoint insert_by_start (iv : Z * Z) (l : list (Z * Z)) : list (Z * Z) :=
  match l with
  | [] => [iv]
  | iv' :: l' =>
      if fst iv <=? fst iv' then iv :: l else iv' :: insert_by_start iv l'
  end.

(** Modelled from the spec: step 2 of the missing evaluator; an interval
    that starts no later than the current one ends is merged into it. *)
Fixpoint merge_from (cur : Z * Z) (l : list (Z * Z)) : list (Z * Z) :=
  match l with
  | [] => [cur]
  | iv :: l' =>
      if fst iv <=? snd cur
      then merge_from (fst cur, Z.max (snd cur) (snd iv)) l'
      else cur :: merge_from iv l'
  end.

(** Modelled from the spec: the merged low-tariff intervals of steps 1
    and 2 of the missing evaluator. *)
Definition merged_low_intervals (resolved : list SignalWindow) : list (Z * Z) :=
  let flat := filter (fun iv : Z * Z => fst iv < snd iv)
                     (concat (map flatten_window resolved)) in
  match fold_right insert_by_start [] flat with
  | [] => []
  | iv :: l => merge_from iv l
  end.

(** Modelled from the spec: step 6 of the missing evaluator, membership
    in a half-open interval. *)
Definition contains (i : Z) (iv : Z * Z) : bool :=
  (fst iv <=? i) && (i <? snd iv).

(** Modelled from the spec: [evaluate(resolved, reference_instant)] of the
    missing Tariff Evaluator, steps 1 to 6, with the result in the tuple
    layout of the source. *)
Definition evaluate (resolved : list SignalWindow) (reference_instant : datetime) :
    HdoData :=
  match resolved with
  | [] => CezHdoBaseEntity.unresolved
  | _ :: _ =>
      let today := toordinal (dt_date reference_instant) in
      let t0 := (today - 1) * day_us in
      let t1 := (today + 2) * day_us in
      let i := instant_at today (dt_time reference_instant) in
      let low := merged_low_intervals resolved in
      match List.find (contains i) low with
      | Some (s, e) =>
          mkHdoData true (Some (time_of_instant s)) (Some (time_of_instant e))
                    (Some (e - s))
                    false (if e <? t1 then Some (time_of_instant e) else None)
                    None None
      | None =>
          let before := filter (fun iv : Z * Z => snd iv <= i) low in
          let after := filter (fun iv : Z * Z => i < fst iv) low in
          let s := fold_right Z.max t0 (map snd before) in
          let e := fold_right Z.min t1 (map fst after) in
          mkHdoData false
                    (match after with [] => None | _ :: _ => Some (time_of_instant e) end)
                    None None
                    true (Some (time_of_instant s)) (Some (time_of_instant e))
                    (Some (e - s))
      end
  end.

(** Modelled from the spec: [downloader.isHdo], selection followed by
    evaluation; by the spec it raises nothing. *)
Definition isHdo (p : list RawEntry) (preferred_signal : option string)
    (now : datetime) : result HdoData :=
  Ok (evaluate (resolve (select p preferred_signal) now) now).

End SpecModel.

(** Modelled from the spec: the missing [downloader] module as a whole. *)
#[export] Instance SpecDownloader : Downloader :=
  {| payload := list SpecModel.RawEntry; isHdo := SpecModel.isHdo |}.

(** A stand-in downloader, in the manner of [MockDownloader] of
    [test_new_features.py]: it has no payload to read and answers each call
    with what [answer] gives for the instant of the call. *)
Definition MockDownloader (answer : datetime -> result HdoData) : Downloader :=
  {| payload := unit; isHdo := fun _ _ now => answer now |}.

(** ** Vocabulary of the statements *)

(** The four countdown queries of [CezHdoBaseEntity]. *)
Inductive countdown :=
| LowRemaining    (* get_low_tariff_remaining_seconds *)
| HighRemaining   (* get_high_tariff_remaining_seconds *)
| NextLow         (* get_next_low_tariff_seconds *)
| NextHigh.       (* get_next_high_tariff_seconds *)

Definition query {D : Downloader} (k : countdown) : M (option Z) :=
  match k with
  | LowRemaining => CezHdoBaseEntity.get_low_tariff_remaining_seconds
  | HighRemaining => CezHdoBaseEntity.get_high_tariff_remaining_seconds
  | NextLow => CezHdoBaseEntity.get_next_low_tariff_seconds
  | NextHigh => CezHdoBaseEntity.get_next_high_tariff_seconds
  end.

(** The activation precondition of a query and the tuple field holding its
    boundary. *)
Definition precondition (k : countdown) (d : HdoData) : bool :=
  match k with
  | LowRemaining => low_tariff_active d
  | HighRemaining => high_tariff_active d
  | NextLow => negb (low_tariff_active d)
  | NextHigh => negb (high_tariff_active d)
  end.

Definition boundary (k : countdown) (d : HdoData) : option time :=
  match k with
  | LowRemaining => low_tariff_end d
  | HighRemaining => high_tariff_end d
  | NextLow => low_tariff_start d
  | NextHigh => high_tariff_start d
  end.

(** The signal [_get_hdo_data] passes to [isHdo]. *)
Definition effective_signal {D : Downloader} (e : Entity) : option string :=
  if CezHdoBaseEntity.truthy (signal e) then signal e else None.

(** Whole seconds from [now] to [target], floored at 0. *)
Definition seconds_until (target now : datetime) : Z :=
  Z.max 0 (int_total_seconds (datetime_sub target now)).

(** The day after [d] inside the month of [d]. *)
Definition next_day (d : date) : date := mkdate (year d) (month d) (day d + 1).

(** Microseconds from [now] to the next time the clock shows [t], strictly
    after [now]. *)
Definition until_next_occurrence (now : datetime) (t : time) : Z :=
  let g := time_us t - time_us (dt_time now) in
  if 0 <? g then g else g + day_us.

(** What the tail of each query computes from the clock reading and the
    boundary. *)
Definition rollover_countdown (now : datetime) (t : time) : result (option Z) :=
  let at_today := combine (dt_date now) t in
  match (if datetime_le at_today now
         then replace_day at_today (day (dt_date at_today) + 1)
         else Ok at_today) with
  | Ok target => Ok (Some (Z.max 0 (int_total_seconds (datetime_sub target now))))
  | Raise e => Raise e
  end.

(** What [_get_hdo_data] returns for an entity at a clock reading, and the
    calls it makes. *)
Definition hdo_outcome {D : Downloader} (e : Entity) (now : datetime) :
    result HdoData :=
  match _response_data e with
  | None => Ok CezHdoBaseEntity.unresolved
  | Some p =>
      if _last_update_success e
      then match isHdo p (effective_signal e) now with
           | Raise ex =>
               if CezHdoBaseEntity.catches_KeyError_TypeError ex
               then Ok CezHdoBaseEntity.unresolved else Raise ex
           | Ok d => Ok d
           end
      else Ok CezHdoBaseEntity.unresolved
  end.

Definition hdo_events {D : Downloader} (e : Entity) : list event :=
  match _response_data e with
  | None => []
  | Some p => if _last_update_success e then [EvIsHdo p (effective_signal e)] else []
  end.

(** The schedule the modelled evaluator resolves for an entity at a clock
    reading; empty when the entity has no usable response data. *)
Definition resolved_schedule (s : @State SpecDownloader) : list SpecModel.SignalWindow :=
  match _response_data (self s) with
  | None => []
  | Some p =>
      if _last_update_success (self s)
      then SpecModel.resolve (SpecModel.select p (effective_signal (self s))) (clock s)
      else []
  end.

(** The data is absent (no response, or the last update failed) or
    unusable (the parser raises one of the two exceptions
    [_get_hdo_data] catches). *)
Definition absent_or_unusable {D : Downloader} (s : State) : Prop :=
  _response_data (self s) = None
  \/ _last_update_success (self s) = false
  \/ exists p ex,
       _response_data (self s) = Some p
       /\ isHdo p (effective_signal (self s)) (clock s) = Raise ex
       /\ CezHdoBaseEntity.catches_KeyError_TypeError ex = true.

(** The dictionary [CezHdoBaseEntity.extra_state_attributes] returns. *)
Definition base_attributes {D : Downloader} (e : Entity) :
    gmap string Sensor.attr_value :=
  match _response_data e with
  | Some p => <["response_json" := Sensor.AJson p]> ∅
  | None => ∅
  end.

(** *** Readings of the specification that the code does not meet *)


(** "A countdown is at least 0 and is exactly 0 only at the boundary
    instant". *)
Definition zero_only_at_boundary : Prop :=
  forall (D : Downloader) (k : countdown) (s : State) (d : HdoData) (e : time) (v : Z),
    valid_datetime (clock s) -> valid_time e ->
    fst (CezHdoBaseEntity._get_hdo_data s) = Ok d ->
    precondition k d = true -> boundary k d = Some e ->
    fst (query k s) = Ok (Some v) ->
    0 <= v /\ (v = 0 -> dt_time (clock s) = e).


(** *** Concrete inputs *)

Module Scenarios.

Definition hm (h m : Z) : time := mktime h m 0 0.

(** Low tariff from 22:00 to 06:00 is running. *)
Definition low_night : HdoData :=
  mkHdoData true (Some (hm 22 0)) (Some (hm 6 0)) (Some (8 * 3600 * 1000000))
            false (Some (hm 6 0)) None None.

(** Low tariff from 08:00 to 20:00 is running. *)
Definition low_day : HdoData :=
  mkHdoData true (Some (hm 8 0)) (Some (hm 20 0)) (Some (12 * 3600 * 1000000))
            false (Some (hm 20 0)) None None.

(** High tariff is running, the next low tariff starts at 08:00. *)
Definition high_evening : HdoData :=
  mkHdoData false (Some (hm 8 0)) None None
            true (Some (hm 20 0)) (Some (hm 8 0)) (Some (12 * 3600 * 1000000)).

Definition mock (d : HdoData) : Downloader := MockDownloader (fun _ => Ok d).

Definition failing (ex : exn) : Downloader := MockDownloader (fun _ => Raise ex).

(** An entity with response data and a successful last update. *)
Definition loaded {D : Downloader} (p : payload) : Entity :=
  mkEntity "859182400100000000" (Some "a3b4dp01") "LowTariffRemaining"
           (Some p) true None.

(** An entity before its first successful fetch. *)
Definition fresh {D : Downloader} : Entity :=
  mkEntity "859182400100000000" (Some "a3b4dp01") "LowTariffRemaining"
           None false None.

Definition at_ (y mo d h mi sec us : Z) : datetime :=
  mkdatetime (mkdate y mo d) (mktime h mi sec us).

Definition state_with (d : HdoData) (now : datetime) : @State (mock d) :=
  mkState (@loaded (mock d) tt) now [].

(** The schedule of the specification's scenario: signal X, low tariff
    08:00-20:00 on 2024-01-01. *)
Definition scenario : list SpecModel.RawEntry :=
  [SpecModel.mkEntry "X" (Some (mkdate 2024 1 1)) (Some [(hm 8 0, hm 20 0)])].

Definition spec_state (p : list SpecModel.RawEntry) (sig : option string)
    (now : datetime) : @State SpecDownloader :=
  mkState (mkEntity "859182400100000000" sig "LowTariffRemaining" (Some p) true None)
          now [].

End Scenarios.

(** ** [CezHdoBaseEntity.update]: cache first, then the API *)

Module Fetch.
Section Fetch.
Context {D : Downloader}.

(** What [response.content] gives once decoded and parsed: the JSON data
    with the value of
    [len(json_data.get("data", {}).get("signals", []))], [None] when that
    expression raises; or nothing, when decoding or [json.loads] raises
    [UnicodeDecodeError] or [JSONDecodeError]. *)
Inductive body :=
| Parsed (json_data : payload) (signals_count : option nat)
| Unparsable.

(** How one pass through the [try] block goes: an exception before the
    request leaves ([downloader.BASE_URL], [get_request_data]), a response,
    a [requests.RequestException], or any other exception of the
    request. *)
Inductive http_outcome :=
| PreparationError
| Response (status_code : Z) (content : body)
| RequestException
| OtherException.

(** How saving to one cache path goes: the directory is made, the file
    opened and the JSON dumped; or [mkdir] or [open] raises, and the file is
    as it was; or [json.dump] raises once [open(cache_path, "w")] has emptied
    the file, which leaves a file that does not parse. *)
Inductive write_outcome :=
| Written
| NotOpened
| Truncated.

(** The surroundings: what the n-th request of a run meets, and how saving
    to each path goes. *)
Record Env := mkEnv {
  post : nat -> http_outcome;
  write : string -> write_outcome
}.

(** Saving to the path succeeds. *)
Definition writable (env : Env) (cache_path : string) : bool :=
  match write env cache_path with
  | Written => true
  | _ => false
  end.

(** Calls of [requests.post] and [time.sleep], most recent first. *)
Inductive io_event :=
| IoPost
| IoSleep (seconds : Z).

(** The cache files and the calls made so far.  A path that is no key is a
    file that does not exist; a file holds [Some data] when it can be read
    and parsed, [None] when reading or [json.loads] raises. *)
Record World := mkWorld {
  cache_files : gmap string (option payload);
  io_log : list io_event
}.

Definition posts (w : World) : nat :=
  length (List.filter (fun ev => match ev with IoPost => true | _ => false end)
                      (io_log w)).

Definition log_io (ev : io_event) (w : World) : World :=
  mkWorld (cache_files w) (ev :: io_log w).

Definition cache_paths : list string :=
  ["/config/www/cez_hdo/cez_hdo.json";
   "/config/www/cez_hdo_debug.json";
   "/mnt/ha-config/www/cez_hdo/cez_hdo.json";
   "/mnt/ha-config/www/cez_hdo_debug.json"]%string.

(** [self._response_data = json_data; self._last_update_success = True] *)
Definition store (json_data : payload) (self : Entity) : Entity :=
  mkEntity (ean self) (signal self) (_name self)
           (Some json_data) true (_last_update_time self).

(** [self._last_update_success = False] *)
Definition mark_failed (self : Entity) : Entity :=
  mkEntity (ean self) (signal self) (_name self)
           (_response_data self) false (_last_update_time self).

(** [_load_from_cache]: true, with the data stored, when the file exists
    and reads and parses; false on a missing file and on any exception. *)
Definition _load_from_cache (cache_file : string) (self : Entity) (w : World) :
    bool * Entity :=
  match cache_files w !! cache_file with
  | Some (Some json_data) => (true, store json_data self)
  | _ => (false, self)
  end.

(** [for cache_path in cache_paths: if self._load_from_cache(cache_path): return] *)
Fixpoint load_first (paths : list string) (self : Entity) (w : World) :
    bool * Entity :=
  match paths with
  | [] => (false, self)
  | cache_path :: paths' =>
      let (ok, self') := _load_from_cache cache_path self w in
      if ok then (true, self') else load_first paths' self' w
  end.

(** The loop that saves to the cache: the first path on which the write
    succeeds ends it ([break]); a failing path is skipped with a
    warning. *)
Fixpoint save_first (env : Env) (json_data : payload) (paths : list string)
    (w : World) : World :=
  match paths with
  | [] => w
  | cache_path :: paths' =>
      match write env cache_path with
      | Written =>
          mkWorld (<[cache_path := Some json_data]> (cache_files w)) (io_log w)
      | NotOpened => save_first env json_data paths' w
      | Truncated =>
          save_first env json_data paths'
            (mkWorld (<[cache_path := None]> (cache_files w)) (io_log w))
      end
  end.

(** How one iteration of [for attempt in range(2)] ends. *)
Inductive flow := Return | Continue | Break.

Definition api_attempt (env : Env) (attempt : nat) (self : Entity) (w : World) :
    flow * Entity * World :=
  match post env (posts w) with
  | PreparationError => (Break, self, w)
  | Response status_code content =>
      let w := log_io IoPost w in
      if status_code =? 200 then
        match content with
        | Parsed json_data (Some signals_count) =>
            if (0 <? signals_count)%nat
            then (Return, store json_data self,
                  save_first env json_data cache_paths w)
            else (Break, self, w)
        | Parsed _ None => (Break, self, w)
        | Unparsable => (Break, self, w)
        end
      else if status_code =? 502 then
        if (attempt =? 0)%nat
        then (Continue, self, log_io (IoSleep 3) w)
        else (Break, self, w)
      else (Break, self, w)
  | RequestException =>
      let w := log_io IoPost w in
      if (attempt =? 0)%nat
      then (Continue, self, log_io (IoSleep 2) w)
      else (Break, self, w)
  | OtherException => (Break, self, log_io IoPost w)
  end.

(** The [for attempt in ...] loop; true when the method returned from
    inside it. *)
Fixpoint api_loop (env : Env) (attempts : list nat) (self : Entity) (w : World) :
    bool * Entity * World :=
  match attempts with
  | [] => (false, self, w)
  | attempt :: attempts' =>
      match api_attempt env attempt self w with
      | (Return, self', w') => (true, self', w')
      | (Continue, self', w') => api_loop env attempts' self' w'
      | (Break, self', w') => (false, self', w')
      end
  end.

(** The body of [update].  The decorator [@Throttle] is the host's: it
    decides whether a call reaches the body. *)
Definition update (env : Env) (self : Entity) (w : World) : Entity * World :=
  let (loaded, self) := load_first cache_paths self w in
  if loaded then (self, w)
  else
    match api_loop env [0; 1]%nat self w with
    | (true, self, w) => (self, w)
    | (false, self, w) => (mark_failed self, w)
    end.

(** [CezHdoBaseEntity.__init__]: the attributes, then [self.update()]. *)
Definition __init__ (env : Env) (ean : string) (name : string)
    (signal : option string) (w : World) : Entity * World :=
  update env (mkEntity ean signal name None false None) w.

(** [available] *)
Definition available (self : Entity) : bool := _last_update_success self.

(** [name] and [unique_id]: [f"{DOMAIN}_{self._name}"] *)
Definition unique_id (self : Entity) : string :=
  ("cez_hdo" ++ "_" ++ _name self)%string.

End Fetch.
End Fetch.

(** *** Vocabulary for [update] *)

(** No data can be loaded from the cache file at [path]. *)
Definition unloadable {D : Downloader} (w : Fetch.World) (path : string) : Prop :=
  forall json_data, Fetch.cache_files w !! path <> Some (Some json_data).

(** The request meets a response with status 200 whose body parses to
    [json_data] with a non-empty list of signals. *)
Definition delivers {D : Downloader} (o : Fetch.http_outcome) (json_data : payload) :
    Prop :=
  exists n : nat, (0 < n)%nat /\ o = Fetch.Response 200 (Fetch.Parsed json_data (Some n)).

(** The request meets what the code retries after: status 502, or a
    [RequestException]. *)
Definition retried {D : Downloader} (o : Fetch.http_outcome) : Prop :=
  (exists content, o = Fetch.Response 502 content) \/ o = Fetch.RequestException.

(** The paths the saving loop gets to: those up to the first that can be
    written. *)
Fixpoint attempted {D : Downloader} (env : Fetch.Env) (paths : list string) :
    list string :=
  match paths with
  | [] => []
  | cache_path :: paths' =>
      match Fetch.write env cache_path with
      | Fetch.Written => [cache_path]
      | _ => cache_path :: attempted env paths'
      end
  end.

(** The pause before the second request: [time.sleep(2)] after a
    [RequestException], [time.sleep(3)] after a status 502. *)
Definition retry_sleep {D : Downloader} (o : Fetch.http_outcome) : Z :=
  match o with
  | Fetch.RequestException => 2
  | _ => 3
  end.

(** Seconds spent in [time.sleep] so far. *)
Definition slept {D : Downloader} (w : Fetch.World) : Z :=
  fold_right (fun ev acc => match ev with
                            | Fetch.IoSleep seconds => seconds + acc
                            | Fetch.IoPost => acc
                            end) 0 (Fetch.io_log w).

(** *** Concrete surroundings for [update] *)

Module FetchScenarios.

Definition second_path : string := "/config/www/cez_hdo_debug.json".

Definition third_path : string := "/mnt/ha-config/www/cez_hdo/cez_hdo.json".

(** Nothing cached, nothing requested yet. *)
Definition empty_world : @Fetch.World SpecDownloader := Fetch.mkWorld ∅ [].

(** The first cache file exists but does not parse, the second holds the
    schedule of the specification's scenario. *)
Definition cached_world : @Fetch.World SpecDownloader :=
  Fetch.mkWorld
    (<[second_path := Some Scenarios.scenario]>
       (<["/config/www/cez_hdo/cez_hdo.json"%string := None]> ∅)) [].

(** Saving to the second path fails with the file open, the third path
    can be written, the others cannot be opened. *)
Definition only_third_writable (path : string) : Fetch.write_outcome :=
  if String.eqb path third_path then Fetch.Written
  else if String.eqb path second_path then Fetch.Truncated
  else Fetch.NotOpened.

(** The API answers 200 with three signals; only the third cache path can
    be written. *)
Definition env_ok : @Fetch.Env SpecDownloader :=
  Fetch.mkEnv (fun _ => Fetch.Response 200 (Fetch.Parsed Scenarios.scenario (Some 3%nat)))
              only_third_writable.

(** The API answers 502 first and 200 with three signals then. *)
Definition env_retry : @Fetch.Env SpecDownloader :=
  Fetch.mkEnv (fun n => match n with
                        | O => Fetch.Response 502 Fetch.Unparsable
                        | _ => Fetch.Response 200
                                 (Fetch.Parsed Scenarios.scenario (Some 3%nat))
                        end)
              only_third_writable.

(** The network is down and nothing can be written. *)
Definition env_down : @Fetch.Env SpecDownloader :=
  Fetch.mkEnv (fun _ => Fetch.RequestException) (fun _ => Fetch.NotOpened).

(** An entity that loaded data earlier. *)
Definition loaded_entity : @Entity SpecDownloader :=
  mkEntity "859182400100000000" (Some "X") "LowTariffStart"
           (Some Scenarios.scenario) true None.

End FetchScenarios.

(** ** [sensor.py]: the time sensors and [setup_platform] *)

Module TimeSensors.
Section Classes.
Context {D : Downloader}.

(** [LowTariffStart.native_value]: [hdo_data[1]] *)
Definition LowTariffStart : M (option time) :=
  hdo_data <- CezHdoBaseEntity._get_hdo_data ;;
  ret (low_tariff_start hdo_data).

(** [LowTariffEnd.native_value]: [hdo_data[2]] *)
Definition LowTariffEnd : M (option time) :=
  hdo_data <- CezHdoBaseEntity._get_hdo_data ;;
  ret (low_tariff_end hdo_data).

(** [HighTariffStart.native_value]: [hdo_data[5]] *)
Definition HighTariffStart : M (option time) :=
  hdo_data <- CezHdoBaseEntity._get_hdo_data ;;
  ret (high_tariff_start hdo_data).

(** [HighTariffEnd.native_value]: [hdo_data[6]] *)
Definition HighTariffEnd : M (option time) :=
  hdo_data <- CezHdoBaseEntity._get_hdo_data ;;
  ret (high_tariff_end hdo_data).

End Classes.
End TimeSensors.

Module Platform.
Section Platform.
Context {D : Downloader}.

(** [CezHdoFrequentUpdateEntity.__init__]: [super().__init__] sets the
    attributes and calls [self.update()], which for this class is the
    override [pass]; nothing is read and nothing is requested. *)
Definition frequent__init__ (ean : string) (name : string)
    (signal : option string) (w : Fetch.World) : Entity * Fetch.World :=
  (mkEntity ean signal name None false None, w).

(** [setup_platform]: the ten entities, built in the order of the list. *)
Definition setup_platform (env : Fetch.Env) (ean : string) (signal : option string)
    (w : Fetch.World) : list Entity * Fetch.World :=
  let '(e1, w) := Fetch.__init__ env ean "LowTariffStart" signal w in
  let '(e2, w) := Fetch.__init__ env ean "LowTariffEnd" signal w in
  let '(e3, w) := Fetch.__init__ env ean "LowTariffDuration" signal w in
  let '(e4, w) := Fetch.__init__ env ean "HighTariffStart" signal w in
  let '(e5, w) := Fetch.__init__ env ean "HighTariffEnd" signal w in
  let '(e6, w) := Fetch.__init__ env ean "HighTariffDuration" signal w in
  let '(e7, w) := frequent__init__ ean "LowTariffRemaining" signal w in
  let '(e8, w) := frequent__init__ ean "HighTariffRemaining" signal w in
  let '(e9, w) := frequent__init__ ean "NextLowTariffCountdown" signal w in
  let '(e10, w) := frequent__init__ ean "NextHighTariffCountdown" signal w in
  ([e1; e2; e3; e4; e5; e6; e7; e8; e9; e10], w).

(** Timer callbacks of a countdown sensor at successive clock readings,
    each with the state the one before left. *)
Fixpoint callbacks (cls : Sensor.SensorClass) (clocks : list datetime) (s : State) :
    list (result (option Z * gmap string Sensor.attr_value)) * State :=
  match clocks with
  | [] => ([], s)
  | now :: clocks' =>
      let (r, s') := Sensor._async_update_state cls (mkState (self s) now (trace s)) in
      let (rs, s'') := callbacks cls clocks' s' in
      (r :: rs, s'')
  end.

End Platform.
End Platform.

(** The time sensor that shows the boundary a countdown query counts to. *)
Definition boundary_sensor {D : Downloader} (k : countdown) : M (option time) :=
  match k with
  | LowRemaining => TimeSensors.LowTariffEnd
  | HighRemaining => TimeSensors.HighTariffEnd
  | NextLow => TimeSensors.LowTariffStart
  | NextHigh => TimeSensors.HighTariffStart
  end.

(** ** [test_new_features.py] *)

Module TestNewFeatures.

(** [MockDownloader.format_duration]; [f"{hours}"] is the plain decimal. *)
Definition format_duration (duration : option timedelta) : string :=
  match duration with
  | None => "0:00:00"
  | Some duration =>
      let total_seconds := int_total_seconds duration in
      let hours := total_seconds / 3600 in
      let minutes := (total_seconds mod 3600) / 60 in
      let seconds := total_seconds mod 60 in
      (PyFormat.decimal hours ++ ":" ++ PyFormat.format_02d minutes
       ++ ":" ++ PyFormat.format_02d seconds)%string
  end.

End TestNewFeatures.

(** ** [__init__.py] and the entities' life in the host *)

Module Integration.
Section Integration.
Context {D : Downloader}.

(** [hass.data[DOMAIN]], with the two keys the code uses; a key that is
    absent is [None]. *)
Record DomainData := mkDomainData {
  entities : option (list nat);
  daily_refresh_unsub : option nat
}.

(** What one call of [_ensure_frontend_card] meets: whether [mkdir]
    succeeds, whether the source file exists, whether the copy succeeds,
    whether [add_extra_js_url] returns, and [int(time.time())]. *)
Record FrontendCall := mkFrontendCall {
  mkdir_ok : bool;
  source_exists : bool;
  copy_ok : bool;
  add_url_ok : bool;
  epoch : Z
}.

(** The host as the integration sees it.  Entity objects are told apart by
    identity, written as a number; the handles that time trackers return
    are numbers as well, and a listener is active while its handle is in
    [listeners]. *)
Record Hass := mkHass {
  domain_data : option DomainData;   (* hass.data.get(DOMAIN) *)
  objects : gmap nat Entity;         (* the entity objects *)
  interval_unsub : gmap nat nat;     (* _update_interval_unsub of each frequent entity *)
  listeners : list nat;              (* active time listeners *)
  next_handle : nat;
  scheduled : list (nat * bool);     (* async_schedule_update_ha_state(force), latest first *)
  services : list string;            (* services registered for DOMAIN, latest first *)
  _FRONTEND_REGISTERED : bool;       (* the module's global *)
  extra_js_urls : list string;       (* add_extra_js_url, latest first *)
  www_copies : nat;                  (* copies of the card made into www *)
  frontend_calls : nat               (* calls of _deploy_frontend_file so far *)
}.

Definition set_domain_data (dd : option DomainData) (h : Hass) : Hass :=
  mkHass dd (objects h) (interval_unsub h) (listeners h) (next_handle h)
         (scheduled h) (services h) (_FRONTEND_REGISTERED h) (extra_js_urls h)
         (www_copies h) (frontend_calls h).

Definition set_objects (o : gmap nat Entity) (h : Hass) : Hass :=
  mkHass (domain_data h) o (interval_unsub h) (listeners h) (next_handle h)
         (scheduled h) (services h) (_FRONTEND_REGISTERED h) (extra_js_urls h)
         (www_copies h) (frontend_calls h).

Definition set_interval_unsub (u : gmap nat nat) (h : Hass) : Hass :=
  mkHass (domain_data h) (objects h) u (listeners h) (next_handle h)
         (scheduled h) (services h) (_FRONTEND_REGISTERED h) (extra_js_urls h)
         (www_copies h) (frontend_calls h).

Definition set_scheduled (l : list (nat * bool)) (h : Hass) : Hass :=
  mkHass (domain_data h) (objects h) (interval_unsub h) (listeners h) (next_handle h)
         l (services h) (_FRONTEND_REGISTERED h) (extra_js_urls h)
         (www_copies h) (frontend_calls h).

(** A time tracker ([async_track_time_interval], [async_track_time_change])
    starts a listener and returns the handle that stops it. *)
Definition track (h : Hass) : nat * Hass :=
  (next_handle h,
   mkHass (domain_data h) (objects h) (interval_unsub h)
          (next_handle h :: listeners h) (S (next_handle h))
          (scheduled h) (services h) (_FRONTEND_REGISTERED h) (extra_js_urls h)
          (www_copies h) (frontend_calls h)).

(** Calling a handle stops its listener. *)
Definition cancel (handle : nat) (h : Hass) : Hass :=
  mkHass (domain_data h) (objects h) (interval_unsub h)
         (List.filter (fun x => negb (Nat.eqb x handle)) (listeners h)) (next_handle h)
         (scheduled h) (services h) (_FRONTEND_REGISTERED h) (extra_js_urls h)
         (www_copies h) (frontend_calls h).

Definition register_service (name : string) (h : Hass) : Hass :=
  mkHass (domain_data h) (objects h) (interval_unsub h) (listeners h) (next_handle h)
         (scheduled h) (name :: services h) (_FRONTEND_REGISTERED h) (extra_js_urls h)
         (www_copies h) (frontend_calls h).

(** [list.remove(x)]: the first occurrence goes. *)
Fixpoint remove_first (x : nat) (l : list nat) : list nat :=
  match l with
  | [] => []
  | y :: l' => if Nat.eqb y x then l' else y :: remove_first x l'
  end.

(** [CezHdoBaseEntity.async_added_to_hass]; [super()] is the host's
    method, which does nothing here. *)
Definition async_added_to_hass (self : nat) (h : Hass) : Hass :=
  let dd := match domain_data h with
            | None => mkDomainData None None
            | Some dd => dd
            end in
  let l := match entities dd with
           | None => []
           | Some l => l
           end in
  let l := if bool_decide (self ∈ l) then l else l ++ [self] in
  set_domain_data (Some (mkDomainData (Some l) (daily_refresh_unsub dd))) h.

(** [CezHdoBaseEntity.async_will_remove_from_hass] *)
Definition async_will_remove_from_hass (self : nat) (h : Hass) : Hass :=
  match domain_data h with
  | Some dd =>
      match entities dd with
      | Some l =>
          if bool_decide (self ∈ l)
          then set_domain_data
                 (Some (mkDomainData (Some (remove_first self l))
                                     (daily_refresh_unsub dd))) h
          else h
      | None => h
      end
  | None => h
  end.

(** [CezHdoFrequentUpdateEntity.async_added_to_hass] *)
Definition frequent_async_added_to_hass (self : nat) (h : Hass) : Hass :=
  let h := async_added_to_hass self h in
  let (handle, h) := track h in
  set_interval_unsub (<[self := handle]> (interval_unsub h)) h.

(** [CezHdoFrequentUpdateEntity.async_will_remove_from_hass] *)
Definition frequent_async_will_remove_from_hass (self : nat) (h : Hass) : Hass :=
  let h := match interval_unsub h !! self with
           | Some handle => cancel handle h
           | None => h
           end in
  async_will_remove_from_hass self h.

(** [entity._last_update_time = None] *)
Definition clear_last_update_time (e : Entity) : Entity :=
  mkEntity (ean e) (signal e) (_name e) (_response_data e)
           (_last_update_success e) None.

(** The body of the loop of [daily_data_refresh]: both [hasattr] tests
    hold for an entity of this integration. *)
Definition refresh_entity (h : Hass) (entity : nat) : Hass :=
  let h := set_objects (alter clear_last_update_time entity (objects h)) h in
  set_scheduled ((entity, true) :: scheduled h) h.

(** The closure [daily_data_refresh] of [async_setup]: [hass.data[DOMAIN]]
    raises [KeyError] when the key is absent. *)
Definition daily_data_refresh (h : Hass) : result Hass :=
  match domain_data h with
  | None => Raise KeyError
  | Some dd =>
      Ok (fold_left refresh_entity
                    (match entities dd with None => [] | Some l => l end) h)
  end.

(** [_deploy_frontend_file]: every exception is caught and logged; the
    card is copied when the directory can be made, the source exists and
    the copy does not raise. *)
Definition _deploy_frontend_file (env : nat -> FrontendCall) (h : Hass) : Hass :=
  let c := env (frontend_calls h) in
  mkHass (domain_data h) (objects h) (interval_unsub h) (listeners h) (next_handle h)
         (scheduled h) (services h) (_FRONTEND_REGISTERED h) (extra_js_urls h)
         (if mkdir_ok c && source_exists c && copy_ok c
          then S (www_copies h) else www_copies h)
         (S (frontend_calls h)).

(** [_ensure_frontend_card]: deploy, then register the URL unless the
    global says it is registered; an exception of [add_extra_js_url] is
    caught before the global is set. *)
Definition _ensure_frontend_card (env : nat -> FrontendCall) (h : Hass) : Hass :=
  let c := env (frontend_calls h) in
  let h := _deploy_frontend_file env h in
  if negb (_FRONTEND_REGISTERED h) then
    if add_url_ok c then
      mkHass (domain_data h) (objects h) (interval_unsub h) (listeners h) (next_handle h)
             (scheduled h) (services h) true
             (("/local/cez_hdo/cez-hdo-card.js?v=" ++ PyFormat.decimal (epoch c))%string
              :: extra_js_urls h)
             (www_copies h) (frontend_calls h)
    else h
  else h.

(** [async_setup]; it returns [True]. *)
Definition async_setup (env : nat -> FrontendCall) (h : Hass) : bool * Hass :=
  let h := _ensure_frontend_card env h in
  let h := match domain_data h with
           | None => set_domain_data (Some (mkDomainData None None)) h
           | Some _ => h
           end in
  let (handle, h) := track h in
  let h := match domain_data h with
           | Some dd => set_domain_data (Some (mkDomainData (entities dd) (Some handle))) h
           | None => h
           end in
  let h := _ensure_frontend_card env h in
  let h := register_service "reload_frontend_card" h in
  let h := register_service "list_signals" h in
  (true, h).

(** [async_unload_entry]; it returns [True]. *)
Definition async_unload_entry (h : Hass) : bool * Hass :=
  match domain_data h with
  | Some dd =>
      match daily_refresh_unsub dd with
      | Some handle => (true, cancel handle h)
      | None => (true, h)
      end
  | None => (true, h)
  end.

(** The service [reload_frontend_card]: the file only. *)
Definition reload_frontend_card (env : nat -> FrontendCall) (h : Hass) : Hass :=
  _deploy_frontend_file env h.

(** The entities registered for the daily refresh. *)
Definition registered (h : Hass) : list nat :=
  match domain_data h with
  | Some dd => match entities dd with Some l => l | None => [] end
  | None => []
  end.

End Integration.
End Integration.

(** ** The service [list_signals] of [__init__.py] *)

Module ListSignals.

(** One entry of [signal_groups]: the dictionary with the keys [den],
    [datum] and [casy]. *)
Record SignalEntry := mkSignalEntry { den : string; datum : string; casy : string }.

(** What the request meets: a response with its status and, read from its
    JSON, the list under [data.signals] (empty when a key is missing); or
    an exception, with its text.  The fields of a signal are strings, as
    the API sends them. *)
Inductive api_outcome :=
| ApiResponse (status_code : Z) (signals : list (gmap string string))
| ApiRaises (text : string).

Inductive log_record :=
| LogError (message : string)
| LogWarning (message : string).

(** [signal.get("signal", "unknown")] *)
Definition signal_name (signal : gmap string string) : string :=
  default "unknown"%string (signal !! "signal"%string).

(** One round of the loop over [signals].  The dictionary [signal_groups]
    keeps its keys in the order of insertion. *)
Definition add_signal (signal_groups : list (string * list SignalEntry))
    (signal : gmap string string) : list (string * list SignalEntry) :=
  let name := signal_name signal in
  let entry := mkSignalEntry (default ""%string (signal !! "den"%string))
                             (default ""%string (signal !! "datum"%string))
                             (default ""%string (signal !! "casy"%string)) in
  if bool_decide (name ∈ map fst signal_groups)
  then map (fun kv : string * list SignalEntry =>
              if String.eqb (fst kv) name then (fst kv, snd kv ++ [entry]) else kv)
           signal_groups
  else signal_groups ++ [(name, [entry])].

Definition group_signals (signals : list (gmap string string)) :
    list (string * list SignalEntry) :=
  fold_left add_signal signals [].

(** [list(signal_groups.keys())] *)
Definition signal_names (signals : list (gmap string string)) : list string :=
  map fst (group_signals signals).

(** The service: what it logs for the [ean] of the call (absent as
    [None]) and the outcome of the request. *)
Definition list_signals (ean : option string) (api : string -> api_outcome) :
    log_record :=
  match ean with
  | None => LogError "EAN parameter is required for list_signals service"
  | Some ean =>
      if String.eqb ean ""
      then LogError "EAN parameter is required for list_signals service"
      else
        match api ean with
        | ApiResponse status_code signals =>
            if status_code =? 200
            then LogWarning ("📡 Nalezené signály pro EAN " ++ ean ++ ": "
                             ++ String.concat ", " (signal_names signals))%string
            else LogError ("Failed to fetch signals: HTTP "
                           ++ PyFormat.decimal status_code)%string
        | ApiRaises text =>
            LogError ("Error fetching signals for EAN " ++ ean ++ ": " ++ text)%string
        end
  end.

End ListSignals.

(** The names of a list in the order in which each is first met, those in
    [seen] left out. *)
Fixpoint first_seen_from (seen : list string) (l : list string) : list string :=
  match l with
  | [] => []
  | x :: l' =>
      if bool_decide (x ∈ seen) then first_seen_from seen l'
      else x :: first_seen_from (x :: seen) l'
  end.

Definition first_seen (l : list string) : list string := first_seen_from [] l.

(** * Lemmas *)

Section Running.
Context {D : Downloader}.

Lemma get_hdo_data_run (s : State) :
  CezHdoBaseEntity._get_hdo_data s
  = (hdo_outcome (self s) (clock s),
     mkState (self s) (clock s) (hdo_events (self s) ++ trace s)).
Proof.
  destruct s as [e c t].
  unfold CezHdoBaseEntity._get_hdo_data, hdo_outcome, hdo_events, effective_signal,
    bind, get_self, try_except, call_isHdo, ret, record; simpl.
  destruct (_response_data e) as [p|]; [|reflexivity].
  destruct (_last_update_success e); simpl; [|reflexivity].
  destruct (CezHdoBaseEntity.truthy (signal e)); simpl;
    (destruct (isHdo p _ c) as [d|ex]; [reflexivity|]);
    destruct (CezHdoBaseEntity.catches_KeyError_TypeError ex); reflexivity.
Qed.

(** Every query is its guard followed by the rollover computation. *)
Lemma query_run (k : countdown) (s : State) :
  query k s
  = let s1 := mkState (self s) (clock s) (hdo_events (self s) ++ trace s) in
    match hdo_outcome (self s) (clock s) with
    | Raise ex => (Raise ex, s1)
    | Ok d =>
        if precondition k d
        then match boundary k d with
             | Some t => (rollover_countdown (clock s) t, record EvNow s1)
             | None => (Ok None, s1)
             end
        else (Ok None, s1)
    end.
Proof.
  destruct k; simpl;
    [unfold CezHdoBaseEntity.get_low_tariff_remaining_seconds
    |unfold CezHdoBaseEntity.get_high_tariff_remaining_seconds
    |unfold CezHdoBaseEntity.get_next_low_tariff_seconds
    |unfold CezHdoBaseEntity.get_next_high_tariff_seconds];
    unfold bind at 1; rewrite get_hdo_data_run;
    destruct (hdo_outcome (self s) (clock s)) as [d|ex]; try reflexivity;
    unfold precondition, boundary.
  - destruct (low_tariff_active d), (low_tariff_end d) as [t|]; try reflexivity.
    unfold bind, datetime_now, rollover_countdown, lift, ret; simpl.
    destruct (datetime_le _ _); [destruct (replace_day _ _)|]; reflexivity.
  - destruct (high_tariff_active d), (high_tariff_end d) as [t|]; try reflexivity.
    unfold bind, datetime_now, rollover_countdown, lift, ret; simpl.
    destruct (datetime_le _ _); [destruct (replace_day _ _)|]; reflexivity.
  - destruct (low_tariff_active d), (low_tariff_start d) as [t|]; try reflexivity.
    unfold bind, datetime_now, rollover_countdown, lift, ret; simpl.
    destruct (datetime_le _ _); [destruct (replace_day _ _)|]; reflexivity.
  - destruct (high_tariff_active d), (high_tariff_start d) as [t|]; try reflexivity.
    unfold bind, datetime_now, rollover_countdown, lift, ret; simpl.
    destruct (datetime_le _ _); [destruct (replace_day _ _)|]; reflexivity.
Qed.

End Running.

Section Arithmetic.

Lemma time_us_bounds (t : time) : valid_time t -> 0 <= time_us t < day_us.
Proof.
  unfold valid_time, time_us, seconds_of_day, day_us. lia.
Qed.

(** On one date the lexicographic comparison is the comparison of the
    times of day. *)
Lemma datetime_le_same_date (d : date) (a b : time) :
  valid_time a -> valid_time b ->
  datetime_le (mkdatetime d a) (mkdatetime d b) = (time_us a <=? time_us b).
Proof.
  intros Ha Hb. unfold datetime_le, fields; simpl.
  rewrite !Z.compare_refl.
  unfold valid_time in Ha, Hb. unfold time_us, seconds_of_day.
  destruct (Z.compare_spec (hour a) (hour b));
    [destruct (Z.compare_spec (minute a) (minute b));
       [destruct (Z.compare_spec (second a) (second b));
          [destruct (Z.compare_spec (microsecond a) (microsecond b))|..]|..]|..];
    symmetry; first [apply Z.leb_le; lia | apply Z.leb_gt; lia].
Qed.

Lemma datetime_sub_same_date (d : date) (a b : time) :
  datetime_sub (mkdatetime d a) (mkdatetime d b) = time_us a - time_us b.
Proof. unfold datetime_sub, time_us; simpl. lia. Qed.

Lemma datetime_sub_next_day (d : date) (a b : time) :
  datetime_sub (mkdatetime (next_day d) a) (mkdatetime d b)
  = time_us a - time_us b + day_us.
Proof.
  unfold datetime_sub, time_us, next_day, toordinal, day_us; simpl. lia.
Qed.

Lemma replace_day_next (d : date) (t : time) :
  1 <= day d ->
  replace_day (mkdatetime d t) (day d + 1)
  = if day d + 1 <=? _days_in_month (year d) (month d)
    then Ok (mkdatetime (next_day d) t) else Raise ValueError.
Proof.
  intros Hd. unfold replace_day; simpl.
  replace (1 <=? day d + 1) with true by (symmetry; apply Z.leb_le; lia).
  reflexivity.
Qed.

Variable now : datetime.
Variable t : time.
Hypothesis Hnow : valid_datetime now.
Hypothesis Ht : valid_time t.

(** The boundary is still ahead today: no rollover. *)
Lemma rollover_ahead :
  time_us (dt_time now) < time_us t ->
  rollover_countdown now t = Ok (Some (seconds_until (combine (dt_date now) t) now))
  /\ seconds_until (combine (dt_date now) t) now
     = (time_us t - time_us (dt_time now)) / 1000000.
Proof.
  intros Hlt. destruct now as [d tn]; simpl in *. destruct Hnow as [Hd Htn]; simpl in *.
  unfold rollover_countdown, combine, seconds_until; simpl.
  rewrite datetime_le_same_date by assumption.
  replace (time_us t <=? time_us tn) with false by (symmetry; apply Z.leb_gt; lia).
  split; [reflexivity|].
  rewrite datetime_sub_same_date. unfold int_total_seconds.
  rewrite Z.quot_div_nonneg by lia.
  apply Z.max_r. apply Z.div_pos; lia.
Qed.

(** The boundary is not ahead today and tomorrow is in the same month. *)
Lemma rollover_next_day :
  time_us t <= time_us (dt_time now) ->
  day (dt_date now) + 1 <= _days_in_month (year (dt_date now)) (month (dt_date now)) ->
  rollover_countdown now t
  = Ok (Some (seconds_until (combine (next_day (dt_date now)) t) now))
  /\ seconds_until (combine (next_day (dt_date now)) t) now
     = (time_us t - time_us (dt_time now) + day_us) / 1000000.
Proof.
  intros Hle Hin. destruct now as [d tn]; simpl in *. destruct Hnow as [Hd Htn]; simpl in *.
  pose proof (time_us_bounds t Ht). pose proof (time_us_bounds tn Htn).
  unfold rollover_countdown, combine, seconds_until; simpl.
  rewrite datetime_le_same_date by assumption.
  replace (time_us t <=? time_us tn) with true by (symmetry; apply Z.leb_le; lia).
  rewrite replace_day_next by (unfold valid_date in Hd; lia).
  replace (day d + 1 <=? _) with true by (symmetry; apply Z.leb_le; lia).
  split; [reflexivity|].
  rewrite datetime_sub_next_day. unfold int_total_seconds.
  rewrite Z.quot_div_nonneg by lia.
  apply Z.max_r. apply Z.div_pos; lia.
Qed.

(** The boundary is not ahead today and today is the last day of the
    month: [replace] raises. *)
Lemma rollover_month_end :
  time_us t <= time_us (dt_time now) ->
  day (dt_date now) = _days_in_month (year (dt_date now)) (month (dt_date now)) ->
  rollover_countdown now t = Raise ValueError.
Proof.
  intros Hle Hlast. destruct now as [d tn]; simpl in *. destruct Hnow as [Hd Htn]; simpl in *.
  unfold rollover_countdown, combine; simpl.
  rewrite datetime_le_same_date by assumption.
  replace (time_us t <=? time_us tn) with true by (symmetry; apply Z.leb_le; lia).
  rewrite replace_day_next by (unfold valid_date in Hd; lia).
  replace (day d + 1 <=? _) with false by (symmetry; apply Z.leb_gt; lia).
  reflexivity.
Qed.

(** Whenever a number comes out, it is the whole seconds to the next
    occurrence of the boundary. *)
Lemma rollover_value (v : Z) :
  rollover_countdown now t = Ok (Some v) ->
  v = until_next_occurrence now t / 1000000.
Proof.
  intros Hv. unfold until_next_occurrence.
  destruct (Z.ltb_spec 0 (time_us t - time_us (dt_time now))) as [Hpos|Hnpos].
  - destruct rollover_ahead as [E1 E2]; [lia|].
    rewrite E1 in Hv. inversion Hv. assumption.
  - destruct Hnow as [Hd _]. unfold valid_date in Hd.
    destruct (Z.eq_dec (day (dt_date now))
                (_days_in_month (year (dt_date now)) (month (dt_date now)))) as [Hlast|Hin].
    + rewrite rollover_month_end in Hv by (assumption || lia). discriminate.
    + destruct rollover_next_day as [E1 E2]; [lia|lia|].
      rewrite E1 in Hv. inversion Hv. assumption.
Qed.

Lemma until_next_occurrence_bounds :
  0 < until_next_occurrence now t <= day_us.
Proof.
  destruct Hnow as [_ Htn].
  pose proof (time_us_bounds t Ht). pose proof (time_us_bounds _ Htn).
  unfold until_next_occurrence.
  destruct (Z.ltb_spec 0 (time_us t - time_us (dt_time now))); lia.
Qed.

End Arithmetic.

Section QueryFacts.
Context {D : Downloader}.

Lemma get_hdo_data_result (s : State) :
  fst (CezHdoBaseEntity._get_hdo_data s) = hdo_outcome (self s) (clock s).
Proof. rewrite get_hdo_data_run. reflexivity. Qed.

Lemma query_result (k : countdown) (s : State) (d : HdoData) :
  fst (CezHdoBaseEntity._get_hdo_data s) = Ok d ->
  fst (query k s)
  = if precondition k d
    then match boundary k d with
         | Some t => rollover_countdown (clock s) t
         | None => Ok None
         end
    else Ok None.
Proof.
  rewrite get_hdo_data_result. intros Hd.
  rewrite query_run, Hd. simpl.
  destruct (precondition k d); [destruct (boundary k d)|]; reflexivity.
Qed.

Lemma query_unresolved (k : countdown) (s : State) :
  fst (CezHdoBaseEntity._get_hdo_data s) = Ok CezHdoBaseEntity.unresolved ->
  fst (query k s) = Ok None.
Proof.
  intros Hd. rewrite (query_result k s _ Hd). destruct k; reflexivity.
Qed.


End QueryFacts.

(** ** Worked examples *)

(** The first scenario of the specification on the modelled evaluator:
    signal X, low tariff 08:00-20:00 on 2024-01-01, evaluated at 10:00. *)
Example scenario_tuple :
  fst (CezHdoBaseEntity._get_hdo_data
         (Scenarios.spec_state Scenarios.scenario (Some "X")
            (Scenarios.at_ 2024 1 1 10 0 0 0)))
  = Ok (mkHdoData true (Some (Scenarios.hm 8 0)) (Some (Scenarios.hm 20 0))
                  (Some (12 * 3600 * 1000000))
                  false (Some (Scenarios.hm 20 0)) None None).
Proof. vm_compute. reflexivity. Qed.

Example scenario_seconds_until_low_end :
  fst (CezHdoBaseEntity.get_low_tariff_remaining_seconds
         (Scenarios.spec_state Scenarios.scenario (Some "X")
            (Scenarios.at_ 2024 1 1 10 0 0 0)))
  = Ok (Some 36000).
Proof. vm_compute. reflexivity. Qed.

(** At 23:00 on 28 February, low tariff running until 06:00: in a leap
    year the next day is the 29th, in other years [replace] raises. *)
Example february_leap_year :
  fst (CezHdoBaseEntity.get_low_tariff_remaining_seconds
         (Scenarios.state_with Scenarios.low_night (Scenarios.at_ 2024 2 28 23 0 0 0)))
  = Ok (Some 25200).
Proof. vm_compute. reflexivity. Qed.

Example february_common_year :
  fst (CezHdoBaseEntity.get_low_tariff_remaining_seconds
         (Scenarios.state_with Scenarios.low_night (Scenarios.at_ 2023 2 28 23 0 0 0)))
  = Raise ValueError.
Proof. vm_compute. reflexivity. Qed.

(** One microsecond before midnight, with the boundary at 00:00. *)
Example last_microsecond_of_the_day :
  rollover_countdown (Scenarios.at_ 2024 1 15 23 59 59 999999) (Scenarios.hm 0 0)
  = Ok (Some 0).
Proof. vm_compute. reflexivity. Qed.

Example hms_text : PyFormat.hms 2 15 30 = "02:15:30"%string.
Proof. vm_compute. reflexivity. Qed.

Example hms_text_long : PyFormat.hms 123 0 7 = "123:00:07"%string.
Proof. vm_compute. reflexivity. Qed.

(** * The claims *)

(** C4. Each of the four countdown queries returns null when its
    activation precondition does not hold: the remaining-time queries when
    their tariff is not active, the next-start queries when their tariff is
    already active.  The answer is null, not zero. *)
Theorem countdown_null_without_precondition
    (D : Downloader) (k : countdown) (s : State) (d : HdoData) :
  fst (CezHdoBaseEntity._get_hdo_data s) = Ok d ->
  precondition k d = false ->
  fst (query k s) = Ok None /\ fst (query k s) <> Ok (Some 0).
Proof.
  intros Hd Hpre. rewrite (query_result k s d Hd), Hpre.
  split; [reflexivity|discriminate].
Qed.

Lemma countdown_null_without_precondition_witness :
  (fst (CezHdoBaseEntity.get_low_tariff_remaining_seconds
          (Scenarios.state_with Scenarios.high_evening (Scenarios.at_ 2024 1 15 21 0 0 0)))
   = Ok None)
  /\ (fst (CezHdoBaseEntity.get_next_high_tariff_seconds
             (Scenarios.state_with Scenarios.high_evening (Scenarios.at_ 2024 1 15 21 0 0 0)))
      = Ok None)
  /\ (fst (CezHdoBaseEntity.get_high_tariff_remaining_seconds
             (Scenarios.state_with Scenarios.low_day (Scenarios.at_ 2024 1 15 10 0 0 0)))
      = Ok None)
  /\ (fst (CezHdoBaseEntity.get_next_low_tariff_seconds
             (Scenarios.state_with Scenarios.low_day (Scenarios.at_ 2024 1 15 10 0 0 0)))
      = Ok None).
Proof.
  split; [|split; [|split]].
  - apply (countdown_null_without_precondition _ LowRemaining _ Scenarios.high_evening);
      reflexivity.
  - apply (countdown_null_without_precondition _ NextHigh _ Scenarios.high_evening);
      reflexivity.
  - apply (countdown_null_without_precondition _ HighRemaining _ Scenarios.low_day);
      reflexivity.
  - apply (countdown_null_without_precondition _ NextLow _ Scenarios.low_day);
      reflexivity.
Defined.

(** Closed facts about dates, times and bounds, by evaluation. *)
Ltac solve_valid := vm_compute; intuition congruence.




(** C3, at the point where the code departs from it.  When the boundary,
    taken on the date of the reference instant, is not after that instant
    and the instant lies on the last day of its month, the rollover
    [replace(day=day + 1)] asks for a day the month does not have and each
    of the four queries raises [ValueError] where the claim promises the
    count to the boundary on the first day of the next month. *)
Theorem rollover_raises_on_last_day_of_month
    (D : Downloader) (k : countdown) (s : State) (d : HdoData) (e : time) :
  valid_datetime (clock s) -> valid_time e ->
  fst (CezHdoBaseEntity._get_hdo_data s) = Ok d ->
  precondition k d = true -> boundary k d = Some e ->
  datetime_le (combine (dt_date (clock s)) e) (clock s) = true ->
  day (dt_date (clock s))
  = _days_in_month (year (dt_date (clock s))) (month (dt_date (clock s))) ->
  fst (query k s) = Raise ValueError.
Proof.
  intros Hnow He Hd Hpre Hb Hle Hlast.
  rewrite (query_result k s d Hd), Hpre, Hb.
  apply rollover_month_end; try assumption.
  destruct (clock s) as [dd tn]. destruct Hnow as [_ Htn]; simpl in *.
  unfold combine in Hle. rewrite datetime_le_same_date in Hle by assumption.
  apply Z.leb_le. exact Hle.
Qed.

Lemma rollover_raises_on_last_day_of_month_witness :
  fst (CezHdoBaseEntity.get_low_tariff_remaining_seconds
         (Scenarios.state_with Scenarios.low_night (Scenarios.at_ 2024 1 31 23 0 0 0)))
  = Raise ValueError.
Proof.
  exact (rollover_raises_on_last_day_of_month (Scenarios.mock Scenarios.low_night)
           LowRemaining
           (Scenarios.state_with Scenarios.low_night (Scenarios.at_ 2024 1 31 23 0 0 0))
           Scenarios.low_night (Scenarios.hm 6 0)
           ltac:(solve_valid) ltac:(solve_valid) eq_refl eq_refl eq_refl eq_refl eq_refl).
Defined.

(** Outside the last day of a month, and on it while the boundary is
    still ahead, the rollover computation returns a number. *)
Lemma rollover_returns (now : datetime) (t : time) :
  valid_datetime now -> valid_time t ->
  datetime_le (combine (dt_date now) t) now = false
  \/ day (dt_date now) + 1 <= _days_in_month (year (dt_date now)) (month (dt_date now)) ->
  exists v, rollover_countdown now t = Ok (Some v).
Proof.
  intros Hnow Ht Hcase.
  assert (Hle : datetime_le (combine (dt_date now) t) now
                = (time_us t <=? time_us (dt_time now))).
  { destruct now as [dd tn]. destruct Hnow as [_ Htn].
    apply datetime_le_same_date; assumption. }
  rewrite Hle in Hcase.
  destruct (Z.leb_spec (time_us t) (time_us (dt_time now))) as [Hge|Hlt].
  - destruct Hcase as [Hf|Hin]; [discriminate Hf|].
    destruct (rollover_next_day now t Hnow Ht Hge Hin) as [E _]. eauto.
  - destruct (rollover_ahead now t Hnow Ht Hlt) as [E _]. eauto.
Qed.

(** C6, as amended.  A countdown query whose precondition holds and whose
    boundary is known returns a number, provided the boundary is still ahead
    on the date of the reference instant or the next day lies in the same
    month.  The number is at least 0; it is 0 exactly when the next
    occurrence of the boundary time of day is less than one second after
    the reference instant, and at the boundary instant itself it is 86400,
    the count to the boundary of the next day. *)
Theorem countdown_nonnegative_zero_in_last_second
    (D : Downloader) (k : countdown) (s : State) (d : HdoData) (e : time) :
  valid_datetime (clock s) -> valid_time e ->
  fst (CezHdoBaseEntity._get_hdo_data s) = Ok d ->
  precondition k d = true -> boundary k d = Some e ->
  datetime_le (combine (dt_date (clock s)) e) (clock s) = false
  \/ day (dt_date (clock s)) + 1
     <= _days_in_month (year (dt_date (clock s))) (month (dt_date (clock s))) ->
  exists v : Z,
    fst (query k s) = Ok (Some v)
    /\ 0 <= v
    /\ (v = 0 <-> until_next_occurrence (clock s) e < 1000000)
    /\ (dt_time (clock s) = e -> v = 86400).
Proof.
  intros Hnow He Hd Hpre Hb Hcase.
  rewrite (query_result k s d Hd), Hpre, Hb.
  destruct (rollover_returns _ _ Hnow He Hcase) as [v Hv].
  exists v. split; [exact Hv|].
  apply (rollover_value _ _ Hnow He) in Hv.
  pose proof (until_next_occurrence_bounds _ _ Hnow He) as Hu.
  subst v. split; [apply Z.div_pos; lia|]. split.
  - rewrite Z.div_small_iff by lia. lia.
  - intros <-. unfold until_next_occurrence.
    rewrite Z.sub_diag. simpl. reflexivity.
Qed.

Lemma countdown_nonnegative_zero_in_last_second_witness :
  exists v : Z,
    fst (CezHdoBaseEntity.get_low_tariff_remaining_seconds
           (Scenarios.state_with Scenarios.low_day (Scenarios.at_ 2024 1 15 19 59 59 500000)))
    = Ok (Some v)
    /\ 0 <= v
    /\ (v = 0 <->
        until_next_occurrence (Scenarios.at_ 2024 1 15 19 59 59 500000) (Scenarios.hm 20 0)
        < 1000000)
    /\ (mktime 19 59 59 500000 = Scenarios.hm 20 0 -> v = 86400).
Proof.
  exact (countdown_nonnegative_zero_in_last_second (Scenarios.mock Scenarios.low_day)
           LowRemaining
           (Scenarios.state_with Scenarios.low_day (Scenarios.at_ 2024 1 15 19 59 59 500000))
           Scenarios.low_day (Scenarios.hm 20 0)
           ltac:(solve_valid) ltac:(solve_valid) eq_refl eq_refl eq_refl
           (or_introl eq_refl)).
Defined.

(** Half a second before the end of the low tariff the code answers 0,
    although the reference instant is not the boundary instant. *)
Lemma zero_only_at_boundary_fails : ~ zero_only_at_boundary.
Proof.
  intros H.
  destruct (H (Scenarios.mock Scenarios.low_day) LowRemaining
              (Scenarios.state_with Scenarios.low_day (Scenarios.at_ 2024 1 15 19 59 59 500000))
              Scenarios.low_day (Scenarios.hm 20 0) 0
              ltac:(solve_valid) ltac:(solve_valid) eq_refl eq_refl eq_refl eq_refl)
    as [_ Hz].
  specialize (Hz eq_refl). discriminate Hz.
Qed.

(** C9. For one tuple and one reference instant the remaining-time query
    and the next-start query of the same tariff never both return a number;
    when the tuple holds neither boundary both return null. *)
Theorem remaining_and_next_exclusive (D : Downloader) (s : State) :
  match fst (CezHdoBaseEntity.get_low_tariff_remaining_seconds s),
        fst (CezHdoBaseEntity.get_next_low_tariff_seconds s) with
  | Ok (Some _), Ok (Some _) => False
  | _, _ => True
  end
  /\ match fst (CezHdoBaseEntity.get_high_tariff_remaining_seconds s),
           fst (CezHdoBaseEntity.get_next_high_tariff_seconds s) with
     | Ok (Some _), Ok (Some _) => False
     | _, _ => True
     end
  /\ (forall d : HdoData,
        fst (CezHdoBaseEntity._get_hdo_data s) = Ok d ->
        (low_tariff_end d = None -> low_tariff_start d = None ->
         fst (CezHdoBaseEntity.get_low_tariff_remaining_seconds s) = Ok None
         /\ fst (CezHdoBaseEntity.get_next_low_tariff_seconds s) = Ok None)
        /\ (high_tariff_end d = None -> high_tariff_start d = None ->
            fst (CezHdoBaseEntity.get_high_tariff_remaining_seconds s) = Ok None
            /\ fst (CezHdoBaseEntity.get_next_high_tariff_seconds s) = Ok None)).
Proof.
  change (CezHdoBaseEntity.get_low_tariff_remaining_seconds s) with (query LowRemaining s).
  change (CezHdoBaseEntity.get_next_low_tariff_seconds s) with (query NextLow s).
  change (CezHdoBaseEntity.get_high_tariff_remaining_seconds s) with (query HighRemaining s).
  change (CezHdoBaseEntity.get_next_high_tariff_seconds s) with (query NextHigh s).
  split; [|split].
  - rewrite !query_run. simpl.
    destruct (hdo_outcome (self s) (clock s)) as [d|ex]; simpl; [|exact I].
    destruct (low_tariff_active d); simpl.
    + destruct (low_tariff_end d); simpl; [destruct (rollover_countdown _ _) as [[?|]|]|]; exact I.
    + exact I.
  - rewrite !query_run. simpl.
    destruct (hdo_outcome (self s) (clock s)) as [d|ex]; simpl; [|exact I].
    destruct (high_tariff_active d); simpl.
    + destruct (high_tariff_end d); simpl; [destruct (rollover_countdown _ _) as [[?|]|]|]; exact I.
    + exact I.
  - intros d Hd. split; intros He Hs;
      rewrite !(query_result _ s d Hd); simpl; rewrite He, Hs;
      [destruct (low_tariff_active d)|destruct (high_tariff_active d)]; split; reflexivity.
Qed.

Lemma remaining_and_next_exclusive_witness :
  fst (CezHdoBaseEntity.get_low_tariff_remaining_seconds
         (mkState (@Scenarios.fresh (Scenarios.mock Scenarios.low_day))
                  (Scenarios.at_ 2024 1 15 10 0 0 0) []))
  = Ok None
  /\ fst (CezHdoBaseEntity.get_next_low_tariff_seconds
            (mkState (@Scenarios.fresh (Scenarios.mock Scenarios.low_day))
                     (Scenarios.at_ 2024 1 15 10 0 0 0) []))
     = Ok None.
Proof.
  destruct (remaining_and_next_exclusive (Scenarios.mock Scenarios.low_day)
              (mkState (@Scenarios.fresh (Scenarios.mock Scenarios.low_day))
                       (Scenarios.at_ 2024 1 15 10 0 0 0) [])) as [_ [_ H]].
  destruct (H CezHdoBaseEntity.unresolved eq_refl) as [Hlow _].
  exact (Hlow eq_refl eq_refl).
Defined.

(** ** Absent data and the modelled evaluator *)

Lemma absent_outcome (D : Downloader) (s : State) :
  absent_or_unusable s ->
  fst (CezHdoBaseEntity._get_hdo_data s) = Ok CezHdoBaseEntity.unresolved.
Proof.
  rewrite get_hdo_data_result. unfold hdo_outcome.
  intros [Hnone | [Hfail | (p & ex & Hp & Hraise & Hcaught)]].
  - rewrite Hnone. reflexivity.
  - rewrite Hfail. destruct (_response_data (self s)); reflexivity.
  - rewrite Hp, Hraise, Hcaught. destruct (_last_update_success (self s)); reflexivity.
Qed.

Lemma filter_none {A} (P : A -> Prop) `{forall x, Decision (P x)} (l : list A) :
  (forall x, In x l -> ~ P x) -> filter P l = [].
Proof.
  induction l as [|a l IH]; intros Hall; [reflexivity|].
  rewrite filter_cons_False by (apply Hall; left; reflexivity).
  apply IH. intros x Hx. apply Hall. right. exact Hx.
Qed.

Lemma select_no_usable (p : list SpecModel.RawEntry) (sig : option string) :
  SpecModel.usable_windows p = [] -> SpecModel.select p sig = [].
Proof.
  unfold SpecModel.select. intros ->. destruct sig; reflexivity.
Qed.

Lemma select_missing_signal (p : list SpecModel.RawEntry) (c : string) :
  (forall w, In w (SpecModel.usable_windows p) -> SpecModel.signal_code w <> c) ->
  SpecModel.select p (Some c) = [].
Proof.
  intros Hmiss. unfold SpecModel.select. apply filter_none.
  intros w Hw Hcode. apply (Hmiss w Hw).
  unfold SpecModel.has_code in Hcode. apply String.eqb_eq. exact Hcode.
Qed.

Lemma spec_outcome (s : @State SpecDownloader) :
  fst (CezHdoBaseEntity._get_hdo_data s)
  = Ok (SpecModel.evaluate (resolved_schedule s) (clock s)).
Proof.
  rewrite get_hdo_data_result. unfold hdo_outcome, resolved_schedule.
  destruct (_response_data (self s)) as [p|]; [|reflexivity].
  destruct (_last_update_success (self s)); reflexivity.
Qed.

Lemma evaluate_flags (ws : list SpecModel.SignalWindow) (now : datetime) :
  ws <> [] ->
  low_tariff_active (SpecModel.evaluate ws now)
  = negb (high_tariff_active (SpecModel.evaluate ws now)).
Proof.
  destruct ws as [|w ws]; [congruence|]. intros _.
  unfold SpecModel.evaluate.
  destruct (find _ _) as [[a b]|]; reflexivity.
Qed.

(** C1. With the evaluator modelled after the specification: every
    evaluation returns a tuple; when the resolved schedule is not empty
    exactly one of low_active and high_active is true; both are false
    exactly when no schedule data is available.  On the code, for any
    downloader: when there is no response data, the last update failed, or
    parsing raises KeyError or TypeError, the result has both flags
    false. *)
Theorem evaluation_partitions_low_and_high :
  (forall s : @State SpecDownloader,
     exists d : HdoData,
       fst (CezHdoBaseEntity._get_hdo_data s) = Ok d
       /\ (resolved_schedule s <> [] ->
           low_tariff_active d = negb (high_tariff_active d))
       /\ (low_tariff_active d = false /\ high_tariff_active d = false
           <-> resolved_schedule s = []))
  /\ (forall (D : Downloader) (s : State),
        absent_or_unusable s ->
        exists d : HdoData,
          fst (CezHdoBaseEntity._get_hdo_data s) = Ok d
          /\ low_tariff_active d = false /\ high_tariff_active d = false).
Proof.
  split.
  - intros s. exists (SpecModel.evaluate (resolved_schedule s) (clock s)).
    split; [apply spec_outcome|]. split; [apply evaluate_flags|].
    split.
    + intros [Hl Hh]. destruct (resolved_schedule s) as [|w ws] eqn:E; [reflexivity|].
      assert (Hne : w :: ws <> []) by discriminate.
      pose proof (evaluate_flags (w :: ws) (clock s) Hne) as Hx.
      rewrite Hl, Hh in Hx. discriminate Hx.
    + intros ->. split; reflexivity.
  - intros D s Habs. exists CezHdoBaseEntity.unresolved.
    split; [apply absent_outcome; exact Habs|]. split; reflexivity.
Qed.

Lemma evaluation_partitions_low_and_high_witness :
  (exists d : HdoData,
     fst (CezHdoBaseEntity._get_hdo_data
            (Scenarios.spec_state Scenarios.scenario (Some "X")
               (Scenarios.at_ 2024 1 1 10 0 0 0))) = Ok d
     /\ low_tariff_active d = negb (high_tariff_active d))
  /\ (exists d : HdoData,
        fst (CezHdoBaseEntity._get_hdo_data
               (mkState (@Scenarios.fresh (Scenarios.failing KeyError))
                        (Scenarios.at_ 2024 1 1 10 0 0 0) [])) = Ok d
        /\ low_tariff_active d = false /\ high_tariff_active d = false).
Proof.
  destruct evaluation_partitions_low_and_high as [Hspec Hcode]. split.
  - destruct (Hspec (Scenarios.spec_state Scenarios.scenario (Some "X")
                       (Scenarios.at_ 2024 1 1 10 0 0 0))) as (d & Hd & Hx & _).
    exists d. split; [exact Hd|]. apply Hx. vm_compute. discriminate.
  - apply Hcode. left. reflexivity.
Defined.

(** C5. Absent or unusable data comes out as the unresolved tuple and not
    as an exception, and all four countdown queries return null.  On the
    code, for any downloader: no response data, a failed last update, or a
    parser raising KeyError or TypeError.  With the selector modelled after
    the specification: a payload without usable entries, or a preferred
    signal that no usable entry carries. *)
Theorem absent_data_is_unresolved :
  (forall (D : Downloader) (s : State),
     absent_or_unusable s ->
     fst (CezHdoBaseEntity._get_hdo_data s) = Ok CezHdoBaseEntity.unresolved
     /\ forall k, fst (query k s) = Ok None)
  /\ (forall (s : @State SpecDownloader) (p : list SpecModel.RawEntry),
        _response_data (self s) = Some p ->
        SpecModel.usable_windows p = []
        \/ (exists c, effective_signal (self s) = Some c
                      /\ forall w, In w (SpecModel.usable_windows p) ->
                                   SpecModel.signal_code w <> c) ->
        fst (CezHdoBaseEntity._get_hdo_data s) = Ok CezHdoBaseEntity.unresolved
        /\ forall k, fst (query k s) = Ok None).
Proof.
  split.
  - intros D s Habs. pose proof (absent_outcome D s Habs) as Hd.
    split; [exact Hd|]. intros k. apply query_unresolved. exact Hd.
  - intros s p Hp Hcase.
    assert (Hd : fst (CezHdoBaseEntity._get_hdo_data s) = Ok CezHdoBaseEntity.unresolved).
    { rewrite spec_outcome. unfold resolved_schedule. rewrite Hp.
      destruct (_last_update_success (self s)); [|reflexivity].
      replace (SpecModel.select p (effective_signal (self s))) with (@nil SpecModel.SignalWindow);
        [reflexivity|].
      symmetry. destruct Hcase as [Hempty | (c & Hc & Hmiss)].
      - apply select_no_usable. exact Hempty.
      - rewrite Hc. apply select_missing_signal. exact Hmiss. }
    split; [exact Hd|]. intros k. apply query_unresolved. exact Hd.
Qed.

Lemma absent_data_is_unresolved_witness :
  (fst (CezHdoBaseEntity._get_hdo_data
          (mkState (@Scenarios.loaded (Scenarios.failing KeyError) tt)
                   (Scenarios.at_ 2024 1 1 10 0 0 0) []))
   = Ok CezHdoBaseEntity.unresolved
   /\ forall k, fst (query k (mkState (@Scenarios.loaded (Scenarios.failing KeyError) tt)
                                      (Scenarios.at_ 2024 1 1 10 0 0 0) [])) = Ok None)
  /\ (fst (CezHdoBaseEntity._get_hdo_data
             (Scenarios.spec_state Scenarios.scenario (Some "Y") (Scenarios.at_ 2024 1 1 10 0 0 0)))
      = Ok CezHdoBaseEntity.unresolved
      /\ forall k, fst (query k (Scenarios.spec_state Scenarios.scenario (Some "Y")
                                   (Scenarios.at_ 2024 1 1 10 0 0 0))) = Ok None).
Proof.
  destruct absent_data_is_unresolved as [Hcode Hspec]. split.
  - apply Hcode. right. right. exists tt, KeyError.
    split; [reflexivity|]. split; reflexivity.
  - apply (Hspec (Scenarios.spec_state Scenarios.scenario (Some "Y")
                    (Scenarios.at_ 2024 1 1 10 0 0 0)) Scenarios.scenario eq_refl).
    right. exists "Y"%string.
    split; [reflexivity|].
    intros w [<-|[]]. vm_compute. discriminate.
Defined.

(** ** The sensors *)

Section SensorFacts.
Context {D : Downloader}.

Lemma countdown_sensor_cases (cls : Sensor.SensorClass) :
  In cls Sensor.countdown_sensors ->
  exists k prefix inactive,
    cls = Sensor.mkSensorClass CezHdoFrequentUpdateEntity.update (query k)
            (Sensor.remaining_attributes (query k) prefix inactive).
Proof.
  intros [<-|[<-|[<-|[<-|[]]]]].
  - exists LowRemaining; eauto.
  - exists HighRemaining; eauto.
  - exists NextLow; eauto.
  - exists NextHigh; eauto.
Qed.

Lemma remaining_attributes_run (q : M (option Z)) (prefix inactive : string) (s : State) :
  Sensor.remaining_attributes q prefix inactive s
  = match q s with
    | (Ok (Some r), s') =>
        (Ok (<["display_text" :=
                 Sensor.AStr (prefix ++ " "
                              ++ PyFormat.hms (r / 3600) ((r mod 3600) / 60) (r mod 60))%string]>
               (<["formatted_time" :=
                    Sensor.AStr (PyFormat.hms (r / 3600) ((r mod 3600) / 60) (r mod 60))]>
                  (base_attributes (self s)))), s')
    | (Ok None, s') =>
        (Ok (<["display_text" := Sensor.AStr inactive]>
               (<["formatted_time" := Sensor.ANone]> (base_attributes (self s)))), s')
    | (Raise ex, s') => (Raise ex, s')
    end.
Proof.
  unfold Sensor.remaining_attributes, Sensor.base_extra_state_attributes,
    base_attributes, bind, get_self, ret.
  destruct (_response_data (self s)); destruct (q s) as [[[r|]|ex] s']; reflexivity.
Qed.




End SensorFacts.






(** ** Formatted texts read back as the numbers they were made from *)

Section Formatting.
Local Open Scope string_scope.

Lemma until_colon_digits (d : Decimal.uint) (rest : string) :
  PyFormat.until_colon (NilEmpty.string_of_uint d ++ String ":" rest)
  = (NilEmpty.string_of_uint d, rest).
Proof.
  induction d; simpl; try rewrite IHd; reflexivity.
Qed.

Lemma until_colon_decimal (n : Z) (rest : string) :
  PyFormat.until_colon (PyFormat.decimal n ++ String ":" rest)
  = (PyFormat.decimal n, rest).
Proof.
  unfold PyFormat.decimal, NilZero.string_of_int, NilZero.string_of_uint.
  destruct (Z.to_int n) as [d|d].
  - destruct d; try reflexivity; apply until_colon_digits.
  - change (String "-" ?a ++ ?b) with (String "-" (a ++ b)).
    cbn [PyFormat.until_colon]. change (Ascii.eqb "-" ":") with false. cbv iota.
    destruct d; try reflexivity; rewrite until_colon_digits; reflexivity.
Qed.

Lemma until_colon_format_02d (n : Z) (rest : string) :
  PyFormat.until_colon (PyFormat.format_02d n ++ String ":" rest)
  = (PyFormat.format_02d n, rest).
Proof.
  unfold PyFormat.format_02d.
  destruct ((0 <=? n)%Z && (n <? 10)%Z)%bool; [|apply until_colon_decimal].
  change (("0" ++ ?a) ++ ?b) with (String "0" (a ++ b)).
  cbn [PyFormat.until_colon]. change (Ascii.eqb "0" ":") with false. cbv iota.
  rewrite until_colon_decimal. reflexivity.
Qed.

Lemma read_decimal_decimal (n : Z) :
  PyFormat.read_decimal (PyFormat.decimal n) = Some n.
Proof.
  unfold PyFormat.read_decimal, PyFormat.decimal.
  rewrite NilZero.isi.
  - simpl. rewrite DecimalZ.of_to. reflexivity.
  - destruct n; simpl; try discriminate.
    intros [= E]. exact (Unsigned.to_uint_nonnil _ E).
  - destruct n; simpl; try discriminate.
    intros [= E]. exact (Unsigned.to_uint_nonnil _ E).
Qed.

Lemma read_decimal_format_02d (n : Z) :
  PyFormat.read_decimal (PyFormat.format_02d n) = Some n.
Proof.
  unfold PyFormat.format_02d.
  destruct (Z.leb_spec 0%Z n); [destruct (Z.ltb_spec n 10%Z)|]; simpl;
    try apply read_decimal_decimal.
  destruct n as [|p|p]; [reflexivity| |lia].
  repeat (destruct p as [p|p|]; try lia; try reflexivity).
Qed.

Lemma read_hms_hms (hours minutes seconds : Z) :
  PyFormat.read_hms (PyFormat.hms hours minutes seconds)
  = Some (hours, minutes, seconds).
Proof.
  unfold PyFormat.read_hms.
  change (PyFormat.hms hours minutes seconds)
    with (PyFormat.format_02d hours
          ++ String ":" (PyFormat.format_02d minutes
                         ++ String ":" (PyFormat.format_02d seconds))).
  rewrite until_colon_format_02d, until_colon_format_02d.
  rewrite !read_decimal_format_02d. reflexivity.
Qed.

End Formatting.

(** C10. For each countdown sensor: when the countdown is a number, the
    attribute [formatted_time] is the text made of hours, minutes and
    seconds, it reads back as these three numbers, hours * 3600 +
    minutes * 60 + seconds equals the countdown, and minutes and seconds lie
    between 0 and 59; when the countdown is null, [formatted_time] is
    null. *)
Theorem formatted_time_decomposes_countdown
    (D : Downloader) (cls : Sensor.SensorClass) (s : State) :
  In cls Sensor.countdown_sensors ->
  match fst (Sensor.native_value cls s) with
  | Ok (Some r) =>
      exists (attrs : gmap string Sensor.attr_value) (text : string)
             (hours minutes seconds : Z),
        fst (Sensor.extra_state_attributes cls s) = Ok attrs
        /\ attrs !! "formatted_time"%string = Some (Sensor.AStr text)
        /\ text = PyFormat.hms hours minutes seconds
        /\ PyFormat.read_hms text = Some (hours, minutes, seconds)
        /\ hours * 3600 + minutes * 60 + seconds = r
        /\ 0 <= minutes <= 59 /\ 0 <= seconds <= 59
        /\ (0 <= r -> 0 <= hours)
  | Ok None =>
      exists attrs : gmap string Sensor.attr_value,
        fst (Sensor.extra_state_attributes cls s) = Ok attrs
        /\ attrs !! "formatted_time"%string = Some Sensor.ANone
  | Raise _ => True
  end.
Proof.
  intros Hcls.
  destruct (countdown_sensor_cases cls Hcls) as (k & prefix & inactive & ->).
  simpl. rewrite remaining_attributes_run.
  destruct (query k s) as [[[r|]|ex] s1]; simpl; [| |exact I].
  - eexists _, _, (r / 3600), ((r mod 3600) / 60), (r mod 60).
    split; [reflexivity|].
    split; [rewrite lookup_insert_ne by discriminate; apply lookup_insert_eq|].
    split; [reflexivity|].
    split; [apply read_hms_hms|].
    pose proof (Z.mod_pos_bound r 3600 ltac:(lia)).
    pose proof (Z.mod_pos_bound r 60 ltac:(lia)).
    pose proof (Z.div_mod r 3600 ltac:(lia)).
    pose proof (Z.div_mod (r mod 3600) 60 ltac:(lia)).
    assert (Hmm : (r mod 3600) mod 60 = r mod 60).
    { symmetry. rewrite (Z.div_mod r 3600) at 1 by lia.
      replace (3600 * (r / 3600) + r mod 3600)
        with (r mod 3600 + (60 * (r / 3600)) * 60) by lia.
      apply Z.mod_add. lia. }
    assert (0 <= (r mod 3600) / 60 <= 59).
    { split; [apply Z.div_pos; lia|].
      enough ((r mod 3600) / 60 < 60) by lia.
      apply Z.div_lt_upper_bound; lia. }
    repeat split; lia.
  - eexists. split; [reflexivity|].
    rewrite lookup_insert_ne by discriminate. apply lookup_insert_eq.
Qed.

Lemma formatted_time_decomposes_countdown_witness :
  exists (attrs : gmap string Sensor.attr_value) (text : string)
         (hours minutes seconds : Z),
    fst (Sensor.extra_state_attributes Sensor.LowTariffRemaining
           (Scenarios.state_with Scenarios.low_day (Scenarios.at_ 2024 1 1 10 0 0 0)))
    = Ok attrs
    /\ attrs !! "formatted_time"%string = Some (Sensor.AStr text)
    /\ text = PyFormat.hms hours minutes seconds
    /\ PyFormat.read_hms text = Some (hours, minutes, seconds)
    /\ hours * 3600 + minutes * 60 + seconds = 36000
    /\ 0 <= minutes <= 59 /\ 0 <= seconds <= 59
    /\ (0 <= 36000 -> 0 <= hours).
Proof.
  exact (formatted_time_decomposes_countdown (Scenarios.mock Scenarios.low_day)
           Sensor.LowTariffRemaining
           (Scenarios.state_with Scenarios.low_day (Scenarios.at_ 2024 1 1 10 0 0 0))
           (or_introl eq_refl)).
Defined.

(** * Further properties of the code *)

(** ** [CezHdoBaseEntity.update] and [_load_from_cache] *)

Section FetchFacts.
Context {D : Downloader}.

Lemma load_first_miss (paths : list string) (self : Entity) (w : Fetch.World) :
  Forall (unloadable w) paths ->
  Fetch.load_first paths self w = (false, self).
Proof.
  induction 1 as [|p paths Hp _ IH]; [reflexivity|].
  simpl. unfold Fetch._load_from_cache.
  destruct (Fetch.cache_files w !! p) as [[d|]|] eqn:E; [|exact IH|exact IH].
  exfalso. exact (Hp d E).
Qed.

Lemma load_first_hit (paths : list string) (self : Entity) (w : Fetch.World)
    (i : nat) (p : string) (d : payload) :
  paths !! i = Some p ->
  Fetch.cache_files w !! p = Some (Some d) ->
  (forall j q, (j < i)%nat -> paths !! j = Some q -> unloadable w q) ->
  Fetch.load_first paths self w = (true, Fetch.store d self).
Proof.
  revert i. induction paths as [|q paths IH]; intros i Hi Hp Hbefore; [discriminate Hi|].
  destruct i as [|i]; simpl in Hi.
  - injection Hi as ->. simpl. unfold Fetch._load_from_cache. rewrite Hp. reflexivity.
  - simpl. unfold Fetch._load_from_cache.
    destruct (Fetch.cache_files w !! q) as [[d'|]|] eqn:E.
    + exfalso. apply (Hbefore 0%nat q ltac:(lia) eq_refl d'). exact E.
    + apply (IH i Hi Hp). intros j r Hj Hr. apply (Hbefore (S j) r); [lia|exact Hr].
    + apply (IH i Hi Hp). intros j r Hj Hr. apply (Hbefore (S j) r); [lia|exact Hr].
Qed.

(** Either some path loads, and then the first such, or none does. *)
Lemma load_first_cases (paths : list string) (self : Entity) (w : Fetch.World) :
  (Forall (unloadable w) paths /\ Fetch.load_first paths self w = (false, self))
  \/ (exists i p d,
        paths !! i = Some p /\ Fetch.cache_files w !! p = Some (Some d)
        /\ (forall j q, (j < i)%nat -> paths !! j = Some q -> unloadable w q)
        /\ Fetch.load_first paths self w = (true, Fetch.store d self)).
Proof.
  induction paths as [|q paths IH].
  - left. split; [constructor|reflexivity].
  - destruct (Fetch.cache_files w !! q) as [[d|]|] eqn:E.
    + right. exists 0%nat, q, d. split; [reflexivity|]. split; [exact E|].
      split; [intros j r Hj; lia|].
      simpl. unfold Fetch._load_from_cache. rewrite E. reflexivity.
    + assert (Hq : unloadable w q) by (intros d'; rewrite E; discriminate).
      destruct IH as [[Hall Hl]|(i & p & d & Hi & Hp & Hb & Hl)].
      * left. split; [constructor; assumption|].
        simpl. unfold Fetch._load_from_cache. rewrite E. exact Hl.
      * right. exists (S i), p, d. split; [exact Hi|]. split; [exact Hp|]. split.
        -- intros [|j] r Hj Hr; [injection Hr as <-; exact Hq|].
           apply (Hb j r); [lia|exact Hr].
        -- simpl. unfold Fetch._load_from_cache. rewrite E. exact Hl.
    + assert (Hq : unloadable w q) by (intros d'; rewrite E; discriminate).
      destruct IH as [[Hall Hl]|(i & p & d & Hi & Hp & Hb & Hl)].
      * left. split; [constructor; assumption|].
        simpl. unfold Fetch._load_from_cache. rewrite E. exact Hl.
      * right. exists (S i), p, d. split; [exact Hi|]. split; [exact Hp|]. split.
        -- intros [|j] r Hj Hr; [injection Hr as <-; exact Hq|].
           apply (Hb j r); [lia|exact Hr].
        -- simpl. unfold Fetch._load_from_cache. rewrite E. exact Hl.
Qed.

Lemma update_from_cache (env : Fetch.Env) (self : Entity) (w : Fetch.World)
    (i : nat) (p : string) (d : payload) :
  Fetch.cache_paths !! i = Some p ->
  Fetch.cache_files w !! p = Some (Some d) ->
  (forall j q, (j < i)%nat -> Fetch.cache_paths !! j = Some q -> unloadable w q) ->
  Fetch.update env self w = (Fetch.store d self, w).
Proof.
  intros Hi Hp Hb. unfold Fetch.update.
  rewrite (load_first_hit _ self w i p d Hi Hp Hb). reflexivity.
Qed.

Lemma update_without_cache (env : Fetch.Env) (self : Entity) (w : Fetch.World) :
  Forall (unloadable w) Fetch.cache_paths ->
  Fetch.update env self w
  = match Fetch.api_loop env [0; 1]%nat self w with
    | (true, self', w') => (self', w')
    | (false, self', w') => (Fetch.mark_failed self', w')
    end.
Proof.
  intros Hnone. unfold Fetch.update. rewrite (load_first_miss _ self w Hnone). reflexivity.
Qed.

End FetchFacts.

Section ApiFacts.
Context {D : Downloader}.

Lemma posts_log_post (w : Fetch.World) :
  Fetch.posts (Fetch.log_io Fetch.IoPost w) = S (Fetch.posts w).
Proof. reflexivity. Qed.

Lemma posts_log_sleep (seconds : Z) (w : Fetch.World) :
  Fetch.posts (Fetch.log_io (Fetch.IoSleep seconds) w) = Fetch.posts w.
Proof. reflexivity. Qed.

Lemma save_first_log (env : Fetch.Env) (d : payload) (paths : list string)
    (w : Fetch.World) :
  Fetch.io_log (Fetch.save_first env d paths w) = Fetch.io_log w.
Proof.
  revert w. induction paths as [|p paths IH]; intros w; [reflexivity|].
  simpl. destruct (Fetch.write env p); [reflexivity|apply IH|].
  rewrite IH. reflexivity.
Qed.

(** What the saving loop does to the file at any path [q]. *)
Lemma save_first_lookup (env : Fetch.Env) (d : payload) (paths : list string)
    (w : Fetch.World) (q : string) :
  Fetch.cache_files (Fetch.save_first env d paths w) !! q
  = if bool_decide (q ∈ attempted env paths)
    then match Fetch.write env q with
         | Fetch.Written => Some (Some d)
         | Fetch.Truncated => Some None
         | Fetch.NotOpened => Fetch.cache_files w !! q
         end
    else Fetch.cache_files w !! q.
Proof.
  revert w. induction paths as [|p paths IH]; intros w; [reflexivity|].
  simpl. destruct (Fetch.write env p) eqn:Hp.
  - simpl. destruct (decide (q = p)) as [->|Hne].
    + rewrite bool_decide_eq_true_2 by (apply list_elem_of_singleton; reflexivity).
      rewrite Hp. apply lookup_insert_eq.
    + rewrite bool_decide_eq_false_2
        by (rewrite list_elem_of_singleton; exact Hne).
      apply lookup_insert_ne. congruence.
  - rewrite IH. destruct (decide (q = p)) as [->|Hne].
    + rewrite (bool_decide_eq_true_2 (p ∈ p :: attempted env paths))
        by (apply elem_of_cons; left; reflexivity).
      rewrite Hp. destruct (bool_decide (p ∈ attempted env paths)); reflexivity.
    + destruct (bool_decide_reflect (q ∈ attempted env paths)) as [Hin|Hnin].
      * rewrite bool_decide_eq_true_2 by (apply elem_of_cons; right; exact Hin).
        reflexivity.
      * rewrite bool_decide_eq_false_2; [reflexivity|].
        rewrite elem_of_cons. tauto.
  - rewrite IH. simpl. destruct (decide (q = p)) as [->|Hne].
    + rewrite (bool_decide_eq_true_2 (p ∈ p :: attempted env paths))
        by (apply elem_of_cons; left; reflexivity).
      rewrite Hp, lookup_insert_eq.
      destruct (bool_decide (p ∈ attempted env paths)); reflexivity.
    + rewrite (lookup_insert_ne _ p q) by congruence.
      destruct (bool_decide_reflect (q ∈ attempted env paths)) as [Hin|Hnin].
      * rewrite bool_decide_eq_true_2 by (apply elem_of_cons; right; exact Hin).
        reflexivity.
      * rewrite bool_decide_eq_false_2; [reflexivity|].
        rewrite elem_of_cons. tauto.
Qed.

(** A path the saving loop gets to has no writable path before it. *)
Lemma attempted_before (env : Fetch.Env) (paths : list string) (q : string) :
  q ∈ attempted env paths ->
  exists i, paths !! i = Some q
            /\ forall j r, (j < i)%nat -> paths !! j = Some r ->
                           Fetch.writable env r = false.
Proof.
  induction paths as [|p paths IH]; simpl; [intros H; inversion H|].
  intros Hin.
  assert (Hhead : exists i, (p :: paths) !! i = Some p
                            /\ forall j r, (j < i)%nat -> (p :: paths) !! j = Some r ->
                                           Fetch.writable env r = false).
  { exists 0%nat. split; [reflexivity|]. intros j r Hj. lia. }
  assert (Htail : Fetch.writable env p = false -> q ∈ attempted env paths ->
                  exists i, (p :: paths) !! i = Some q
                            /\ forall j r, (j < i)%nat -> (p :: paths) !! j = Some r ->
                                           Fetch.writable env r = false).
  { intros Hp Hq. destruct (IH Hq) as (i & Hi & Hb). exists (S i).
    split; [exact Hi|]. intros [|j] r Hj Hr; [injection Hr as <-; exact Hp|].
    apply (Hb j r); [lia|exact Hr]. }
  unfold Fetch.writable in Htail.
  destruct (Fetch.write env p) eqn:Hp.
  - apply list_elem_of_singleton in Hin. subst q. exact Hhead.
  - apply elem_of_cons in Hin. destruct Hin as [->|Hin]; [exact Hhead|].
    apply Htail; [reflexivity|exact Hin].
  - apply elem_of_cons in Hin. destruct Hin as [->|Hin]; [exact Hhead|].
    apply Htail; [reflexivity|exact Hin].
Qed.

(** When some path can be written, the loop gets to the first such. *)
Lemma attempted_first_written (env : Fetch.Env) (paths : list string) (p : string) :
  In p paths -> Fetch.writable env p = true ->
  exists i q, paths !! i = Some q /\ Fetch.write env q = Fetch.Written
              /\ q ∈ attempted env paths
              /\ forall j r, (j < i)%nat -> paths !! j = Some r ->
                             Fetch.writable env r = false.
Proof.
  intros Hin Hw. induction paths as [|p0 paths IH]; [destruct Hin|].
  destruct (Fetch.write env p0) eqn:Hp0.
  - exists 0%nat, p0. split; [reflexivity|]. split; [exact Hp0|]. split.
    + simpl. rewrite Hp0. apply list_elem_of_singleton. reflexivity.
    + intros j r Hj. lia.
  - destruct Hin as [->|Hin];
      [unfold Fetch.writable in Hw; rewrite Hp0 in Hw; discriminate Hw|].
    destruct (IH Hin) as (i & q & Hi & Hq & Hatt & Hb).
    exists (S i), q. split; [exact Hi|]. split; [exact Hq|]. split.
    + simpl. rewrite Hp0. apply elem_of_cons. right. exact Hatt.
    + intros [|j] r Hj Hr.
      * injection Hr as <-. unfold Fetch.writable. rewrite Hp0. reflexivity.
      * apply (Hb j r); [lia|exact Hr].
  - destruct Hin as [->|Hin];
      [unfold Fetch.writable in Hw; rewrite Hp0 in Hw; discriminate Hw|].
    destruct (IH Hin) as (i & q & Hi & Hq & Hatt & Hb).
    exists (S i), q. split; [exact Hi|]. split; [exact Hq|]. split.
    + simpl. rewrite Hp0. apply elem_of_cons. right. exact Hatt.
    + intros [|j] r Hj Hr.
      * injection Hr as <-. unfold Fetch.writable. rewrite Hp0. reflexivity.
      * apply (Hb j r); [lia|exact Hr].
Qed.

(** One iteration, read backwards from how it ends. *)
Lemma api_attempt_inv (env : Fetch.Env) (attempt : nat) (self : Entity)
    (w : Fetch.World) :
  let o := Fetch.post env (Fetch.posts w) in
  match Fetch.api_attempt env attempt self w with
  | (Fetch.Return, self', w') =>
      exists d, delivers o d /\ self' = Fetch.store d self
                /\ w' = Fetch.save_first env d Fetch.cache_paths
                          (Fetch.log_io Fetch.IoPost w)
  | (Fetch.Continue, self', w') =>
      attempt = 0%nat /\ self' = self
      /\ (((exists content, o = Fetch.Response 502 content)
           /\ w' = Fetch.log_io (Fetch.IoSleep 3) (Fetch.log_io Fetch.IoPost w))
          \/ (o = Fetch.RequestException
              /\ w' = Fetch.log_io (Fetch.IoSleep 2) (Fetch.log_io Fetch.IoPost w)))
  | (Fetch.Break, self', w') =>
      self' = self
      /\ (w' = w \/ w' = Fetch.log_io Fetch.IoPost w)
      /\ (forall d, ~ delivers o d)
      /\ (attempt = 0%nat -> ~ retried o)
  end.
Proof.
  intros o. subst o. unfold Fetch.api_attempt.
  destruct (Fetch.post env (Fetch.posts w)) as [|status content| |] eqn:Ho.
  - split; [reflexivity|]. split; [left; reflexivity|]. split.
    + intros d (n & _ & E). discriminate E.
    + intros _ [(c & E)|E]; discriminate E.
  - destruct (Z.eqb_spec status 200) as [->|Hne200].
    + destruct content as [d [n|]|].
      * destruct (Nat.ltb_spec 0 n) as [Hpos|Hzero].
        -- exists d. split; [exists n; split; [exact Hpos|reflexivity]|].
           split; reflexivity.
        -- split; [reflexivity|]. split; [right; reflexivity|]. split.
           ++ intros d' (n' & Hn' & E). injection E as -> ->. lia.
           ++ intros _ [(c & E)|E]; discriminate E.
      * split; [reflexivity|]. split; [right; reflexivity|]. split.
        -- intros d' (n' & Hn' & E). discriminate E.
        -- intros _ [(c & E)|E]; discriminate E.
      * split; [reflexivity|]. split; [right; reflexivity|]. split.
        -- intros d' (n' & Hn' & E). discriminate E.
        -- intros _ [(c & E)|E]; discriminate E.
    + destruct (Z.eqb_spec status 502) as [->|Hne502].
      * destruct (Nat.eqb_spec attempt 0) as [->|Hne].
        -- split; [reflexivity|]. split; [reflexivity|]. left.
           split; [exists content; reflexivity|reflexivity].
        -- split; [reflexivity|]. split; [right; reflexivity|]. split.
           ++ intros d' (n' & Hn' & E). discriminate E.
           ++ intros ->. contradiction.
      * split; [reflexivity|]. split; [right; reflexivity|]. split.
        -- intros d' (n' & Hn' & E). injection E as E _. contradiction.
        -- intros _ [(c & E)|E]; [injection E as E _; contradiction|discriminate E].
  - destruct (Nat.eqb_spec attempt 0) as [->|Hne].
    + split; [reflexivity|]. split; [reflexivity|]. right. split; reflexivity.
    + split; [reflexivity|]. split; [right; reflexivity|]. split.
      * intros d' (n' & Hn' & E). discriminate E.
      * intros ->. contradiction.
  - split; [reflexivity|]. split; [right; reflexivity|]. split.
    + intros d (n & _ & E). discriminate E.
    + intros _ [(c & E)|E]; discriminate E.
Qed.

(** The whole loop over [range(2)]: the data comes from the first request,
    or from the second after a first that is retried, or the loop gives
    up with the entity and the files as they were. *)
Lemma api_loop_inv (env : Fetch.Env) (self : Entity) (w : Fetch.World) :
  let o0 := Fetch.post env (Fetch.posts w) in
  let o1 := Fetch.post env (S (Fetch.posts w)) in
  let retrying := Fetch.log_io (Fetch.IoSleep (retry_sleep o0))
                    (Fetch.log_io Fetch.IoPost w) in
  match Fetch.api_loop env [0; 1]%nat self w with
  | (true, self', w') =>
      exists d,
        self' = Fetch.store d self
        /\ ((delivers o0 d
             /\ w' = Fetch.save_first env d Fetch.cache_paths
                       (Fetch.log_io Fetch.IoPost w))
            \/ (retried o0 /\ delivers o1 d
                /\ w' = Fetch.save_first env d Fetch.cache_paths
                          (Fetch.log_io Fetch.IoPost retrying)))
  | (false, self', w') =>
      self' = self
      /\ Fetch.cache_files w' = Fetch.cache_files w
      /\ (forall d, ~ delivers o0 d)
      /\ ((~ retried o0
           /\ (w' = w \/ w' = Fetch.log_io Fetch.IoPost w))
          \/ (retried o0 /\ (forall d, ~ delivers o1 d)
              /\ (w' = retrying \/ w' = Fetch.log_io Fetch.IoPost retrying)))
  end.
Proof.
  intros o0 o1 retrying. subst o0 o1 retrying. simpl.
  pose proof (api_attempt_inv env 0 self w) as H0. cbv zeta in H0.
  destruct (Fetch.api_attempt env 0 self w) as [[[| |] self0] w0].
  - destruct H0 as (d & Hd & -> & ->). exists d. split; [reflexivity|]. left.
    split; [exact Hd|reflexivity].
  - destruct H0 as (_ & -> & Hretry).
    assert (Hr : retried (Fetch.post env (Fetch.posts w))).
    { destruct Hretry as [[Hc _]|[Hc _]]; [left; exact Hc|right; exact Hc]. }
    assert (Hw0 : w0 = Fetch.log_io
                         (Fetch.IoSleep (retry_sleep (Fetch.post env (Fetch.posts w))))
                         (Fetch.log_io Fetch.IoPost w)).
    { destruct Hretry as [[(c & Ec) ->]|[Ec ->]]; rewrite Ec; reflexivity. }
    subst w0.
    assert (Hnot0 : forall d, ~ delivers (Fetch.post env (Fetch.posts w)) d).
    { intros d (n & _ & E). destruct Hr as [(c & Ec)|Ec]; rewrite Ec in E; discriminate E. }
    pose proof (api_attempt_inv env 1 self
                  (Fetch.log_io
                     (Fetch.IoSleep (retry_sleep (Fetch.post env (Fetch.posts w))))
                     (Fetch.log_io Fetch.IoPost w))) as H1.
    cbv zeta in H1. rewrite posts_log_sleep, posts_log_post in H1.
    destruct (Fetch.api_attempt env 1 self _) as [[[| |] self1] w1].
    + destruct H1 as (d & Hd & -> & ->). exists d. split; [reflexivity|]. right.
      split; [exact Hr|]. split; [exact Hd|reflexivity].
    + destruct H1 as (Habs & _). discriminate Habs.
    + destruct H1 as (-> & Hw1 & Hnot1 & _).
      split; [reflexivity|]. split; [destruct Hw1 as [->| ->]; reflexivity|].
      split; [exact Hnot0|]. right. split; [exact Hr|]. split; [exact Hnot1|exact Hw1].
  - destruct H0 as (-> & Hw0 & Hnot0 & Hnr).
    split; [reflexivity|]. split; [destruct Hw0 as [->| ->]; reflexivity|].
    split; [exact Hnot0|]. left. split; [exact (Hnr eq_refl)|exact Hw0].
Qed.

End ApiFacts.

Section UpdateTheorems.
Context {D : Downloader}.

Lemma update_cases (env : Fetch.Env) (self : Entity) (w : Fetch.World) :
  (exists i p d,
     Fetch.cache_paths !! i = Some p /\ Fetch.cache_files w !! p = Some (Some d)
     /\ (forall j q, (j < i)%nat -> Fetch.cache_paths !! j = Some q -> unloadable w q)
     /\ Fetch.update env self w = (Fetch.store d self, w))
  \/ (Forall (unloadable w) Fetch.cache_paths
      /\ Fetch.update env self w
         = match Fetch.api_loop env [0; 1]%nat self w with
           | (true, self', w') => (self', w')
           | (false, self', w') => (Fetch.mark_failed self', w')
           end).
Proof.
  destruct (load_first_cases Fetch.cache_paths self w)
    as [[Hnone _]|(i & p & d & Hi & Hp & Hb & _)].
  - right. split; [exact Hnone|apply update_without_cache; exact Hnone].
  - left. exists i, p, d. split; [exact Hi|]. split; [exact Hp|]. split; [exact Hb|].
    apply (update_from_cache env self w i p d Hi Hp Hb).
Qed.

End UpdateTheorems.

(** X1. When a cache file can be loaded, [update] stores the data of the
    first such file in the order of [cache_paths], marks the update
    successful, sends no request and leaves every cache file alone. *)
Theorem update_prefers_cache
    (D : Downloader) (env : Fetch.Env) (self : Entity) (w : Fetch.World)
    (i : nat) (p : string) (d : payload) :
  Fetch.cache_paths !! i = Some p ->
  Fetch.cache_files w !! p = Some (Some d) ->
  (forall j q, (j < i)%nat -> Fetch.cache_paths !! j = Some q -> unloadable w q) ->
  Fetch.update env self w = (Fetch.store d self, w)
  /\ _response_data (fst (Fetch.update env self w)) = Some d
  /\ Fetch.available (fst (Fetch.update env self w)) = true
  /\ Fetch.posts (snd (Fetch.update env self w)) = Fetch.posts w.
Proof.
  intros Hi Hp Hb. rewrite (update_from_cache env self w i p d Hi Hp Hb).
  repeat split.
Qed.

Lemma update_prefers_cache_witness :
  Fetch.update FetchScenarios.env_down FetchScenarios.loaded_entity
               FetchScenarios.cached_world
  = (Fetch.store Scenarios.scenario FetchScenarios.loaded_entity,
     FetchScenarios.cached_world).
Proof.
  apply (update_prefers_cache SpecDownloader FetchScenarios.env_down
           FetchScenarios.loaded_entity FetchScenarios.cached_world
           1%nat FetchScenarios.second_path Scenarios.scenario).
  - reflexivity.
  - vm_compute. reflexivity.
  - intros [|j] q Hj Hq; [|lia]. injection Hq as <-.
    intros d' Hd'. vm_compute in Hd'. discriminate Hd'.
Defined.

Section WorldMeasures.
Context {D : Downloader}.

Lemma posts_save_first (env : Fetch.Env) (d : payload) (paths : list string)
    (w : Fetch.World) :
  Fetch.posts (Fetch.save_first env d paths w) = Fetch.posts w.
Proof. unfold Fetch.posts. rewrite save_first_log. reflexivity. Qed.

Lemma slept_save_first (env : Fetch.Env) (d : payload) (paths : list string)
    (w : Fetch.World) :
  slept (Fetch.save_first env d paths w) = slept w.
Proof. unfold slept. rewrite save_first_log. reflexivity. Qed.

Lemma slept_log_post (w : Fetch.World) :
  slept (Fetch.log_io Fetch.IoPost w) = slept w.
Proof. reflexivity. Qed.

Lemma slept_log_sleep (seconds : Z) (w : Fetch.World) :
  slept (Fetch.log_io (Fetch.IoSleep seconds) w) = seconds + slept w.
Proof. reflexivity. Qed.

End WorldMeasures.

Ltac measure_world :=
  rewrite ?posts_save_first, ?slept_save_first, ?posts_log_post, ?posts_log_sleep,
    ?slept_log_post, ?slept_log_sleep, ?posts_log_post, ?slept_log_post.

(** X2. Whenever [update] ends unsuccessful, no cache file could be
    loaded, the entity keeps the response data it had (only the success
    flag is cleared), no cache file is changed, and from then on
    [_get_hdo_data] gives the unresolved tuple and every countdown query
    null, although the old data is still stored. *)
Theorem failed_update_keeps_data_but_hides_it
    (D : Downloader) (env : Fetch.Env) (self : Entity) (w : Fetch.World) :
  Fetch.available (fst (Fetch.update env self w)) = false ->
  Forall (unloadable w) Fetch.cache_paths
  /\ fst (Fetch.update env self w) = Fetch.mark_failed self
  /\ _response_data (fst (Fetch.update env self w)) = _response_data self
  /\ Fetch.cache_files (snd (Fetch.update env self w)) = Fetch.cache_files w
  /\ forall (now : datetime) (tr : list event),
       fst (CezHdoBaseEntity._get_hdo_data
              (mkState (fst (Fetch.update env self w)) now tr))
       = Ok CezHdoBaseEntity.unresolved
       /\ forall k, fst (query k (mkState (fst (Fetch.update env self w)) now tr))
                    = Ok None.
Proof.
  intros Hfail.
  destruct (update_cases env self w) as [(i & p & d & _ & _ & _ & E)|[Hnone E]].
  - rewrite E in Hfail. discriminate Hfail.
  - rewrite E in Hfail |- *.
    pose proof (api_loop_inv env self w) as Hloop. cbv zeta in Hloop.
    destruct (Fetch.api_loop env [0; 1]%nat self w) as [[[|] self'] w'].
    + destruct Hloop as (d & -> & _). discriminate Hfail.
    + destruct Hloop as (-> & Hfiles & _). simpl.
      split; [exact Hnone|]. split; [reflexivity|]. split; [reflexivity|].
      split; [exact Hfiles|]. intros now tr.
      assert (Hd : fst (CezHdoBaseEntity._get_hdo_data
                          (mkState (Fetch.mark_failed self) now tr))
                   = Ok CezHdoBaseEntity.unresolved).
      { apply absent_outcome. right. left. reflexivity. }
      split; [exact Hd|]. intros k. apply query_unresolved. exact Hd.
Qed.

Lemma failed_update_keeps_data_but_hides_it_witness :
  _response_data (fst (Fetch.update FetchScenarios.env_down FetchScenarios.loaded_entity
                         FetchScenarios.empty_world))
  = Some Scenarios.scenario
  /\ fst (CezHdoBaseEntity.get_low_tariff_remaining_seconds
            (mkState (fst (Fetch.update FetchScenarios.env_down
                             FetchScenarios.loaded_entity FetchScenarios.empty_world))
                     (Scenarios.at_ 2024 1 1 10 0 0 0) []))
     = Ok None.
Proof.
  destruct (failed_update_keeps_data_but_hides_it SpecDownloader FetchScenarios.env_down
              FetchScenarios.loaded_entity FetchScenarios.empty_world eq_refl)
    as (_ & _ & Hdata & _ & Hq).
  split; [exact Hdata|].
  destruct (Hq (Scenarios.at_ 2024 1 1 10 0 0 0) []) as [_ Hk].
  exact (Hk LowRemaining).
Defined.

(** X3. Whenever [update] ends successful, the data it stored is either
    the content of the first loadable cache file, taken as it is, or, with
    no loadable cache file, the body of a response with status 200 whose
    list of signals is not empty, from the first request or from the second
    after a first one that met status 502 or a [RequestException].  An API
    answer without signals is never stored. *)
Theorem successful_update_data_origin
    (D : Downloader) (env : Fetch.Env) (self : Entity) (w : Fetch.World) :
  Fetch.available (fst (Fetch.update env self w)) = true ->
  exists d : payload,
    fst (Fetch.update env self w) = Fetch.store d self
    /\ ((exists i p,
           Fetch.cache_paths !! i = Some p
           /\ Fetch.cache_files w !! p = Some (Some d)
           /\ forall j q, (j < i)%nat -> Fetch.cache_paths !! j = Some q ->
                          unloadable w q)
        \/ (Forall (unloadable w) Fetch.cache_paths
            /\ (delivers (Fetch.post env (Fetch.posts w)) d
                \/ (retried (Fetch.post env (Fetch.posts w))
                    /\ delivers (Fetch.post env (S (Fetch.posts w))) d)))).
Proof.
  intros Hok.
  destruct (update_cases env self w) as [(i & p & d & Hi & Hp & Hb & E)|[Hnone E]].
  - exists d. rewrite E. split; [reflexivity|]. left. exists i, p. auto.
  - rewrite E in Hok |- *.
    pose proof (api_loop_inv env self w) as Hloop. cbv zeta in Hloop.
    destruct (Fetch.api_loop env [0; 1]%nat self w) as [[[|] self'] w'].
    + destruct Hloop as (d & -> & Hfrom). exists d. split; [reflexivity|]. right.
      split; [exact Hnone|].
      destruct Hfrom as [[Hd _]|(Hr & Hd & _)]; [left; exact Hd|right; split; assumption].
    + destruct Hloop as (-> & _). simpl in Hok. discriminate Hok.
Qed.

Lemma successful_update_data_origin_witness :
  exists d : list SpecModel.RawEntry,
    fst (Fetch.update FetchScenarios.env_retry FetchScenarios.loaded_entity
           FetchScenarios.empty_world)
    = Fetch.store d FetchScenarios.loaded_entity
    /\ ((exists i p,
           Fetch.cache_paths !! i = Some p
           /\ Fetch.cache_files FetchScenarios.empty_world !! p = Some (Some d)
           /\ forall j q, (j < i)%nat -> Fetch.cache_paths !! j = Some q ->
                          unloadable FetchScenarios.empty_world q)
        \/ (Forall (unloadable FetchScenarios.empty_world) Fetch.cache_paths
            /\ (delivers (Fetch.post FetchScenarios.env_retry
                            (Fetch.posts FetchScenarios.empty_world)) d
                \/ (retried (Fetch.post FetchScenarios.env_retry
                               (Fetch.posts FetchScenarios.empty_world))
                    /\ delivers (Fetch.post FetchScenarios.env_retry
                                   (S (Fetch.posts FetchScenarios.empty_world))) d)))).
Proof.
  exact (successful_update_data_origin SpecDownloader FetchScenarios.env_retry
           FetchScenarios.loaded_entity FetchScenarios.empty_world eq_refl).
Defined.

(** X4. One run of [update] sends at most two requests, and two only when
    no cache file loads and the first request met status 502 or a
    [RequestException]; it sleeps at most once, 3 seconds after a 502 and
    2 seconds after a [RequestException], and never otherwise. *)
Theorem update_requests_and_sleeps
    (D : Downloader) (env : Fetch.Env) (self : Entity) (w : Fetch.World) :
  let w' := snd (Fetch.update env self w) in
  let o0 := Fetch.post env (Fetch.posts w) in
  (Fetch.posts w <= Fetch.posts w' <= Fetch.posts w + 2)%nat
  /\ (Fetch.posts w' = (Fetch.posts w + 2)%nat ->
      Forall (unloadable w) Fetch.cache_paths /\ retried o0)
  /\ (slept w' = slept w
      \/ (Forall (unloadable w) Fetch.cache_paths
          /\ (((exists content, o0 = Fetch.Response 502 content)
               /\ slept w' = slept w + 3)
              \/ (o0 = Fetch.RequestException /\ slept w' = slept w + 2)))).
Proof.
  intros w' o0. subst w' o0.
  destruct (update_cases env self w) as [(i & p & d & _ & _ & _ & E)|[Hnone E]].
  - rewrite E. simpl. split; [lia|]. split; [intros; lia|]. left. reflexivity.
  - rewrite E.
    pose proof (api_loop_inv env self w) as Hloop. cbv zeta in Hloop.
    assert (Hpause : retried (Fetch.post env (Fetch.posts w)) ->
              forall z, z = slept w + retry_sleep (Fetch.post env (Fetch.posts w)) ->
              ((exists content, Fetch.post env (Fetch.posts w) = Fetch.Response 502 content)
               /\ z = slept w + 3)
              \/ (Fetch.post env (Fetch.posts w) = Fetch.RequestException
                  /\ z = slept w + 2)).
    { intros [(c & Ec)|Ec] z ->; rewrite Ec; simpl; [left|right]; eauto. }
    destruct (Fetch.api_loop env [0; 1]%nat self w) as [[[|] self'] w'].
    + destruct Hloop as (d & -> & [[Hd ->]|(Hr & Hd & ->)]); cbn [fst snd]; measure_world.
      * split; [lia|]. split; [intros; lia|]. left. reflexivity.
      * split; [lia|]. split; [intros _; split; assumption|]. right.
        split; [exact Hnone|]. apply (Hpause Hr). lia.
    + destruct Hloop as (-> & _ & _ & [[Hnr [->| ->]]|(Hr & _ & [->| ->])]);
        cbn [fst snd]; measure_world.
      * split; [lia|]. split; [intros; lia|]. left. reflexivity.
      * split; [lia|]. split; [intros; lia|]. left. reflexivity.
      * split; [lia|]. split; [intros; lia|].
        right. split; [exact Hnone|]. apply (Hpause Hr). lia.
      * split; [lia|]. split; [intros _; split; assumption|]. right.
        split; [exact Hnone|]. apply (Hpause Hr). lia.
Qed.

Lemma update_requests_and_sleeps_witness :
  Fetch.posts (snd (Fetch.update FetchScenarios.env_retry FetchScenarios.loaded_entity
                      FetchScenarios.empty_world)) = 2%nat
  /\ retried (Fetch.post FetchScenarios.env_retry
                (Fetch.posts FetchScenarios.empty_world)).
Proof.
  destruct (update_requests_and_sleeps SpecDownloader FetchScenarios.env_retry
              FetchScenarios.loaded_entity FetchScenarios.empty_world)
    as (_ & Htwo & _).
  split; [reflexivity|]. apply Htwo. reflexivity.
Defined.

Lemma cache_paths_nodup : NoDup Fetch.cache_paths.
Proof. refine (bool_decide_unpack _ _). vm_compute. reflexivity. Qed.

(** What a successful pass through the API leaves in the files. *)
Lemma api_loop_files (D : Downloader) (env : Fetch.Env) (self : Entity)
    (w : Fetch.World) (self' : Entity) (w' : Fetch.World) :
  Fetch.api_loop env [0; 1]%nat self w = (true, self', w') ->
  exists d,
    self' = Fetch.store d self
    /\ forall q,
         Fetch.cache_files w' !! q
         = if bool_decide (q ∈ attempted env Fetch.cache_paths)
           then match Fetch.write env q with
                | Fetch.Written => Some (Some d)
                | Fetch.Truncated => Some None
                | Fetch.NotOpened => Fetch.cache_files w !! q
                end
           else Fetch.cache_files w !! q.
Proof.
  intros E. pose proof (api_loop_inv env self w) as Hloop. cbv zeta in Hloop.
  rewrite E in Hloop. destruct Hloop as (d & -> & Hw').
  exists d. split; [reflexivity|]. intros q.
  destruct Hw' as [[_ ->]|(_ & _ & ->)]; rewrite save_first_lookup; reflexivity.
Qed.

(** After a successful pass through the API with a writable cache path, the
    cache serves the stored data to every later [update]. *)
Lemma served_from_cache_after_api
    (D : Downloader) (env : Fetch.Env) (self : Entity) (w : Fetch.World) (p : string) :
  Forall (unloadable w) Fetch.cache_paths ->
  In p Fetch.cache_paths -> Fetch.writable env p = true ->
  Fetch.available (fst (Fetch.update env self w)) = true ->
  exists d : payload,
    _response_data (fst (Fetch.update env self w)) = Some d
    /\ forall (env2 : Fetch.Env) (self2 : Entity),
         Fetch.update env2 self2 (snd (Fetch.update env self w))
         = (Fetch.store d self2, snd (Fetch.update env self w)).
Proof.
  intros Hnone Hin Hwr Hok.
  rewrite (update_without_cache env self w Hnone) in Hok |- *.
  destruct (Fetch.api_loop env [0; 1]%nat self w) as [[[|] self'] w'] eqn:E;
    [|pose proof (api_loop_inv env self w) as Hloop; cbv zeta in Hloop;
      rewrite E in Hloop; destruct Hloop as (-> & _); discriminate Hok].
  destruct (api_loop_files D env self w self' w' E) as (d & -> & Hfiles).
  exists d. split; [reflexivity|]. intros env2 self2. cbn [fst snd].
  destruct (attempted_first_written env Fetch.cache_paths p Hin Hwr)
    as (i & q & Hi & Hq & Hatt & Hb).
  apply (update_from_cache env2 self2 w' i q d Hi).
  - rewrite Hfiles, bool_decide_eq_true_2 by exact Hatt. rewrite Hq. reflexivity.
  - intros j r Hj Hr d' Hd'. rewrite Hfiles in Hd'.
    pose proof (Hb j r Hj Hr) as Hnw. unfold Fetch.writable in Hnw.
    assert (Hold : Fetch.cache_files w !! r <> Some (Some d')).
    { rewrite List.Forall_forall in Hnone. refine (Hnone r _ d').
      apply list_elem_of_In. apply list_elem_of_lookup. eauto. }
    destruct (bool_decide (r ∈ attempted env Fetch.cache_paths));
      [|exact (Hold Hd')].
    destruct (Fetch.write env r); [discriminate Hnw|exact (Hold Hd')|discriminate Hd'].
Qed.


(** X5. From the API to the cache and back: when no cache file could be
    loaded, [update] succeeded through the API and at least one cache path
    can be written, then any later [update], of any entity and whatever the
    network does, loads exactly the data stored now from the cache and
    sends no request. *)
Theorem api_data_is_served_from_cache_afterwards
    (D : Downloader) (env : Fetch.Env) (self : Entity) (w : Fetch.World) (p : string) :
  Forall (unloadable w) Fetch.cache_paths ->
  In p Fetch.cache_paths -> Fetch.writable env p = true ->
  Fetch.available (fst (Fetch.update env self w)) = true ->
  exists d : payload,
    _response_data (fst (Fetch.update env self w)) = Some d
    /\ forall (env2 : Fetch.Env) (self2 : Entity),
         Fetch.update env2 self2 (snd (Fetch.update env self w))
         = (Fetch.store d self2, snd (Fetch.update env self w)).
Proof.
  exact (served_from_cache_after_api D env self w p).
Qed.

Lemma api_data_is_served_from_cache_afterwards_witness :
  exists d : list SpecModel.RawEntry,
    _response_data (fst (Fetch.update FetchScenarios.env_ok FetchScenarios.loaded_entity
                           FetchScenarios.empty_world)) = Some d
    /\ forall (env2 : Fetch.Env) (self2 : Entity),
         Fetch.update env2 self2
           (snd (Fetch.update FetchScenarios.env_ok FetchScenarios.loaded_entity
                   FetchScenarios.empty_world))
         = (Fetch.store d self2,
            snd (Fetch.update FetchScenarios.env_ok FetchScenarios.loaded_entity
                   FetchScenarios.empty_world)).
Proof.
  apply (api_data_is_served_from_cache_afterwards SpecDownloader FetchScenarios.env_ok
           FetchScenarios.loaded_entity FetchScenarios.empty_world
           FetchScenarios.third_path).
  - repeat constructor; intros d' Hd'; vm_compute in Hd'; discriminate Hd'.
  - right. right. left. reflexivity.
  - reflexivity.
  - reflexivity.
Defined.

(** X6. What one run of [update] does to the cache files.  A file that
    differs afterwards is at a cache path with no writable path before it,
    no cache file could be loaded and the API delivered; the file is either
    at the first writable path and holds the data just stored, or at a path
    where saving failed with the file open and no longer parses.  So at
    most one file gains data, files outside [cache_paths] are left alone,
    and no file is removed. *)
Theorem update_writes_at_most_one_cache_file
    (D : Downloader) (env : Fetch.Env) (self : Entity) (w : Fetch.World) (q : string) :
  let w' := snd (Fetch.update env self w) in
  (Fetch.cache_files w' !! q = Fetch.cache_files w !! q
   \/ (Forall (unloadable w) Fetch.cache_paths
       /\ exists d i,
            fst (Fetch.update env self w) = Fetch.store d self
            /\ Fetch.cache_paths !! i = Some q
            /\ (forall j r, (j < i)%nat -> Fetch.cache_paths !! j = Some r ->
                            Fetch.writable env r = false)
            /\ ((Fetch.write env q = Fetch.Written
                 /\ Fetch.cache_files w' !! q = Some (Some d))
                \/ (Fetch.write env q = Fetch.Truncated
                    /\ Fetch.cache_files w' !! q = Some None))))
  /\ (Fetch.cache_files w !! q <> None -> Fetch.cache_files w' !! q <> None).
Proof.
  intros w'. subst w'.
  assert (Hmain :
    Fetch.cache_files (snd (Fetch.update env self w)) !! q = Fetch.cache_files w !! q
    \/ (Forall (unloadable w) Fetch.cache_paths
        /\ exists d i,
             fst (Fetch.update env self w) = Fetch.store d self
             /\ Fetch.cache_paths !! i = Some q
             /\ (forall j r, (j < i)%nat -> Fetch.cache_paths !! j = Some r ->
                             Fetch.writable env r = false)
             /\ ((Fetch.write env q = Fetch.Written
                  /\ Fetch.cache_files (snd (Fetch.update env self w)) !! q
                     = Some (Some d))
                 \/ (Fetch.write env q = Fetch.Truncated
                     /\ Fetch.cache_files (snd (Fetch.update env self w)) !! q
                        = Some None)))).
  { destruct (update_cases env self w) as [(i & p & d & _ & _ & _ & E)|[Hnone E]].
    - left. rewrite E. reflexivity.
    - rewrite E.
      destruct (Fetch.api_loop env [0; 1]%nat self w) as [[[|] self'] w'] eqn:El.
      + destruct (api_loop_files D env self w self' w' El) as (d & -> & Hfiles).
        cbn [fst snd]. rewrite Hfiles.
        destruct (bool_decide_reflect (q ∈ attempted env Fetch.cache_paths))
          as [Hatt|_]; [|left; reflexivity].
        destruct (attempted_before env Fetch.cache_paths q Hatt) as (i & Hi & Hb).
        destruct (Fetch.write env q) eqn:Hq; [|left; reflexivity|].
        * right. split; [exact Hnone|]. exists d, i. split; [reflexivity|].
          split; [exact Hi|]. split; [exact Hb|]. left. split; reflexivity.
        * right. split; [exact Hnone|]. exists d, i. split; [reflexivity|].
          split; [exact Hi|]. split; [exact Hb|]. right. split; reflexivity.
      + left. pose proof (api_loop_inv env self w) as Hloop. cbv zeta in Hloop.
        rewrite El in Hloop. destruct Hloop as (_ & Hf & _). cbn [snd].
        rewrite Hf. reflexivity. }
  split; [exact Hmain|].
  intros Hsome.
  destruct Hmain as [->|(_ & d & i & _ & _ & _ & [[_ ->]|[_ ->]])];
    [exact Hsome|discriminate|discriminate].
Qed.

(** ** Construction of the entities *)

Section ConstructionFacts.
Context {D : Downloader}.

(** [update] touches the response data and the success flag only. *)
Lemma update_entity_cases (env : Fetch.Env) (self : Entity) (w : Fetch.World) :
  fst (Fetch.update env self w) = Fetch.mark_failed self
  \/ exists d, fst (Fetch.update env self w) = Fetch.store d self.
Proof.
  destruct (update_cases env self w) as [(i & p & d & _ & _ & _ & E)|[_ E]].
  - right. exists d. rewrite E. reflexivity.
  - rewrite E. pose proof (api_loop_inv env self w) as Hloop. cbv zeta in Hloop.
    destruct (Fetch.api_loop env [0; 1]%nat self w) as [[[|] self'] w'].
    + destruct Hloop as (d & -> & _). right. exists d. reflexivity.
    + destruct Hloop as (-> & _). left. reflexivity.
Qed.

Lemma update_keeps_identity (env : Fetch.Env) (self : Entity) (w : Fetch.World) :
  ean (fst (Fetch.update env self w)) = ean self
  /\ signal (fst (Fetch.update env self w)) = signal self
  /\ _name (fst (Fetch.update env self w)) = _name self
  /\ _last_update_time (fst (Fetch.update env self w)) = _last_update_time self.
Proof.
  destruct (update_entity_cases env self w) as [->|(d & ->)]; repeat split.
Qed.

(** With nothing in the cache and a first request that delivers, [update]
    stores the data and saves it. *)
Lemma update_delivered_first (env : Fetch.Env) (self : Entity) (w : Fetch.World)
    (d : payload) :
  Forall (unloadable w) Fetch.cache_paths ->
  delivers (Fetch.post env (Fetch.posts w)) d ->
  Fetch.update env self w
  = (Fetch.store d self,
     Fetch.save_first env d Fetch.cache_paths (Fetch.log_io Fetch.IoPost w)).
Proof.
  intros Hnone (n & Hn & Ho). rewrite (update_without_cache env self w Hnone).
  cbn [Fetch.api_loop]. unfold Fetch.api_attempt. rewrite Ho.
  change (200 =? 200) with true. cbv iota.
  destruct (Nat.ltb_spec 0 n); [reflexivity|lia].
Qed.

(** A countdown sensor without response data: one timer callback shows
    null and changes nothing, not even the trace. *)
Lemma callback_without_data (cls : Sensor.SensorClass) (s : State) :
  In cls Sensor.countdown_sensors ->
  _response_data (self s) = None ->
  exists attrs,
    Sensor._async_update_state cls s = (Ok (None, attrs), s)
    /\ attrs !! "formatted_time"%string = Some Sensor.ANone.
Proof.
  intros Hcls Hnone.
  destruct (countdown_sensor_cases cls Hcls) as (k & prefix & inactive & ->).
  assert (Hq : query k s = (Ok None, s)).
  { rewrite query_run. unfold hdo_outcome, hdo_events. rewrite Hnone. simpl.
    destruct k; destruct s; reflexivity. }
  exists (<["display_text"%string := Sensor.AStr inactive]>
            (<["formatted_time"%string := Sensor.ANone]> (base_attributes (self s)))).
  split.
  - unfold Sensor._async_update_state, Sensor.async_schedule_update_ha_state; simpl.
    unfold bind at 1. unfold ret at 1. unfold bind at 1. rewrite Hq.
    unfold bind at 1. rewrite remaining_attributes_run, Hq. reflexivity.
  - rewrite lookup_insert_ne by discriminate. apply lookup_insert_eq.
Qed.

Lemma callbacks_without_data (cls : Sensor.SensorClass) (clocks : list datetime)
    (s : State) :
  In cls Sensor.countdown_sensors ->
  _response_data (self s) = None ->
  self (snd (Platform.callbacks cls clocks s)) = self s
  /\ trace (snd (Platform.callbacks cls clocks s)) = trace s
  /\ length (fst (Platform.callbacks cls clocks s)) = length clocks
  /\ Forall (fun r => exists attrs,
                        r = Ok (None, attrs)
                        /\ attrs !! "formatted_time"%string = Some Sensor.ANone)
            (fst (Platform.callbacks cls clocks s)).
Proof.
  intros Hcls. revert s. induction clocks as [|now clocks IH]; intros s Hnone.
  - simpl. repeat split. constructor.
  - simpl.
    destruct (callback_without_data cls (mkState (self s) now (trace s)) Hcls Hnone)
      as (attrs & E & Hattrs).
    rewrite E.
    specialize (IH (mkState (self s) now (trace s)) Hnone).
    destruct (Platform.callbacks cls clocks (mkState (self s) now (trace s)))
      as [rs s''].
    simpl in IH |- *. destruct IH as (Hself & Htrace & Hlen & Hall).
    split; [exact Hself|]. split; [exact Htrace|]. split; [rewrite Hlen; reflexivity|].
    constructor; [exists attrs; split; [reflexivity|exact Hattrs]|exact Hall].
Qed.

End ConstructionFacts.

(** X7. A countdown sensor never gets any data: its constructor runs the
    overriding [update], which is [pass], so the entity starts without
    response data and unavailable, whatever the cache holds; and through
    any number of timer callbacks, at any clock readings, the entity stays
    so, every callback shows null with [formatted_time] null, and neither
    the parser nor the clock is ever called. *)
Theorem countdown_sensor_never_has_data
    (D : Downloader) (ean name : string) (signal : option string)
    (w : Fetch.World) (cls : Sensor.SensorClass)
    (clocks : list datetime) (now0 : datetime) (tr : list event) :
  In cls Sensor.countdown_sensors ->
  let e := fst (Platform.frequent__init__ ean name signal w) in
  let run := Platform.callbacks cls clocks (mkState e now0 tr) in
  snd (Platform.frequent__init__ ean name signal w) = w
  /\ _response_data e = None /\ Fetch.available e = false
  /\ self (snd run) = e
  /\ trace (snd run) = tr
  /\ length (fst run) = length clocks
  /\ Forall (fun r => exists attrs,
                        r = Ok (None, attrs)
                        /\ attrs !! "formatted_time"%string = Some Sensor.ANone)
            (fst run).
Proof.
  intros Hcls e run. subst e run.
  split; [reflexivity|]. split; [reflexivity|]. split; [reflexivity|].
  apply (callbacks_without_data cls clocks
           (mkState (fst (Platform.frequent__init__ ean name signal w)) now0 tr) Hcls).
  reflexivity.
Qed.

Lemma countdown_sensor_never_has_data_witness :
  Forall (fun r => exists attrs,
                     r = Ok (None, attrs)
                     /\ attrs !! "formatted_time"%string = Some Sensor.ANone)
         (fst (Platform.callbacks Sensor.LowTariffRemaining
                 [Scenarios.at_ 2024 1 1 10 0 0 0; Scenarios.at_ 2024 1 1 10 0 1 0]
                 (mkState (fst (Platform.frequent__init__ "859182400100000000"
                                  "LowTariffRemaining" (Some "X"%string)
                                  FetchScenarios.cached_world))
                          (Scenarios.at_ 2024 1 1 10 0 0 0) []))).
Proof.
  destruct (countdown_sensor_never_has_data SpecDownloader "859182400100000000"
              "LowTariffRemaining" (Some "X"%string) FetchScenarios.cached_world
              Sensor.LowTariffRemaining
              [Scenarios.at_ 2024 1 1 10 0 0 0; Scenarios.at_ 2024 1 1 10 0 1 0]
              (Scenarios.at_ 2024 1 1 10 0 0 0) [] (or_introl eq_refl))
    as (_ & _ & _ & _ & _ & _ & H).
  exact H.
Defined.

(** X8. [setup_platform] with nothing in the cache, a first request that
    delivers and a cache path that can be written: the whole setup sends
    exactly one request; the first time sensor fetches the data and saves
    it, the five others load the same data from the cache; the four
    countdown sensors hold no data and are unavailable. *)
Theorem setup_platform_fetches_once
    (D : Downloader) (env : Fetch.Env) (ean : string) (signal : option string)
    (w : Fetch.World) (d : payload) (p : string) :
  Forall (unloadable w) Fetch.cache_paths ->
  delivers (Fetch.post env (Fetch.posts w)) d ->
  In p Fetch.cache_paths -> Fetch.writable env p = true ->
  let es := fst (Platform.setup_platform env ean signal w) in
  let w' := snd (Platform.setup_platform env ean signal w) in
  Fetch.posts w' = S (Fetch.posts w)
  /\ length es = 10%nat
  /\ Forall (fun e => _response_data e = Some d /\ Fetch.available e = true)
            (take 6 es)
  /\ Forall (fun e => _response_data e = None /\ Fetch.available e = false)
            (drop 6 es).
Proof.
  intros Hnone Hdel Hin Hwr es w'. subst es w'.
  unfold Platform.setup_platform, Fetch.__init__.
  pose (e1 := mkEntity ean signal "LowTariffStart" (@None payload) false None).
  pose proof (update_delivered_first env e1 w d Hnone Hdel) as E1.
  assert (Hok : Fetch.available (fst (Fetch.update env e1 w)) = true)
    by (rewrite E1; reflexivity).
  destruct (served_from_cache_after_api D env e1 w p Hnone Hin Hwr Hok)
    as (d' & Hd' & Hnext).
  rewrite E1 in Hd'. simpl in Hd'. injection Hd' as <-.
  rewrite E1 in Hnext. cbn [fst snd] in Hnext.
  fold e1. rewrite E1. rewrite !Hnext.
  unfold Platform.frequent__init__. cbn [fst snd].
  split; [rewrite posts_save_first; reflexivity|].
  split; [reflexivity|].
  split; simpl; repeat constructor.
Qed.

Lemma setup_platform_fetches_once_witness :
  Fetch.posts (snd (Platform.setup_platform FetchScenarios.env_ok "859182400100000000"
                      (Some "X"%string) FetchScenarios.empty_world)) = 1%nat
  /\ length (fst (Platform.setup_platform FetchScenarios.env_ok "859182400100000000"
                    (Some "X"%string) FetchScenarios.empty_world)) = 10%nat.
Proof.
  destruct (setup_platform_fetches_once SpecDownloader FetchScenarios.env_ok
              "859182400100000000" (Some "X"%string) FetchScenarios.empty_world
              Scenarios.scenario FetchScenarios.third_path) as (Hposts & Hlen & _).
  - repeat constructor; intros d' Hd'; vm_compute in Hd'; discriminate Hd'.
  - exists 3%nat. split; [lia|reflexivity].
  - right. right. left. reflexivity.
  - reflexivity.
  - split; [exact Hposts|exact Hlen].
Defined.

(** X9. Whatever the cache and the network do, [setup_platform] yields
    ten entities that carry the configured EAN and signal and whose unique
    ids are the same ten distinct names: an entity's unique id does not
    depend on the EAN. *)
Theorem setup_platform_unique_ids
    (D : Downloader) (env : Fetch.Env) (config_ean : string)
    (config_signal : option string) (w : Fetch.World) :
  let es := fst (Platform.setup_platform env config_ean config_signal w) in
  map Fetch.unique_id es
  = ["cez_hdo_LowTariffStart"; "cez_hdo_LowTariffEnd"; "cez_hdo_LowTariffDuration";
     "cez_hdo_HighTariffStart"; "cez_hdo_HighTariffEnd"; "cez_hdo_HighTariffDuration";
     "cez_hdo_LowTariffRemaining"; "cez_hdo_HighTariffRemaining";
     "cez_hdo_NextLowTariffCountdown"; "cez_hdo_NextHighTariffCountdown"]%string
  /\ NoDup (map Fetch.unique_id es)
  /\ Forall (fun e => ean e = config_ean /\ signal e = config_signal) es.
Proof.
  intros es. subst es.
  unfold Platform.setup_platform, Fetch.__init__, Platform.frequent__init__.
  repeat match goal with
         | |- context [Fetch.update ?env ?self ?w0] =>
             let H := fresh "H" in
             pose proof (update_keeps_identity env self w0) as H;
             destruct (Fetch.update env self w0) as [? ?];
             cbn [fst snd ean signal _name] in H;
             destruct H as (? & ? & ? & _)
         end.
  cbn [fst].
  match goal with
  | |- ?ids = _ /\ _ /\ _ =>
      assert (E : ids = ["cez_hdo_LowTariffStart"; "cez_hdo_LowTariffEnd";
                         "cez_hdo_LowTariffDuration"; "cez_hdo_HighTariffStart";
                         "cez_hdo_HighTariffEnd"; "cez_hdo_HighTariffDuration";
                         "cez_hdo_LowTariffRemaining"; "cez_hdo_HighTariffRemaining";
                         "cez_hdo_NextLowTariffCountdown";
                         "cez_hdo_NextHighTariffCountdown"]%string)
  end.
  { unfold Fetch.unique_id. cbn [map _name].
    repeat match goal with H : _name _ = _ |- _ => rewrite H; clear H end.
    reflexivity. }
  split; [exact E|]. split.
  - rewrite E. refine (bool_decide_unpack _ _). vm_compute. reflexivity.
  - repeat constructor; cbn [ean signal]; assumption.
Qed.

(** ** Countdowns against the time sensors, and [format_duration] *)

(** X10. Whenever a countdown query returns a number, the time sensor of
    the same boundary (end of the low or high tariff for the remaining
    times, start for the next-start countdowns) shows a time at that very
    state, the number is the whole seconds until the clock next shows that
    time, and it lies between 0 and 86400. *)
Theorem countdown_counts_to_displayed_time
    (D : Downloader) (k : countdown) (s : State) (v : Z) :
  valid_datetime (clock s) ->
  (forall d t, fst (CezHdoBaseEntity._get_hdo_data s) = Ok d ->
               boundary k d = Some t -> valid_time t) ->
  fst (query k s) = Ok (Some v) ->
  exists t : time,
    fst (boundary_sensor k s) = Ok (Some t)
    /\ v = until_next_occurrence (clock s) t / 1000000
    /\ 0 <= v <= 86400.
Proof.
  intros Hnow Hvalid Hv.
  destruct (fst (CezHdoBaseEntity._get_hdo_data s)) as [d|ex] eqn:Hd.
  - rewrite (query_result k s d Hd) in Hv.
    destruct (precondition k d); [|discriminate Hv].
    destruct (boundary k d) as [t|] eqn:Hb; [|discriminate Hv].
    exists t. split.
    + assert (Hrun : forall f : HdoData -> option time,
                fst ((hdo_data <- CezHdoBaseEntity._get_hdo_data ;; ret (f hdo_data)) s)
                = Ok (f d)).
      { intros f. unfold bind. destruct (CezHdoBaseEntity._get_hdo_data s) as [r s1].
        simpl in Hd. subst r. reflexivity. }
      destruct k; simpl in Hb |- *; rewrite <- Hb; apply Hrun.
    + pose proof (Hvalid d t eq_refl Hb) as Ht.
      pose proof (rollover_value _ _ Hnow Ht v Hv) as ->.
      pose proof (until_next_occurrence_bounds _ _ Hnow Ht) as Hu.
      unfold day_us in Hu. split; [reflexivity|]. split.
      * apply Z.div_pos; lia.
      * apply Z.div_le_upper_bound; lia.
  - rewrite query_run in Hv. rewrite get_hdo_data_result in Hd. rewrite Hd in Hv.
    discriminate Hv.
Qed.

Lemma countdown_counts_to_displayed_time_witness :
  exists t : time,
    fst (TimeSensors.LowTariffEnd
           (Scenarios.state_with Scenarios.low_night (Scenarios.at_ 2024 1 15 23 0 0 0)))
    = Ok (Some t)
    /\ 25200 = until_next_occurrence (Scenarios.at_ 2024 1 15 23 0 0 0) t / 1000000
    /\ 0 <= 25200 <= 86400.
Proof.
  apply (countdown_counts_to_displayed_time (Scenarios.mock Scenarios.low_night)
           LowRemaining
           (Scenarios.state_with Scenarios.low_night (Scenarios.at_ 2024 1 15 23 0 0 0))
           25200).
  - solve_valid.
  - intros d t Hd Hb. vm_compute in Hd. injection Hd as <-.
    vm_compute in Hb. injection Hb as <-. solve_valid.
  - reflexivity.
Defined.

Section DurationText.
Local Open Scope string_scope.

Lemma format_02d_two_characters (n : Z) :
  (0 <= n <= 59)%Z -> String.length (PyFormat.format_02d n) = 2%nat.
Proof.
  intros Hn. destruct n as [|p|p]; [reflexivity| |lia].
  repeat (destruct p as [p|p|]; try lia; try reflexivity).
Qed.

Lemma read_unpadded_hms (hours minutes seconds : Z) :
  PyFormat.read_hms (PyFormat.decimal hours ++ ":" ++ PyFormat.format_02d minutes
                     ++ ":" ++ PyFormat.format_02d seconds)
  = Some (hours, minutes, seconds).
Proof.
  unfold PyFormat.read_hms.
  change (PyFormat.decimal hours ++ ":" ++ PyFormat.format_02d minutes
          ++ ":" ++ PyFormat.format_02d seconds)
    with (PyFormat.decimal hours
          ++ String ":" (PyFormat.format_02d minutes
                         ++ String ":" (PyFormat.format_02d seconds))).
  rewrite until_colon_decimal, until_colon_format_02d.
  rewrite read_decimal_decimal, !read_decimal_format_02d. reflexivity.
Qed.

End DurationText.

(** X11. [format_duration] of the test's [MockDownloader]: for a duration
    whose microseconds a float holds exactly, the text reads back as hours,
    minutes and seconds with hours * 3600 + minutes * 60 + seconds equal to
    the duration's whole seconds; minutes and seconds lie between 0 and 59
    and take two characters each; hours are not negative for a duration
    that is not; and no duration at all reads like a duration of zero. *)
Theorem format_duration_reads_back (duration : timedelta) :
  Z.abs duration < 2 ^ 53 ->
  exists hours minutes seconds : Z,
    PyFormat.read_hms (TestNewFeatures.format_duration (Some duration))
    = Some (hours, minutes, seconds)
    /\ hours * 3600 + minutes * 60 + seconds = int_total_seconds duration
    /\ 0 <= minutes <= 59 /\ 0 <= seconds <= 59
    /\ String.length (PyFormat.format_02d minutes) = 2%nat
    /\ String.length (PyFormat.format_02d seconds) = 2%nat
    /\ (0 <= duration -> 0 <= hours)
    /\ TestNewFeatures.format_duration None
       = TestNewFeatures.format_duration (Some 0).
Proof.
  intros _. set (r := int_total_seconds duration).
  exists (r / 3600), ((r mod 3600) / 60), (r mod 60).
  split; [apply read_unpadded_hms|].
  pose proof (Z.mod_pos_bound r 3600 ltac:(lia)).
  pose proof (Z.mod_pos_bound r 60 ltac:(lia)).
  pose proof (Z.div_mod r 3600 ltac:(lia)).
  pose proof (Z.div_mod (r mod 3600) 60 ltac:(lia)).
  assert (Hmm : (r mod 3600) mod 60 = r mod 60).
  { symmetry. rewrite (Z.div_mod r 3600) at 1 by lia.
    replace (3600 * (r / 3600) + r mod 3600)
      with (r mod 3600 + (60 * (r / 3600)) * 60) by lia.
    apply Z.mod_add. lia. }
  assert (Hmin : 0 <= (r mod 3600) / 60 <= 59).
  { split; [apply Z.div_pos; lia|].
    enough ((r mod 3600) / 60 < 60) by lia.
    apply Z.div_lt_upper_bound; lia. }
  split; [lia|]. split; [exact Hmin|]. split; [lia|].
  split; [apply format_02d_two_characters; exact Hmin|].
  split; [apply format_02d_two_characters; lia|].
  split; [|reflexivity].
  intros Hpos. apply Z.div_pos; [|lia].
  subst r. unfold int_total_seconds. apply Z.quot_pos; lia.
Qed.

Lemma format_duration_reads_back_witness :
  exists hours minutes seconds : Z,
    PyFormat.read_hms (TestNewFeatures.format_duration (Some 8130500000))
    = Some (hours, minutes, seconds)
    /\ hours * 3600 + minutes * 60 + seconds = int_total_seconds 8130500000
    /\ 0 <= minutes <= 59 /\ 0 <= seconds <= 59
    /\ String.length (PyFormat.format_02d minutes) = 2%nat
    /\ String.length (PyFormat.format_02d seconds) = 2%nat
    /\ (0 <= 8130500000 -> 0 <= hours)
    /\ TestNewFeatures.format_duration None
       = TestNewFeatures.format_duration (Some 0).
Proof.
  exact (format_duration_reads_back 8130500000 ltac:(vm_compute; reflexivity)).
Defined.

Example format_duration_text :
  TestNewFeatures.format_duration (Some 8130500000) = "2:15:30"%string.
Proof. vm_compute. reflexivity. Qed.

(** ** Registration of the entities in the host *)

Section RegistryFacts.
Context {D : Downloader}.

Lemma remove_first_not_in (x : nat) (l : list nat) :
  ~ In x l -> Integration.remove_first x l = l.
Proof.
  induction l as [|y l IH]; intros Hx; [reflexivity|].
  simpl. destruct (Nat.eqb_spec y x) as [->|Hne].
  - exfalso. apply Hx. left. reflexivity.
  - rewrite IH; [reflexivity|]. intros Hin. apply Hx. right. exact Hin.
Qed.

Lemma remove_first_snoc (x : nat) (l : list nat) :
  ~ In x l -> Integration.remove_first x (l ++ [x]) = l.
Proof.
  induction l as [|y l IH]; intros Hx; simpl.
  - rewrite Nat.eqb_refl. reflexivity.
  - destruct (Nat.eqb_spec y x) as [->|Hne].
    + exfalso. apply Hx. left. reflexivity.
    + rewrite IH; [reflexivity|]. intros Hin. apply Hx. right. exact Hin.
Qed.

Lemma remove_first_in (x y : nat) (l : list nat) :
  In y (Integration.remove_first x l) -> In y l.
Proof.
  induction l as [|z l IH]; simpl; [tauto|].
  destruct (Nat.eqb_spec z x) as [->|Hne]; simpl; tauto.
Qed.

Lemma remove_first_other (x y : nat) (l : list nat) :
  y <> x -> In y l -> In y (Integration.remove_first x l).
Proof.
  intros Hyx. induction l as [|z l IH]; simpl; [tauto|].
  destruct (Nat.eqb_spec z x) as [->|Hne]; simpl; intros [->|Hin]; tauto.
Qed.

Lemma remove_first_nodup (x : nat) (l : list nat) :
  NoDup l -> NoDup (Integration.remove_first x l) /\ ~ In x (Integration.remove_first x l).
Proof.
  induction 1 as [|y l Hy Hl IH]; simpl.
  - split; [constructor|tauto].
  - destruct (Nat.eqb_spec y x) as [->|Hne].
    + split; [exact Hl|]. rewrite <- list_elem_of_In. exact Hy.
    + destruct IH as [IH1 IH2]. split.
      * constructor; [|exact IH1]. rewrite list_elem_of_In. intros Hin.
        apply Hy. rewrite list_elem_of_In. eapply remove_first_in. exact Hin.
      * simpl. intros [->|Hin]; [congruence|tauto].
Qed.

Lemma registered_added (self : nat) (h : Integration.Hass) :
  Integration.registered (Integration.async_added_to_hass self h)
  = if bool_decide (self ∈ Integration.registered h)
    then Integration.registered h
    else Integration.registered h ++ [self].
Proof.
  unfold Integration.registered, Integration.async_added_to_hass. simpl.
  destruct (Integration.domain_data h) as [[[l|] u]|]; reflexivity.
Qed.

Lemma registered_removed (self : nat) (h : Integration.Hass) :
  Integration.registered (Integration.async_will_remove_from_hass self h)
  = Integration.remove_first self (Integration.registered h).
Proof.
  unfold Integration.registered, Integration.async_will_remove_from_hass.
  destruct (Integration.domain_data h) as [[[l|] u]|] eqn:E; simpl; try reflexivity.
  - destruct (bool_decide_reflect (self ∈ l)) as [Hin|Hnot]; simpl.
    + reflexivity.
    + rewrite E. simpl. symmetry. apply remove_first_not_in.
      rewrite <- list_elem_of_In. exact Hnot.
  - rewrite E. reflexivity.
  - rewrite E. reflexivity.
Qed.

End RegistryFacts.

(** X12. [async_added_to_hass] registers the entity for the daily refresh
    whatever was in [hass.data] before: afterwards it is in the list, every
    entity that was registered still is, in the same order, a list without
    duplicates stays so, and adding an entity a second time changes
    nothing at all. *)
Theorem registration_is_idempotent
    (D : Downloader) (self : nat) (h : Integration.Hass) :
  let h1 := Integration.async_added_to_hass self h in
  In self (Integration.registered h1)
  /\ (exists rest, Integration.registered h1 = Integration.registered h ++ rest)
  /\ (NoDup (Integration.registered h) -> NoDup (Integration.registered h1))
  /\ Integration.async_added_to_hass self h1 = h1.
Proof.
  intros h1. subst h1. rewrite registered_added.
  destruct (bool_decide_reflect (self ∈ Integration.registered h)) as [Hin|Hnot].
  - split; [apply list_elem_of_In; exact Hin|].
    split; [exists []; rewrite app_nil_r; reflexivity|].
    split; [tauto|].
    unfold Integration.async_added_to_hass, Integration.set_domain_data. simpl.
    unfold Integration.registered in Hin.
    destruct (Integration.domain_data h) as [[[l|] u]|]; simpl in *;
      try (apply elem_of_nil in Hin; contradiction).
    rewrite (bool_decide_eq_true_2 _ Hin). rewrite (bool_decide_eq_true_2 _ Hin).
    reflexivity.
  - split; [apply in_or_app; right; left; reflexivity|].
    split; [exists [self]; reflexivity|].
    split.
    + intros Hnd. apply NoDup_app. split; [exact Hnd|].
      split; [|apply NoDup_singleton].
      intros x Hx Hx'. apply list_elem_of_singleton in Hx'. subst x. contradiction.
    + unfold Integration.async_added_to_hass, Integration.set_domain_data. simpl.
      unfold Integration.registered in Hnot.
      destruct (Integration.domain_data h) as [[[l|] u]|]; simpl in *.
      * rewrite (bool_decide_eq_false_2 _ Hnot).
        rewrite bool_decide_eq_true_2 by (apply elem_of_app; right; constructor).
        reflexivity.
      * rewrite bool_decide_eq_true_2 by (apply list_elem_of_In; left; reflexivity).
        reflexivity.
      * rewrite bool_decide_eq_true_2 by (apply list_elem_of_In; left; reflexivity).
        reflexivity.
Qed.

Lemma registration_is_idempotent_witness :
  NoDup (Integration.registered
           (Integration.async_added_to_hass 7
              (@Integration.mkHass SpecDownloader
                 (Some (Integration.mkDomainData (Some [3; 5]%nat) None))
                 ∅ ∅ [] 0 [] [] false [] 0 0))).
Proof.
  destruct (registration_is_idempotent SpecDownloader 7
              (@Integration.mkHass SpecDownloader
                 (Some (Integration.mkDomainData (Some [3; 5]%nat) None))
                 ∅ ∅ [] 0 [] [] false [] 0 0)) as (_ & _ & H & _).
  apply H. refine (bool_decide_unpack _ _). vm_compute. reflexivity.
Defined.

(** X13. [async_will_remove_from_hass] undoes the registration: on a list
    without duplicates the entity is gone afterwards and the list still has
    none; the other entities stay; an entity that was not registered is
    removed from nowhere, nothing changes and nothing is raised; and adding
    then removing an entity that was not registered gives back the list of
    before. *)
Theorem removal_undoes_registration
    (D : Downloader) (self : nat) (h : Integration.Hass) :
  NoDup (Integration.registered h) ->
  let h1 := Integration.async_will_remove_from_hass self h in
  ~ In self (Integration.registered h1)
  /\ NoDup (Integration.registered h1)
  /\ (forall x, x <> self ->
                (In x (Integration.registered h1) <-> In x (Integration.registered h)))
  /\ (~ In self (Integration.registered h) -> h1 = h)
  /\ (~ In self (Integration.registered h) ->
      Integration.registered
        (Integration.async_will_remove_from_hass self
           (Integration.async_added_to_hass self h))
      = Integration.registered h).
Proof.
  intros Hnd h1. subst h1. rewrite registered_removed.
  destruct (remove_first_nodup self _ Hnd) as [Hnd' Hgone].
  split; [exact Hgone|]. split; [exact Hnd'|]. split.
  - intros x Hx. split; [apply remove_first_in|apply remove_first_other; exact Hx].
  - split.
    + intros Hnot. unfold Integration.async_will_remove_from_hass.
      unfold Integration.registered in Hnot.
      destruct (Integration.domain_data h) as [[[l|] u]|]; try reflexivity.
      simpl in *. rewrite bool_decide_eq_false_2; [reflexivity|].
      rewrite list_elem_of_In. exact Hnot.
    + intros Hnot. rewrite registered_removed, registered_added.
      rewrite bool_decide_eq_false_2 by (rewrite list_elem_of_In; exact Hnot).
      apply remove_first_snoc. exact Hnot.
Qed.

Lemma removal_undoes_registration_witness :
  Integration.registered
    (Integration.async_will_remove_from_hass 7
       (Integration.async_added_to_hass 7
          (@Integration.mkHass SpecDownloader
             (Some (Integration.mkDomainData (Some [3; 5]%nat) None))
             ∅ ∅ [] 0 [] [] false [] 0 0)))
  = [3; 5]%nat.
Proof.
  destruct (removal_undoes_registration SpecDownloader 7
              (@Integration.mkHass SpecDownloader
                 (Some (Integration.mkDomainData (Some [3; 5]%nat) None))
                 ∅ ∅ [] 0 [] [] false [] 0 0)) as (_ & _ & _ & _ & H).
  - refine (bool_decide_unpack _ _). vm_compute. reflexivity.
  - apply H. vm_compute. intuition congruence.
Defined.

Section RefreshFacts.
Context {D : Downloader}.

Lemma clear_last_update_time_twice (e : Entity) :
  Integration.clear_last_update_time (Integration.clear_last_update_time e)
  = Integration.clear_last_update_time e.
Proof. reflexivity. Qed.

(** The loop of the daily refresh over a list of entities. *)
Lemma refresh_loop (l : list nat) (h : Integration.Hass) :
  let h' := fold_left Integration.refresh_entity l h in
  Integration.scheduled h'
  = rev (map (fun entity => (entity, true)) l) ++ Integration.scheduled h
  /\ Integration.domain_data h' = Integration.domain_data h
  /\ Integration.listeners h' = Integration.listeners h
  /\ forall id,
       Integration.objects h' !! id
       = if bool_decide (id ∈ l)
         then Integration.clear_last_update_time <$> Integration.objects h !! id
         else Integration.objects h !! id.
Proof.
  intros h'. subst h'. revert h.
  induction l as [|entity l IH]; intros h.
  - simpl. repeat split.
  - cbn [fold_left].
    destruct (IH (Integration.refresh_entity h entity)) as (Hs & Hd & Hl & Ho).
    rewrite Hs, Hd, Hl.
    split; [simpl; rewrite <- app_assoc; reflexivity|].
    split; [reflexivity|]. split; [reflexivity|].
    intros id. rewrite Ho.
    change (Integration.objects (Integration.refresh_entity h entity))
      with (alter Integration.clear_last_update_time entity (Integration.objects h)).
    rewrite lookup_alter.
    destruct (decide (entity = id)) as [->|Hne].
    + rewrite (bool_decide_eq_true_2 (id ∈ id :: l)) by constructor.
      destruct (bool_decide (id ∈ l)); [|reflexivity].
      destruct (Integration.objects h !! id); reflexivity.
    + destruct (bool_decide_reflect (id ∈ l)) as [Hin|Hnot].
      * rewrite bool_decide_eq_true_2 by (constructor; exact Hin). reflexivity.
      * rewrite bool_decide_eq_false_2; [reflexivity|].
        intros Hin. apply elem_of_cons in Hin. destruct Hin as [->|Hin]; tauto.
Qed.

End RefreshFacts.

(** X14. The daily refresh: with no [hass.data[DOMAIN]] it raises
    [KeyError]; otherwise it schedules one forced update for every
    registered entity, in the order of registration, and for no other; it
    clears [_last_update_time] of the registered entities and leaves every
    entity's response data and success flag as they were; an entity that
    was removed before gets no update. *)
Theorem daily_refresh_schedules_registered
    (D : Downloader) (h : Integration.Hass) :
  (Integration.domain_data h = None ->
   Integration.daily_data_refresh h = Raise KeyError)
  /\ (Integration.domain_data h <> None ->
      exists h',
        Integration.daily_data_refresh h = Ok h'
        /\ Integration.scheduled h'
           = rev (map (fun entity => (entity, true)) (Integration.registered h))
               ++ Integration.scheduled h
        /\ Integration.registered h' = Integration.registered h
        /\ (forall id,
              Integration.objects h' !! id
              = if bool_decide (id ∈ Integration.registered h)
                then Integration.clear_last_update_time <$> Integration.objects h !! id
                else Integration.objects h !! id)
        /\ (forall id,
              _response_data <$> Integration.objects h' !! id
              = _response_data <$> Integration.objects h !! id
              /\ _last_update_success <$> Integration.objects h' !! id
                 = _last_update_success <$> Integration.objects h !! id))
  /\ (forall self,
        NoDup (Integration.registered h) ->
        ~ In (self, true)
             (map (fun entity => (entity, true))
                  (Integration.registered
                     (Integration.async_will_remove_from_hass self h)))).
Proof.
  split; [|split].
  - intros Hnone. unfold Integration.daily_data_refresh. rewrite Hnone. reflexivity.
  - intros Hsome. unfold Integration.daily_data_refresh, Integration.registered.
    destruct (Integration.domain_data h) as [dd|] eqn:Hdd; [|congruence].
    eexists. split; [reflexivity|].
    destruct (refresh_loop (match Integration.entities dd with
                            | Some l => l | None => [] end) h)
      as (Hs & Hd & _ & Ho).
    cbv zeta in Hs, Hd, Ho.
    split; [exact Hs|]. split; [rewrite Hd, Hdd; reflexivity|].
    split; [exact Ho|].
    intros id. rewrite Ho.
    destruct (bool_decide _); [|split; reflexivity].
    destruct (Integration.objects h !! id); split; reflexivity.
  - intros self Hnd Hin. apply in_map_iff in Hin. destruct Hin as (x & Hx & Hin).
    injection Hx as ->. rewrite registered_removed in Hin.
    destruct (remove_first_nodup self _ Hnd) as [_ Hgone]. exact (Hgone Hin).
Qed.

Lemma daily_refresh_schedules_registered_witness :
  exists h',
    Integration.daily_data_refresh
      (@Integration.mkHass SpecDownloader
         (Some (Integration.mkDomainData (Some [3; 5]%nat) None))
         (<[3%nat := FetchScenarios.loaded_entity]> ∅) ∅ [] 0 [] [] false [] 0 0)
    = Ok h'
    /\ Integration.scheduled h' = [(5%nat, true); (3%nat, true)].
Proof.
  destruct (daily_refresh_schedules_registered SpecDownloader
              (@Integration.mkHass SpecDownloader
                 (Some (Integration.mkDomainData (Some [3; 5]%nat) None))
                 (<[3%nat := FetchScenarios.loaded_entity]> ∅) ∅ [] 0 [] [] false [] 0 0))
    as (_ & H & _).
  destruct (H ltac:(discriminate)) as (h' & E & Hs & _).
  exists h'. split; [exact E|exact Hs].
Defined.

Section FrontendFacts.
Context {D : Downloader}.

(** One call of [_ensure_frontend_card]. *)
Lemma ensure_frontend_card_once (env : nat -> Integration.FrontendCall)
    (h : Integration.Hass) :
  let c := env (Integration.frontend_calls h) in
  let h' := Integration._ensure_frontend_card env h in
  Integration.frontend_calls h' = S (Integration.frontend_calls h)
  /\ Integration.domain_data h' = Integration.domain_data h
  /\ Integration.objects h' = Integration.objects h
  /\ Integration.listeners h' = Integration.listeners h
  /\ Integration.next_handle h' = Integration.next_handle h
  /\ Integration.services h' = Integration.services h
  /\ Integration.scheduled h' = Integration.scheduled h
  /\ Integration.interval_unsub h' = Integration.interval_unsub h
  /\ ((Integration._FRONTEND_REGISTERED h = false
       /\ Integration.add_url_ok c = true
       /\ Integration._FRONTEND_REGISTERED h' = true
       /\ Integration.extra_js_urls h'
          = ("/local/cez_hdo/cez-hdo-card.js?v="
             ++ PyFormat.decimal (Integration.epoch c))%string
              :: Integration.extra_js_urls h)
      \/ ((Integration._FRONTEND_REGISTERED h = true
           \/ Integration.add_url_ok c = false)
          /\ Integration._FRONTEND_REGISTERED h' = Integration._FRONTEND_REGISTERED h
          /\ Integration.extra_js_urls h' = Integration.extra_js_urls h)).
Proof.
  intros c h'. subst c h'. unfold Integration._ensure_frontend_card.
  cbn [Integration._deploy_frontend_file Integration._FRONTEND_REGISTERED].
  destruct (Integration._FRONTEND_REGISTERED h) eqn:Hflag; cbn [negb].
  - repeat (split; [reflexivity|]). right. split; [left; reflexivity|].
    split; [exact Hflag|reflexivity].
  - destruct (Integration.add_url_ok (env (Integration.frontend_calls h))) eqn:Hadd.
    + repeat (split; [reflexivity|]). left. repeat split.
    + repeat (split; [reflexivity|]). right. split; [right; reflexivity|].
      split; [exact Hflag|reflexivity].
Qed.

End FrontendFacts.

(** X15. However often [_ensure_frontend_card] runs and whatever happens
    to the file, the card's URL is registered at most once: nothing is
    added once the module's flag is set, and the flag is set as soon as a
    URL was added.  The registration does not wait for the file: with the
    flag clear and [add_extra_js_url] returning, the URL is registered,
    with [int(time.time())] as its version, even when the card could not be
    copied. *)
Theorem frontend_url_registered_at_most_once
    (D : Downloader) (env : nat -> Integration.FrontendCall) (n : nat)
    (h : Integration.Hass) :
  let h' := Nat.iter n (Integration._ensure_frontend_card env) h in
  (exists added,
     Integration.extra_js_urls h' = added ++ Integration.extra_js_urls h
     /\ (length added <= 1)%nat
     /\ (Integration._FRONTEND_REGISTERED h = true -> added = [])
     /\ (added <> [] -> Integration._FRONTEND_REGISTERED h' = true))
  /\ (Integration._FRONTEND_REGISTERED h = false ->
      Integration.add_url_ok (env (Integration.frontend_calls h)) = true ->
      Integration.extra_js_urls (Integration._ensure_frontend_card env h)
      = ("/local/cez_hdo/cez-hdo-card.js?v="
         ++ PyFormat.decimal (Integration.epoch (env (Integration.frontend_calls h))))%string
          :: Integration.extra_js_urls h).
Proof.
  intros h'. subst h'. split.
  - induction n as [|n IH].
    + exists []. simpl. split; [reflexivity|]. split; [lia|]. split; [reflexivity|].
      congruence.
    + destruct IH as (added & Hurls & Hlen & Hset & Hflag).
      rewrite Nat.iter_succ.
      pose proof (ensure_frontend_card_once env
                    (Nat.iter n (Integration._ensure_frontend_card env) h)) as Hone.
      cbv zeta in Hone.
      destruct Hone as (_ & _ & _ & _ & _ & _ & _ & _ & Hcase).
      destruct Hcase as [(Hclear & _ & Hnow & Hnew)|(_ & Hsame & Hold)].
      * assert (added = []) as ->.
        { destruct added as [|u added]; [reflexivity|].
          rewrite Hflag in Hclear by discriminate. discriminate Hclear. }
        eexists [_]. rewrite Hnew, Hurls. split; [reflexivity|].
        split; [simpl; lia|]. split.
        -- intros Hh. exfalso. clear - Hclear Hh.
           assert (Hmono : forall m, Integration._FRONTEND_REGISTERED
                             (Nat.iter m (Integration._ensure_frontend_card env) h) = true).
           { induction m as [|m IHm]; [exact Hh|]. rewrite Nat.iter_succ.
             pose proof (ensure_frontend_card_once env
                           (Nat.iter m (Integration._ensure_frontend_card env) h)) as H1.
             cbv zeta in H1. destruct H1 as (_ & _ & _ & _ & _ & _ & _ & _ & Hc).
             destruct Hc as [(_ & _ & Ht & _)|(_ & Hs & _)]; [exact Ht|].
             rewrite Hs. exact IHm. }
           rewrite Hmono in Hclear. discriminate Hclear.
        -- intros _. exact Hnow.
      * exists added. rewrite Hold, Hsame. auto.
  - intros Hclear Hadd.
    pose proof (ensure_frontend_card_once env h) as Hone. cbv zeta in Hone.
    destruct Hone as (_ & _ & _ & _ & _ & _ & _ & _ & Hcase).
    destruct Hcase as [(_ & _ & _ & Hnew)|([Hset|Hfail] & _)]; [exact Hnew| |]; congruence.
Qed.

Lemma frontend_url_registered_at_most_once_witness :
  Integration.extra_js_urls
    (Integration._ensure_frontend_card
       (fun _ => Integration.mkFrontendCall false false false true 1700000000)
       (@Integration.mkHass SpecDownloader None ∅ ∅ [] 0 [] [] false [] 0 0))
  = ["/local/cez_hdo/cez-hdo-card.js?v=1700000000"%string].
Proof.
  destruct (frontend_url_registered_at_most_once SpecDownloader
              (fun _ => Integration.mkFrontendCall false false false true 1700000000)
              1 (@Integration.mkHass SpecDownloader None ∅ ∅ [] 0 [] [] false [] 0 0))
    as (_ & H).
  exact (H eq_refl eq_refl).
Defined.

Section SetupFacts.
Context {D : Downloader}.

Lemma cancel_fresh (handle : nat) (l : list nat) :
  Forall (fun x => (x < handle)%nat) l ->
  List.filter (fun x => negb (Nat.eqb x handle)) (handle :: l) = l.
Proof.
  intros Hall. simpl. rewrite Nat.eqb_refl. simpl.
  induction Hall as [|x l Hx _ IH]; [reflexivity|].
  simpl. destruct (Nat.eqb_spec x handle) as [->|Hne]; [lia|].
  simpl. rewrite IH. reflexivity.
Qed.

(** What [async_setup] leaves behind, field by field. *)
Lemma async_setup_fields (env : nat -> Integration.FrontendCall) (h : Integration.Hass) :
  let h' := snd (Integration.async_setup env h) in
  fst (Integration.async_setup env h) = true
  /\ Integration.registered h' = Integration.registered h
  /\ Integration.objects h' = Integration.objects h
  /\ Integration.listeners h' = Integration.next_handle h :: Integration.listeners h
  /\ (exists dd, Integration.domain_data h' = Some dd
                 /\ Integration.daily_refresh_unsub dd = Some (Integration.next_handle h))
  /\ Integration.services h'
     = "list_signals"%string :: "reload_frontend_card"%string :: Integration.services h
  /\ Integration.frontend_calls h' = (Integration.frontend_calls h + 2)%nat
  /\ exists added,
       Integration.extra_js_urls h' = added ++ Integration.extra_js_urls h
       /\ (length added <= 1)%nat.
Proof.
  intros h'. subst h'. unfold Integration.async_setup.
  pose proof (ensure_frontend_card_once env h) as H1. cbv zeta in H1.
  set (h1 := Integration._ensure_frontend_card env h) in *.
  destruct H1 as (Hc1 & Hd1 & Ho1 & Hl1 & Hn1 & Hs1 & _ & _ & Hu1).
  set (h2 := match Integration.domain_data h1 with
             | Some _ => h1
             | None => Integration.set_domain_data
                         (Some (Integration.mkDomainData None None)) h1
             end).
  assert (H2 : Integration.registered h2 = Integration.registered h
               /\ Integration.domain_data h2 <> None
               /\ Integration.objects h2 = Integration.objects h
               /\ Integration.listeners h2 = Integration.listeners h
               /\ Integration.next_handle h2 = Integration.next_handle h
               /\ Integration.services h2 = Integration.services h
               /\ Integration.frontend_calls h2 = S (Integration.frontend_calls h)
               /\ Integration._FRONTEND_REGISTERED h2 = Integration._FRONTEND_REGISTERED h1
               /\ Integration.extra_js_urls h2 = Integration.extra_js_urls h1).
  { subst h2. unfold Integration.registered. rewrite <- Hd1.
    destruct (Integration.domain_data h1) as [dd|] eqn:E.
    - rewrite E. repeat split; try assumption. discriminate.
    - simpl. repeat split; try assumption. discriminate. }
  destruct H2 as (Hr2 & Hd2 & Ho2 & Hl2 & Hn2 & Hs2 & Hc2 & Hf2 & Hu2).
  cbn [Integration.track].
  destruct (Integration.domain_data h2) as [dd2|] eqn:Edd2; [|congruence].
  cbn [Integration.domain_data].
  match goal with
  | |- context [Integration._ensure_frontend_card env ?x] => set (h4 := x)
  end.
  pose proof (ensure_frontend_card_once env h4) as H5. cbv zeta in H5.
  set (h5 := Integration._ensure_frontend_card env h4) in *.
  destruct H5 as (Hc5 & Hd5 & Ho5 & Hl5 & Hn5 & Hs5 & _ & _ & Hu5).
  subst h4. cbn [Integration.set_domain_data Integration.domain_data Integration.objects
    Integration.listeners Integration.next_handle Integration.services
    Integration.frontend_calls Integration._FRONTEND_REGISTERED
    Integration.extra_js_urls] in *.
  cbn [fst snd Integration.register_service Integration.registered
    Integration.domain_data Integration.objects Integration.listeners
    Integration.services Integration.frontend_calls Integration.extra_js_urls].
  split; [reflexivity|].
  split.
  { transitivity (Integration.registered h2); [|exact Hr2].
    unfold Integration.registered.
    cbn [Integration.register_service Integration.domain_data].
    rewrite Hd5, Edd2. reflexivity. }
  split; [rewrite Ho5; exact Ho2|].
  split; [rewrite Hl5, Hn2, Hl2; reflexivity|].
  split; [eexists; split; [exact Hd5|cbn; rewrite Hn2; reflexivity]|].
  split; [rewrite Hs5, Hs2; reflexivity|].
  split; [rewrite Hc5, Hc2; lia|].
  destruct Hu1 as [(Hclear1 & _ & Hset1 & Hnew1)|(_ & Hsame1 & Hold1)].
  - destruct Hu5 as [(Hclear5 & _)|(_ & _ & Hold5)].
    + rewrite Hf2, Hset1 in Hclear5. discriminate Hclear5.
    + eexists [_]. rewrite Hold5, Hu2, Hnew1. split; [reflexivity|simpl; lia].
  - destruct Hu5 as [(_ & _ & _ & Hnew5)|(_ & _ & Hold5)].
    + eexists [_]. rewrite Hnew5, Hu2, Hold1. split; [reflexivity|simpl; lia].
    + exists []. rewrite Hold5, Hu2, Hold1. split; [reflexivity|simpl; lia].
Qed.

End SetupFacts.

(** X16. [async_setup] returns true and adds to the host without taking
    away: the entities registered before stay registered and the entity
    objects are untouched; one new listener, the daily refresh, becomes
    active and its handle is stored in [hass.data]; the two services are
    registered; and although [_ensure_frontend_card] runs twice, so that
    the card file is deployed twice, at most one URL is registered. *)
Theorem async_setup_adds_and_keeps
    (D : Downloader) (env : nat -> Integration.FrontendCall) (h : Integration.Hass) :
  let h' := snd (Integration.async_setup env h) in
  fst (Integration.async_setup env h) = true
  /\ Integration.registered h' = Integration.registered h
  /\ Integration.objects h' = Integration.objects h
  /\ Integration.listeners h' = Integration.next_handle h :: Integration.listeners h
  /\ (exists dd, Integration.domain_data h' = Some dd
                 /\ Integration.daily_refresh_unsub dd = Some (Integration.next_handle h))
  /\ Integration.services h'
     = "list_signals"%string :: "reload_frontend_card"%string :: Integration.services h
  /\ Integration.frontend_calls h' = (Integration.frontend_calls h + 2)%nat
  /\ exists added,
       Integration.extra_js_urls h' = added ++ Integration.extra_js_urls h
       /\ (length added <= 1)%nat.
Proof. exact (async_setup_fields env h). Qed.

(** X17. Unloading after setup stops the daily refresh: when every active
    listener was started by the host's counter, the listeners after
    [async_setup] followed by [async_unload_entry] are those from before
    the setup, and the registered entities are unchanged; unloading with no
    [hass.data[DOMAIN]] changes nothing.  Both return true. *)
Theorem unload_stops_daily_refresh
    (D : Downloader) (env : nat -> Integration.FrontendCall) (h : Integration.Hass) :
  Forall (fun x => (x < Integration.next_handle h)%nat) (Integration.listeners h) ->
  let h1 := snd (Integration.async_setup env h) in
  fst (Integration.async_unload_entry h1) = true
  /\ Integration.listeners (snd (Integration.async_unload_entry h1))
     = Integration.listeners h
  /\ Integration.registered (snd (Integration.async_unload_entry h1))
     = Integration.registered h
  /\ (Integration.domain_data h = None -> Integration.async_unload_entry h = (true, h)).
Proof.
  intros Hfresh h1. subst h1.
  destruct (async_setup_fields env h)
    as (_ & Hreg & _ & Hl & (dd & Hdd & Hunsub) & _).
  cbv zeta in Hreg, Hl, Hdd.
  unfold Integration.async_unload_entry at 1 2 3. rewrite Hdd, Hunsub.
  cbn [fst snd Integration.cancel Integration.listeners Integration.registered
    Integration.domain_data].
  split; [reflexivity|]. split; [rewrite Hl; apply cancel_fresh; exact Hfresh|].
  split.
  - rewrite <- Hreg. reflexivity.
  - intros Hnone. unfold Integration.async_unload_entry. rewrite Hnone. reflexivity.
Qed.

Lemma unload_stops_daily_refresh_witness :
  Integration.listeners
    (snd (Integration.async_unload_entry
            (snd (Integration.async_setup
                    (fun _ => Integration.mkFrontendCall true true true true 1700000000)
                    (@Integration.mkHass SpecDownloader None ∅ ∅ [0; 1]%nat 2
                       [] [] false [] 0 0)))))
  = [0; 1]%nat.
Proof.
  destruct (unload_stops_daily_refresh SpecDownloader
              (fun _ => Integration.mkFrontendCall true true true true 1700000000)
              (@Integration.mkHass SpecDownloader None ∅ ∅ [0; 1]%nat 2
                 [] [] false [] 0 0)) as (_ & H & _).
  - repeat constructor.
  - exact H.
Defined.

Section TimerFacts.
Context {D : Downloader}.

Lemma removal_keeps_listeners (self : nat) (h : Integration.Hass) :
  Integration.listeners (Integration.async_will_remove_from_hass self h)
  = Integration.listeners h.
Proof.
  unfold Integration.async_will_remove_from_hass.
  destruct (Integration.domain_data h) as [[[l|] u]|]; try reflexivity.
  cbn [Integration.entities]. destruct (bool_decide (self ∈ l)); reflexivity.
Qed.

Lemma frequent_added_fields (self : nat) (h : Integration.Hass) :
  let h1 := Integration.frequent_async_added_to_hass self h in
  Integration.registered h1
  = Integration.registered (Integration.async_added_to_hass self h)
  /\ Integration.listeners h1 = Integration.next_handle h :: Integration.listeners h
  /\ Integration.interval_unsub h1 !! self = Some (Integration.next_handle h).
Proof.
  intros h1. subst h1. unfold Integration.frequent_async_added_to_hass.
  cbn [Integration.track Integration.set_interval_unsub Integration.interval_unsub
    Integration.listeners].
  split; [reflexivity|]. split; [reflexivity|]. apply lookup_insert_eq.
Qed.

Lemma frequent_removed (self handle : nat) (h1 : Integration.Hass) :
  Integration.interval_unsub h1 !! self = Some handle ->
  Integration.registered (Integration.frequent_async_will_remove_from_hass self h1)
  = Integration.remove_first self (Integration.registered h1)
  /\ Integration.listeners (Integration.frequent_async_will_remove_from_hass self h1)
     = List.filter (fun x => negb (Nat.eqb x handle)) (Integration.listeners h1).
Proof.
  intros Hh. unfold Integration.frequent_async_will_remove_from_hass. rewrite Hh.
  rewrite registered_removed, removal_keeps_listeners. split; reflexivity.
Qed.

End TimerFacts.

(** X18. The one-second timer of a countdown sensor: adding the entity
    registers it and starts exactly one listener, whose handle the entity
    keeps; removing it stops that listener and unregisters the entity, so
    that listeners and registered entities are as before when the entity
    was not registered and every active listener was started by the host's
    counter. *)
Theorem frequent_entity_timer_is_stopped
    (D : Downloader) (self : nat) (h : Integration.Hass) :
  Forall (fun x => (x < Integration.next_handle h)%nat) (Integration.listeners h) ->
  ~ In self (Integration.registered h) ->
  let h1 := Integration.frequent_async_added_to_hass self h in
  let h2 := Integration.frequent_async_will_remove_from_hass self h1 in
  Integration.listeners h1 = Integration.next_handle h :: Integration.listeners h
  /\ Integration.interval_unsub h1 !! self = Some (Integration.next_handle h)
  /\ In self (Integration.registered h1)
  /\ Integration.listeners h2 = Integration.listeners h
  /\ Integration.registered h2 = Integration.registered h.
Proof.
  intros Hfresh Hnot h1 h2. subst h2 h1.
  destruct (frequent_added_fields self h) as (Hreg & Hl & Hu). cbv zeta in Hreg, Hl, Hu.
  destruct (frequent_removed self _ _ Hu) as (Hreg2 & Hl2).
  rewrite registered_added in Hreg.
  rewrite bool_decide_eq_false_2 in Hreg by (rewrite list_elem_of_In; exact Hnot).
  split; [exact Hl|]. split; [exact Hu|].
  split; [rewrite Hreg; apply in_or_app; right; left; reflexivity|].
  split.
  - rewrite Hl2, Hl. apply cancel_fresh. exact Hfresh.
  - rewrite Hreg2, Hreg. apply remove_first_snoc. exact Hnot.
Qed.

Lemma frequent_entity_timer_is_stopped_witness :
  Integration.listeners
    (Integration.frequent_async_will_remove_from_hass 7
       (Integration.frequent_async_added_to_hass 7
          (@Integration.mkHass SpecDownloader
             (Some (Integration.mkDomainData (Some [3; 5]%nat) (Some 0%nat)))
             ∅ ∅ [0]%nat 1 [] [] false [] 0 0)))
  = [0]%nat.
Proof.
  destruct (frequent_entity_timer_is_stopped SpecDownloader 7
              (@Integration.mkHass SpecDownloader
                 (Some (Integration.mkDomainData (Some [3; 5]%nat) (Some 0%nat)))
                 ∅ ∅ [0]%nat 1 [] [] false [] 0 0)) as (_ & _ & _ & H & _).
  - repeat constructor.
  - vm_compute. intuition congruence.
  - exact H.
Defined.

(** ** The service [list_signals] *)

Section ListSignalsFacts.

Lemma first_seen_from_ext (seen seen' l : list string) :
  (forall x, x ∈ seen <-> x ∈ seen') ->
  first_seen_from seen l = first_seen_from seen' l.
Proof.
  revert seen seen'. induction l as [|x l IH]; intros seen seen' Hext; [reflexivity|].
  simpl. destruct (bool_decide_reflect (x ∈ seen)) as [Hin|Hnot].
  - rewrite bool_decide_eq_true_2 by (apply Hext; exact Hin). apply IH. exact Hext.
  - rewrite bool_decide_eq_false_2 by (rewrite <- Hext; exact Hnot).
    f_equal. apply IH. intros y. rewrite !elem_of_cons, Hext. reflexivity.
Qed.

Lemma first_seen_from_elem (seen l : list string) (x : string) :
  x ∈ first_seen_from seen l <-> x ∈ l /\ x ∉ seen.
Proof.
  revert seen. induction l as [|y l IH]; intros seen; simpl.
  - split; [intros H; apply elem_of_nil in H; contradiction|].
    intros [H _]. apply elem_of_nil in H. contradiction.
  - destruct (bool_decide_reflect (y ∈ seen)) as [Hin|Hnot].
    + rewrite IH, elem_of_cons. split; [tauto|].
      intros [[->|Hx] Hs]; [contradiction|tauto].
    + rewrite elem_of_cons, IH, !elem_of_cons. split.
      * intros [->|[Hx Hs]]; [tauto|]. split; [tauto|]. intros Hxs. apply Hs. tauto.
      * intros [[->|Hx] Hs]; [tauto|].
        destruct (decide (x = y)) as [->|Hne]; [tauto|].
        right. split; [exact Hx|]. intros [?|?]; tauto.
Qed.

Lemma first_seen_from_nodup (seen l : list string) :
  NoDup (first_seen_from seen l).
Proof.
  revert seen. induction l as [|y l IH]; intros seen; simpl; [constructor|].
  destruct (bool_decide (y ∈ seen)); [apply IH|].
  constructor; [|apply IH].
  rewrite first_seen_from_elem, elem_of_cons. tauto.
Qed.

Lemma add_signal_keys (groups : list (string * list ListSignals.SignalEntry))
    (signal : gmap string string) :
  map fst (ListSignals.add_signal groups signal)
  = if bool_decide (ListSignals.signal_name signal ∈ map fst groups)
    then map fst groups
    else map fst groups ++ [ListSignals.signal_name signal].
Proof.
  unfold ListSignals.add_signal.
  destruct (bool_decide (ListSignals.signal_name signal ∈ map fst groups)).
  - rewrite map_map. apply map_ext. intros [k v]. simpl.
    destruct (String.eqb k (ListSignals.signal_name signal)); reflexivity.
  - rewrite map_app. reflexivity.
Qed.

Lemma group_signals_keys (signals : list (gmap string string))
    (groups : list (string * list ListSignals.SignalEntry)) :
  map fst (fold_left ListSignals.add_signal signals groups)
  = map fst groups
    ++ first_seen_from (map fst groups) (map ListSignals.signal_name signals).
Proof.
  revert groups. induction signals as [|s signals IH]; intros groups.
  - simpl. rewrite app_nil_r. reflexivity.
  - cbn [fold_left map first_seen_from]. rewrite IH, add_signal_keys.
    destruct (bool_decide (ListSignals.signal_name s ∈ map fst groups)); [reflexivity|].
    rewrite <- app_assoc. cbn [app]. do 2 f_equal.
    apply first_seen_from_ext. intros x.
    rewrite elem_of_app, !elem_of_cons, elem_of_nil. tauto.
Qed.

End ListSignalsFacts.

(** X19. The service [list_signals], called with an EAN and answered with
    status 200: the warning it logs lists, after the EAN, the signal names
    of the payload joined by a comma and a space, each name once, in the
    order in which the payload first shows it; a name is listed exactly
    when some entry carries it, and an entry without the key [signal]
    counts as [unknown]. *)
Theorem list_signals_names_once_in_order
    (ean : string) (api : string -> ListSignals.api_outcome)
    (signals : list (gmap string string)) :
  ean <> ""%string ->
  api ean = ListSignals.ApiResponse 200 signals ->
  let names := ListSignals.signal_names signals in
  ListSignals.list_signals (Some ean) api
  = ListSignals.LogWarning
      ("📡 Nalezené signály pro EAN " ++ ean ++ ": " ++ String.concat ", " names)%string
  /\ names = first_seen (map ListSignals.signal_name signals)
  /\ NoDup names
  /\ (forall name, In name names
                   <-> exists signal, In signal signals
                                      /\ ListSignals.signal_name signal = name)
  /\ (forall signal, In signal signals -> signal !! "signal"%string = None ->
                     In "unknown"%string names).
Proof.
  intros Hean Hapi names.
  assert (Hnames : names = first_seen (map ListSignals.signal_name signals)).
  { subst names. unfold ListSignals.signal_names, ListSignals.group_signals.
    rewrite group_signals_keys. reflexivity. }
  assert (Hin : forall name, In name names
                  <-> exists signal, In signal signals
                                     /\ ListSignals.signal_name signal = name).
  { intros name. rewrite Hnames. unfold first_seen.
    rewrite <- list_elem_of_In, first_seen_from_elem, list_elem_of_In, in_map_iff.
    split.
    - intros [(s & Hs & Hin) _]. exists s. tauto.
    - intros (s & Hin & Hs). split; [exists s; tauto|]. apply not_elem_of_nil. }
  split.
  - unfold ListSignals.list_signals.
    destruct (String.eqb_spec ean ""); [contradiction|]. rewrite Hapi. reflexivity.
  - split; [exact Hnames|]. split.
    + rewrite Hnames. apply first_seen_from_nodup.
    + split; [exact Hin|].
      intros signal Hs Hnone. apply Hin. exists signal. split; [exact Hs|].
      unfold ListSignals.signal_name. rewrite Hnone. reflexivity.
Qed.

Lemma list_signals_names_once_in_order_witness :
  ListSignals.list_signals (Some "859182400100000000"%string)
    (fun _ => ListSignals.ApiResponse 200
                [ {["signal" := "a3b4dp01"; "den" := "Pondělí"; "casy" := "00:00-06:00"]};
                  {["den" := "Úterý"]};
                  {["signal" := "a3b4dp01"; "den" := "Úterý"]} ]%string)
  = ListSignals.LogWarning
      "📡 Nalezené signály pro EAN 859182400100000000: a3b4dp01, unknown".
Proof.
  destruct (list_signals_names_once_in_order "859182400100000000"%string
              (fun _ => ListSignals.ApiResponse 200
                          [ {["signal" := "a3b4dp01"; "den" := "Pondělí";
                              "casy" := "00:00-06:00"]};
                            {["den" := "Úterý"]};
                            {["signal" := "a3b4dp01"; "den" := "Úterý"]} ]%string)
              [ {["signal" := "a3b4dp01"; "den" := "Pondělí"; "casy" := "00:00-06:00"]};
                {["den" := "Úterý"]};
                {["signal" := "a3b4dp01"; "den" := "Úterý"]} ]%string
              ltac:(discriminate) eq_refl) as [H _].
  rewrite H. vm_compute. reflexivity.
Defined.

(** ** Errors of the parser, and the countdown from one second to the next *)

(** X20. An exception of the parser other than [KeyError] and [TypeError]
    is not turned into "no data": [_get_hdo_data] raises it, and so do all
    four countdown queries, the time sensors, the attributes of the
    countdown sensors and the timer callback; the entity is left as it
    was. *)
Theorem parser_errors_propagate
    (D : Downloader) (s : State) (p : payload) (ex : exn) :
  _response_data (self s) = Some p ->
  _last_update_success (self s) = true ->
  isHdo p (effective_signal (self s)) (clock s) = Raise ex ->
  CezHdoBaseEntity.catches_KeyError_TypeError ex = false ->
  fst (CezHdoBaseEntity._get_hdo_data s) = Raise ex
  /\ (forall k, fst (query k s) = Raise ex
                /\ fst (boundary_sensor k s) = Raise ex
                /\ self (snd (query k s)) = self s)
  /\ (forall cls, In cls Sensor.countdown_sensors ->
                  fst (Sensor.extra_state_attributes cls s) = Raise ex
                  /\ fst (Sensor._async_update_state cls s) = Raise ex).
Proof.
  intros Hp Hok Hraise Hcaught.
  assert (Hout : hdo_outcome (self s) (clock s) = Raise ex).
  { unfold hdo_outcome. rewrite Hp, Hok, Hraise, Hcaught. reflexivity. }
  assert (Hq : forall k, fst (query k s) = Raise ex /\ self (snd (query k s)) = self s).
  { intros k. rewrite query_run, Hout. split; reflexivity. }
  split; [rewrite get_hdo_data_result; exact Hout|]. split.
  - intros k. destruct (Hq k) as [Hk Hself]. split; [exact Hk|]. split; [|exact Hself].
    destruct k; simpl;
      unfold TimeSensors.LowTariffEnd, TimeSensors.HighTariffEnd,
        TimeSensors.LowTariffStart, TimeSensors.HighTariffStart, bind;
      rewrite get_hdo_data_run, Hout; reflexivity.
  - intros cls Hcls.
    destruct (countdown_sensor_cases cls Hcls) as (k & prefix & inactive & ->).
    destruct (Hq k) as [Hk _].
    split.
    + simpl. rewrite remaining_attributes_run.
      destruct (query k s) as [[[r|]|ex'] s1]; simpl in Hk; try discriminate Hk.
      simpl. congruence.
    + unfold Sensor._async_update_state, Sensor.async_schedule_update_ha_state; simpl.
      unfold bind at 1. unfold ret at 1. unfold bind at 1.
      destruct (query k s) as [[[r|]|ex'] s1]; simpl in Hk; try discriminate Hk.
      simpl. congruence.
Qed.

Lemma parser_errors_propagate_witness :
  fst (CezHdoBaseEntity.get_low_tariff_remaining_seconds
         (mkState (@Scenarios.loaded (Scenarios.failing ValueError) tt)
                  (Scenarios.at_ 2024 1 1 10 0 0 0) []))
  = Raise ValueError.
Proof.
  destruct (parser_errors_propagate (Scenarios.failing ValueError)
              (mkState (@Scenarios.loaded (Scenarios.failing ValueError) tt)
                       (Scenarios.at_ 2024 1 1 10 0 0 0) [])
              tt ValueError eq_refl eq_refl eq_refl eq_refl) as (_ & H & _).
  destruct (H LowRemaining) as [Hq _]. exact Hq.
Defined.


